(** * curriculum.js: the event normalizer and the CSV exporter

    A shallow embedding of [src/curriculum.js] and the properties of its two
    functions, [cleanJsonForLLM] and [downloadJsonAsCsv].

    Conventions of the embedding.
    - A JavaScript value is a term of [value]: the JSON shapes the feed
      delivers plus [undefined].  An object is the list of its own properties
      in enumeration order (the order [Object.keys] yields).
    - A string is carried by its UTF-8 encoding, the encoding the exported
      blob is written in.  Every character the program inspects (comma,
      quote, newline, underscore, digits) is ASCII, so testing and replacing
      them on the encoding is the same as on the code units.
    - A number is carried by [Z]: the feed's numbers are counts and epoch
      milliseconds, and their text is plain decimal.
    - Property reads are reads of own properties: the data is plain JSON,
      and a name that would reach a member of a built-in prototype (such as
      [constructor]) is outside the embedding.
    - A thrown exception is the [Throw] case of [result].

    Where the built-ins are embedded in part.  [ToString] and [Date_new]
    are the language's conversions on the values [printable] accepts; on an
    object with a [toString] key of its own the language throws a
    [TypeError] instead, and a number beyond the safe integers is printed
    by its shortest digits, from [1e21] on with an exponent.  [get] is the language's read for every name that is an own
    property or is not one of [Object_prototype_names]; under one of these
    names the language finds the inherited member.  The fixed names the
    normalizer reads are none of them. *)

From Stdlib Require Import ZArith List String Ascii Bool Lia DecimalString.
Import ListNotations.

Open Scope string_scope.
Open Scope list_scope.
Open Scope Z_scope.

(** ** Exceptions *)

Inductive error : Type :=
| TypeError
| RangeError.

Inductive result (A : Type) : Type :=
| Ok (a : A)
| Throw (e : error).

Arguments Ok {A} a.
Arguments Throw {A} e.

Definition bind {A B : Type} (m : result A) (k : A -> result B) : result B :=
  match m with
  | Ok a => k a
  | Throw e => Throw e
  end.

Notation "'do' x <- m ; k" := (bind m (fun x => k))
  (at level 10, x name, m at level 100, k at level 200).

(** [Array.prototype.map] with a callback that may throw: the elements are
    visited in order and the first exception leaves the loop. *)
Fixpoint mapM {A B : Type} (f : A -> result B) (xs : list A) : result (list B) :=
  match xs with
  | [] => Ok []
  | x :: rest =>
      do y <- f x;
      do ys <- mapM f rest;
      Ok (y :: ys)
  end.

(** ** Values *)

#[warnings="-register-all"]
Inductive value : Type :=
| VUndefined
| VNull
| VBool (b : bool)
| VNum (n : Z)
| VStr (s : string)
| VArr (xs : list value)
| VObj (props : list (string * value)).

Inductive jstype : Type :=
| TyUndefined
| TyObject
| TyBoolean
| TyNumber
| TyString.

(** [typeof v] *)
Definition typeof (v : value) : jstype :=
  match v with
  | VUndefined => TyUndefined
  | VNull => TyObject
  | VBool _ => TyBoolean
  | VNum _ => TyNumber
  | VStr _ => TyString
  | VArr _ => TyObject
  | VObj _ => TyObject
  end.

Definition jstype_eqb (a b : jstype) : bool :=
  match a, b with
  | TyUndefined, TyUndefined => true
  | TyObject, TyObject => true
  | TyBoolean, TyBoolean => true
  | TyNumber, TyNumber => true
  | TyString, TyString => true
  | _, _ => false
  end.

(** The condition of [if (v)], and of [!v] negated. *)
Definition truthy (v : value) : bool :=
  match v with
  | VUndefined => false
  | VNull => false
  | VBool b => b
  | VNum n => negb (n =? 0)
  | VStr s => negb (String.eqb s EmptyString)
  | VArr _ => true
  | VObj _ => true
  end.

(** [v != null] and [v ?? d] *)
Definition nullish (v : value) : bool :=
  match v with
  | VUndefined => true
  | VNull => true
  | _ => false
  end.

Definition coalesce (v d : value) : value :=
  if nullish v then d else v.

(** [Array.isArray(v)] *)
Definition isArray (v : value) : bool :=
  match v with
  | VArr _ => true
  | _ => false
  end.

(** [v === n] against a number literal *)
Definition strict_eq_num (v : value) (lit : Z) : bool :=
  match v with
  | VNum n => n =? lit
  | _ => false
  end.

(** [v === "..."] against a string literal *)
Definition strict_eq_str (v : value) (lit : string) : bool :=
  match v with
  | VStr s => String.eqb s lit
  | _ => false
  end.

(** ** Text of numbers, and of values *)

Definition Z_to_string (n : Z) : string :=
  NilEmpty.string_of_int (Z.to_int n).

Definition nat_to_string (n : nat) : string :=
  NilEmpty.string_of_uint (Nat.to_uint n).

Definition comma : ascii := "044"%char.
Definition dquote : ascii := "034"%char.
Definition newline : ascii := "010"%char.
Definition underscore : ascii := "095"%char.

Definition str1 (c : ascii) : string := String c EmptyString.

(** [parts.join(sep)] on strings *)
Fixpoint join (sep : string) (parts : list string) : string :=
  match parts with
  | [] => EmptyString
  | [p] => p
  | p :: rest => (p ++ sep ++ join sep rest)%string
  end.

(** [String(v)].  An array prints its elements separated by commas, with
    [null] and [undefined] elements printed as nothing; a plain object prints
    as [[object Object]]. *)
Fixpoint ToString (v : value) : string :=
  match v with
  | VUndefined => "undefined"
  | VNull => "null"
  | VBool true => "true"
  | VBool false => "false"
  | VNum n => Z_to_string n
  | VStr s => s
  | VArr xs =>
      join (str1 comma)
        ((fix elems (l : list value) : list string :=
            match l with
            | [] => []
            | x :: rest =>
                (match x with
                 | VUndefined => EmptyString
                 | VNull => EmptyString
                 | _ => ToString x
                 end) :: elems rest
            end) xs)
  | VObj _ => "[object Object]"
  end.

(** The values [String(v)] and [new Date(v)] convert without a fault, with
    the text [ToString v].  An object that has a [toString] key of its own
    is not one: the conversion finds that property in place of the built-in
    method, a value of the data is no function, [valueOf] gives back the
    object, and a [TypeError] is thrown.  A number beyond the safe
    integers, [2^53 - 1] in size, is not one either: its text is the
    shortest digits that read back as the same number, with an exponent
    from [1e21] on.  An array is converted through its elements, [null] and
    [undefined] among them printing as nothing. *)
Fixpoint printable (v : value) : bool :=
  match v with
  | VNum n => Z.abs n <=? 9007199254740991
  | VArr xs =>
      (fix elems (l : list value) : bool :=
         match l with
         | [] => true
         | x :: rest =>
             (match x with
              | VUndefined => true
              | VNull => true
              | _ => printable x
              end) && elems rest
         end) xs
  | VObj props => negb (existsb (String.eqb "toString") (map fst props))
  | _ => true
  end.

(** ** Properties *)

Fixpoint assoc (k : string) (props : list (string * value)) : option value :=
  match props with
  | [] => None
  | (k', v) :: rest => if String.eqb k k' then Some v else assoc k rest
  end.

(** The index keys ["0"], ["1"], ... of an array of [n] elements. *)
Definition index_keys (n : nat) : list string :=
  map nat_to_string (seq 0 n).

Fixpoint chars (s : string) : list ascii :=
  match s with
  | EmptyString => []
  | String c rest => c :: chars rest
  end.

(** The own enumerable properties of a value, in enumeration order.  The
    index properties of a string are taken on its encoding, which is the
    string itself for ASCII text; on other text the language indexes the
    UTF-16 code units, so a record that is a string is within the embedding
    only when it is ASCII. *)
Definition own_props (v : value) : list (string * value) :=
  match v with
  | VObj props => props
  | VArr xs => combine (index_keys (List.length xs)) xs
  | VStr s =>
      combine (index_keys (String.length s))
              (map (fun c => VStr (str1 c)) (chars s))
  | _ => []
  end.

(** [Object.keys(v)] for a value that is not [null] or [undefined]. *)
Definition Object_keys (v : value) : list string :=
  map fst (own_props v).

(** [v[k]] and [v.k]: reading a property of [null] or [undefined] throws a
    [TypeError]; a property that is not there reads as [undefined].  Arrays
    and strings have their [length] besides their index properties. *)
Definition lookup (k : string) (props : list (string * value)) : value :=
  match assoc k props with
  | Some x => x
  | None => VUndefined
  end.

Definition get (v : value) (k : string) : result value :=
  match v with
  | VUndefined => Throw TypeError
  | VNull => Throw TypeError
  | VArr xs =>
      if String.eqb k "length" then Ok (VNum (Z.of_nat (List.length xs)))
      else Ok (lookup k (own_props v))
  | VStr s =>
      if String.eqb k "length" then Ok (VNum (Z.of_nat (String.length s)))
      else Ok (lookup k (own_props v))
  | _ => Ok (lookup k (own_props v))
  end.

(** The members every object inherits from [Object.prototype].  Under one
    of these names a read of an object that has no such key of its own
    gives the inherited member (a built-in function, or the prototype
    itself under [__proto__]), not [undefined]. *)
Definition Object_prototype_names : list string :=
  [ "constructor"; "hasOwnProperty"; "isPrototypeOf"; "propertyIsEnumerable";
    "toLocaleString"; "toString"; "valueOf"; "__proto__";
    "__defineGetter__"; "__defineSetter__";
    "__lookupGetter__"; "__lookupSetter__" ].

Definition inherited_name (k : string) : bool :=
  existsb (String.eqb k) Object_prototype_names.

(** [obj[k] = v] on the property list of a plain object: an existing key
    keeps its place, a new key goes last. *)
Fixpoint obj_set (props : list (string * value)) (k : string) (v : value)
  : list (string * value) :=
  match props with
  | [] => [(k, v)]
  | (k', v') :: rest =>
      if String.eqb k k' then (k', v) :: rest
      else (k', v') :: obj_set rest k v
  end.

(** ** The built-in [Date]

    The time value of a [Date] is a number of milliseconds since the epoch, or
    NaN (here [None]).  The calendar fields are the abstract operations of the
    language standard (Day, YearFromTime, MonthFromTime, ...), all in UTC. *)

Module DateTime.

Definition msPerDay : Z := 86400000.
Definition msPerHour : Z := 3600000.
Definition msPerMinute : Z := 60000.
Definition msPerSecond : Z := 1000.

Definition Day (t : Z) : Z := t / msPerDay.

Definition DayFromYear (y : Z) : Z :=
  365 * (y - 1970) + (y - 1969) / 4 - (y - 1901) / 100 + (y - 1601) / 400.

Definition DaysInYear (y : Z) : Z :=
  if negb (y mod 4 =? 0) then 365
  else if negb (y mod 100 =? 0) then 366
  else if negb (y mod 400 =? 0) then 365
  else 366.

(** The largest year whose first day is not after the day of [t]: an
    estimate from the mean length of a year, corrected by one. *)
Definition YearFromTime (t : Z) : Z :=
  let d := Day t in
  let y := 1970 + (400 * d) / 146097 in
  if DayFromYear (y + 1) <=? d then y + 1
  else if DayFromYear y <=? d then y
  else y - 1.

Definition InLeapYear (t : Z) : Z :=
  if DaysInYear (YearFromTime t) =? 366 then 1 else 0.

Definition DayWithinYear (t : Z) : Z :=
  Day t - DayFromYear (YearFromTime t).

(** Months are numbered from 0. *)
Definition MonthFromTime (t : Z) : Z :=
  let d := DayWithinYear t in
  let leap := InLeapYear t in
  if d <? 31 then 0
  else if d <? 59 + leap then 1
  else if d <? 90 + leap then 2
  else if d <? 120 + leap then 3
  else if d <? 151 + leap then 4
  else if d <? 181 + leap then 5
  else if d <? 212 + leap then 6
  else if d <? 243 + leap then 7
  else if d <? 273 + leap then 8
  else if d <? 304 + leap then 9
  else if d <? 334 + leap then 10
  else 11.

Definition DateFromTime (t : Z) : Z :=
  let d := DayWithinYear t in
  let leap := InLeapYear t in
  match MonthFromTime t with
  | 0 => d + 1
  | 1 => d - 30
  | 2 => d - 58 - leap
  | 3 => d - 89 - leap
  | 4 => d - 119 - leap
  | 5 => d - 150 - leap
  | 6 => d - 180 - leap
  | 7 => d - 211 - leap
  | 8 => d - 242 - leap
  | 9 => d - 272 - leap
  | 10 => d - 303 - leap
  | _ => d - 333 - leap
  end.

Definition HourFromTime (t : Z) : Z := (t / msPerHour) mod 24.
Definition MinFromTime (t : Z) : Z := (t / msPerMinute) mod 60.
Definition SecFromTime (t : Z) : Z := (t / msPerSecond) mod 60.
Definition msFromTime (t : Z) : Z := t mod msPerSecond.

(** TimeClip: a time value further than 8.64e15 ms from the epoch is NaN. *)
Definition TimeClip (t : Z) : option Z :=
  if Z.abs t <=? 8640000000000000 then Some t else None.

(** The day number of the first day of month [m] (from 0) of year [y]. *)
Definition DayFromMonth (y m : Z) : Z :=
  let leap := if DaysInYear y =? 366 then 1 else 0 in
  DayFromYear y +
  match m with
  | 0 => 0
  | 1 => 31
  | 2 => 59 + leap
  | 3 => 90 + leap
  | 4 => 120 + leap
  | 5 => 151 + leap
  | 6 => 181 + leap
  | 7 => 212 + leap
  | 8 => 243 + leap
  | 9 => 273 + leap
  | 10 => 304 + leap
  | _ => 334 + leap
  end.

Definition DaysInMonth (y m : Z) : Z :=
  match m with
  | 1 => if DaysInYear y =? 366 then 29 else 28
  | 3 | 5 | 8 | 10 => 30
  | _ => 31
  end.

(** MakeDate(MakeDay(y, m, d), MakeTime(h, mi, s, ms)) for fields in range. *)
Definition MakeDate (y m d h mi s ms : Z) : Z :=
  (DayFromMonth y m + d - 1) * msPerDay
  + h * msPerHour + mi * msPerMinute + s * msPerSecond + ms.

End DateTime.

(** [s.padStart(n, c)] for a one-character filler *)
Fixpoint repeat_char (c : ascii) (n : nat) : string :=
  match n with
  | O => EmptyString
  | S n' => String c (repeat_char c n')
  end.

Definition padStart (s : string) (n : nat) (c : ascii) : string :=
  String.append (repeat_char c (n - String.length s)) s.

Definition zero_char : ascii := "0"%char.

(** [Date.prototype.toISOString]: a [RangeError] on an invalid date, and
    otherwise [YYYY-MM-DDTHH:mm:ss.sssZ], the year in six signed digits when
    it is outside 0..9999. *)
Definition toISOString (tv : option Z) : result string :=
  match tv with
  | None => Throw RangeError
  | Some t =>
      let y := DateTime.YearFromTime t in
      let p2 := fun n => padStart (Z_to_string n) 2 zero_char in
      let year :=
        if (0 <=? y) && (y <=? 9999) then padStart (Z_to_string y) 4 zero_char
        else String.append (if y <? 0 then "-" else "+")
                           (padStart (Z_to_string (Z.abs y)) 6 zero_char) in
      Ok (year ++ "-" ++ p2 (DateTime.MonthFromTime t + 1)
               ++ "-" ++ p2 (DateTime.DateFromTime t)
               ++ "T" ++ p2 (DateTime.HourFromTime t)
               ++ ":" ++ p2 (DateTime.MinFromTime t)
               ++ ":" ++ p2 (DateTime.SecFromTime t)
               ++ "." ++ padStart (Z_to_string (DateTime.msFromTime t)) 3 zero_char
               ++ "Z")%string
  end.

(** A parser for the one date-time form every engine reads alike, the UTC
    form [YYYY-MM-DDTHH:mm:ss.sssZ] that [toISOString] writes; any other
    text is not a date (nor is the hour 24 the standard allows).  It
    instantiates the host's [Date.parse] in the worked examples. *)
Definition digit (c : ascii) : option Z :=
  let n := Z.of_nat (nat_of_ascii c) in
  if (48 <=? n) && (n <=? 57) then Some (n - 48) else None.

Fixpoint digits (cs : list ascii) (acc : Z) : option Z :=
  match cs with
  | [] => Some acc
  | c :: rest =>
      match digit c with
      | Some d => digits rest (10 * acc + d)
      | None => None
      end
  end.

Definition iso_utc_fields (y m d h mi s ms : Z) : option Z :=
  if (1 <=? m) && (m <=? 12) && (1 <=? d) && (d <=? DateTime.DaysInMonth y (m - 1))
     && (h <=? 23) && (mi <=? 59) && (s <=? 59)
  then Some (DateTime.MakeDate y (m - 1) d h mi s ms)
  else None.

Definition iso_utc_parse (text : string) : option Z :=
  match chars text with
  | [y1; y2; y3; y4; c1; m1; m2; c2; d1; d2; c3; h1; h2; c4; i1; i2; c5;
     s1; s2; c6; f1; f2; f3; c7] =>
      if Ascii.eqb c1 "-" && Ascii.eqb c2 "-" && Ascii.eqb c3 "T"
         && Ascii.eqb c4 ":" && Ascii.eqb c5 ":" && Ascii.eqb c6 "."
         && Ascii.eqb c7 "Z"
      then
        match digits [y1; y2; y3; y4] 0, digits [m1; m2] 0, digits [d1; d2] 0,
              digits [h1; h2] 0, digits [i1; i2] 0, digits [s1; s2] 0,
              digits [f1; f2; f3] 0 with
        | Some y, Some m, Some d, Some h, Some mi, Some s, Some ms =>
            iso_utc_fields y m d h mi s ms
        | _, _, _, _, _, _, _ => None
        end
      else None
  | _ => None
  end.

(** [s.replace(/c/g, rep)] for a one-character pattern *)
Fixpoint replaceAll (c : ascii) (rep : string) (s : string) : string :=
  match s with
  | EmptyString => EmptyString
  | String a rest =>
      if Ascii.eqb a c then String.append rep (replaceAll c rep rest)
      else String a (replaceAll c rep rest)
  end.

(** [/[cs]/.test(s)] for a character class *)
Fixpoint test_class (cs : list ascii) (s : string) : bool :=
  match s with
  | EmptyString => false
  | String a rest => existsb (Ascii.eqb a) cs || test_class cs rest
  end.

(** ** What the program does to the outside

    [console.error] and the save of the file that the click on the
    synthesized link triggers. *)
Inductive effect : Type :=
| ConsoleError (message : string)
| Download (filename : string) (mime : string) (content : string).

(** A [for ... of] loop over a list that updates an accumulator, with a
    body that may throw *)
Fixpoint foldM {A B : Type} (f : A -> B -> result A) (acc : A) (xs : list B)
  : result A :=
  match xs with
  | [] => Ok acc
  | x :: rest => do acc' <- f acc x; foldM f acc' rest
  end.

(** [Array.prototype.filter] with a callback that may throw *)
Fixpoint filterM {A : Type} (f : A -> result bool) (xs : list A)
  : result (list A) :=
  match xs with
  | [] => Ok []
  | x :: rest =>
      do b <- f x;
      do ys <- filterM f rest;
      Ok (if b then x :: ys else ys)
  end.

Section Program.

(** The host's [Date.parse]: the time value of a text, NaN ([None]) when
    the text is not read as a date.  Outside the standard date-time form
    the reading is the engine's own. *)
Variable Date_parse : string -> option Z.

(** Whether the host's anchor element has the [download] attribute. *)
Variable download_supported : bool.

(** [new Date(v)]: a string is parsed, anything else is converted to a
    number; then TimeClip.  An array or object is first converted to its
    text, which is [ToString v] when [printable v]. *)
Definition Date_new (v : value) : option Z :=
  match v with
  | VUndefined => None
  | VNull => DateTime.TimeClip 0
  | VBool b => DateTime.TimeClip (if b then 1 else 0)
  | VNum n => DateTime.TimeClip n
  | VStr s =>
      match Date_parse s with
      | Some t => DateTime.TimeClip t
      | None => None
      end
  | VArr _ | VObj _ =>
      match Date_parse (ToString v) with
      | Some t => DateTime.TimeClip t
      | None => None
      end
  end.

(** *** The normalizer: [cleanJsonForLLM] *)

Definition KEY_MAP : list (string * string) :=
  [ ("event_title_text", "title");
    ("event_details_text", "details");
    ("event_status_text", "status");
    ("event_location_text", "location");
    ("academic_year_option_academic_years", "academic_year");
    ("year_option_year", "year");
    ("module_option_modules", "module");
    ("speciality_option_speciality", "speciality");
    ("cpp_module_option_speciality", "cpp_speciality");
    ("student_count_number", "student_count");
    ("event_duration_hrs_number", "duration_hours");
    ("online_boolean", "is_online");
    ("cpp_boolean", "is_cpp");
    ("event_canceled_boolean", "is_cancelled");
    ("site_option_sites", "site") ].

(** The body of the loop over [Object.entries(KEY_MAP)]. *)
Definition rename_key (source : value) (cleanedEvent : list (string * value))
           (entry : string * string) : result (list (string * value)) :=
  let '(originalKey, newKey) := entry in
  do v <- get source originalKey;
  if negb (nullish v) then
    let value :=
      if String.eqb newKey "year" && jstype_eqb (typeof v) TyString
      then VStr (replaceAll underscore EmptyString (ToString v))
      else v in
    Ok (obj_set cleanedEvent newKey value)
  else Ok cleanedEvent.

(** [if (source.k) cleanedEvent.out = new Date(source.k).toISOString()] *)
Definition convert_timestamp (source : value) (k out : string)
           (cleanedEvent : list (string * value))
  : result (list (string * value)) :=
  do v <- get source k;
  if truthy v then
    do iso <- toISOString (Date_new v);
    Ok (obj_set cleanedEvent out (VStr iso))
  else Ok cleanedEvent.

(** [if (Array.isArray(source.k)) cleanedEvent.out = source.k.length] *)
Definition count_list (source : value) (k out : string)
           (cleanedEvent : list (string * value))
  : result (list (string * value)) :=
  do v <- get source k;
  if isArray v then
    do n <- get v "length";
    Ok (obj_set cleanedEvent out n)
  else Ok cleanedEvent.

(** The callback of [rawData.docs.map]. *)
Definition clean_doc (doc : value) : result value :=
  if negb (truthy doc) then Ok VNull
  else
    do source <- get doc "_source";
    if negb (truthy source) then Ok VNull
    else
      do e1 <- foldM (rename_key source) [] KEY_MAP;
      do e2 <- convert_timestamp source "strat_date_and_time_date"
                                 "start_time_utc" e1;
      do e3 <- convert_timestamp source "end_date_and_time_date"
                                 "end_time_utc" e2;
      do e4 <- count_list source "teachers_list_user" "teacher_count" e3;
      do e5 <- count_list source "attended_yes_list_custom_student_info"
                          "attendance_yes_count" e4;
      do e6 <- count_list source "attended_no_list_custom_student_info"
                          "attendance_no_count" e5;
      Ok (VObj e6).

(** The callback of [.filter]:
    [event && event.status !== "Archived" && event.title]. *)
Definition keep_event (event : value) : result bool :=
  if negb (truthy event) then Ok false
  else
    do status <- get event "status";
    if strict_eq_str status "Archived" then Ok false
    else
      do title <- get event "title";
      Ok (truthy title).

Definition invalid_input_message : string :=
  "Invalid input data structure. Expected an object with a 'docs' array.".

(** [!rawData || !Array.isArray(rawData.docs)] *)
Definition invalid_input (rawData : value) : result bool :=
  if negb (truthy rawData) then Ok true
  else
    do docs <- get rawData "docs";
    Ok (negb (isArray docs)).

(** [{ events: l }] *)
Definition events_object (l : list value) : value :=
  VObj [("events", VArr l)].

(** [cleanJsonForLLM(rawData)]: what it logs, and what it returns or
    throws. *)
Definition cleanJsonForLLM (rawData : value) : list effect * result value :=
  match invalid_input rawData with
  | Throw e => ([], Throw e)
  | Ok true => ([ConsoleError invalid_input_message], Ok (events_object []))
  | Ok false =>
      ([],
       do docs <- get rawData "docs";
       match docs with
       | VArr ds =>
           do mapped <- mapM clean_doc ds;
           do cleanedEvents <- filterM keep_event mapped;
           Ok (events_object cleanedEvents)
       | _ => Throw TypeError
       end)
  end.

(** *** The exporter: [downloadJsonAsCsv] *)

Definition invalid_data_message : string :=
  "Invalid or empty data provided. Please provide an array of objects.".

(** [String(num).padStart(2, '0')] *)
Definition pad (num : Z) : string :=
  padStart (Z_to_string num) 2 zero_char.

(** The template [`${year}-${month}-${day} ${hours}:${minutes}:${seconds}`]
    on the UTC fields of a time value. *)
Definition excel_date (t : Z) : string :=
  (Z_to_string (DateTime.YearFromTime t)
     ++ "-" ++ pad (DateTime.MonthFromTime t + 1)
     ++ "-" ++ pad (DateTime.DateFromTime t)
     ++ " " ++ pad (DateTime.HourFromTime t)
     ++ ":" ++ pad (DateTime.MinFromTime t)
     ++ ":" ++ pad (DateTime.SecFromTime t))%string.

Definition formatDateForExcel (dateString : value) : value :=
  if negb (truthy dateString) || negb (jstype_eqb (typeof dateString) TyString)
  then VStr EmptyString
  else
    match Date_new dateString with
    | None => dateString
    | Some t =>
        if DateTime.YearFromTime t <? 1980 then dateString
        else VStr (excel_date t)
    end.

Definition escapeCsvCell (cell : value) : string :=
  let strCell := ToString (coalesce cell (VStr EmptyString)) in
  if test_class [dquote; comma; newline] strCell then
    (str1 dquote ++ replaceAll dquote (String dquote (str1 dquote)) strCell
       ++ str1 dquote)%string
  else strCell.

(** [acc.add(key)] on a [Set], kept as the list of its members in
    insertion order. *)
Definition Set_add (acc : list string) (key : string) : list string :=
  if existsb (String.eqb key) acc then acc else acc ++ [key].

(** The callback of [jsonData.reduce] and the resulting [headers]. *)
Definition add_keys (acc : list string) (obj : value) : list string :=
  if truthy obj && jstype_eqb (typeof obj) TyObject
  then fold_left Set_add (Object_keys obj) acc
  else acc.

Definition headers (jsonData : list value) : list string :=
  fold_left add_keys jsonData [].

Definition headerRow (jsonData : list value) : string :=
  join (str1 comma) (headers jsonData).

(** The callback of [headers.map] for one [row]. *)
Definition cell (row : value) (header : string) : result string :=
  do value <- get row header;
  if String.eqb header "start_time_utc" || String.eqb header "end_time_utc"
  then Ok (escapeCsvCell (formatDateForExcel value))
  else Ok (escapeCsvCell value).

Definition dataRow (hs : list string) (row : value) : result string :=
  do cells <- mapM (cell row) hs;
  Ok (join (str1 comma) cells).

Definition dataRows (jsonData : list value) : result (list string) :=
  mapM (dataRow (headers jsonData)) jsonData.

(** U+FEFF, in UTF-8 the bytes EF BB BF. *)
Definition BOM : string :=
  String (ascii_of_nat 239) (String (ascii_of_nat 187)
    (String (ascii_of_nat 191) EmptyString)).

Definition csvString (jsonData : list value) : result string :=
  do rows <- dataRows jsonData;
  Ok (String.append BOM (join (str1 newline) (headerRow jsonData :: rows))).

Definition csv_mime : string := "text/csv;charset=utf-8;".

(** [!jsonData || !Array.isArray(jsonData) || jsonData.length === 0] *)
Definition invalid_data (jsonData : value) : result bool :=
  if negb (truthy jsonData) then Ok true
  else if negb (isArray jsonData) then Ok true
  else
    do len <- get jsonData "length";
    Ok (strict_eq_num len 0).

(** [downloadJsonAsCsv(jsonData, filename)]; [filename] is [None] when
    the argument is left out.  Past the guard the data is an array; the
    blob and the link are built and, where the link has the [download]
    attribute, clicked. *)
Definition downloadJsonAsCsv (jsonData : value) (filename : option string)
  : list effect * result unit :=
  let filename := match filename with Some f => f | None => "data.csv" end in
  match invalid_data jsonData with
  | Throw e => ([], Throw e)
  | Ok true => ([ConsoleError invalid_data_message], Ok tt)
  | Ok false =>
      match jsonData with
      | VArr records =>
          match csvString records with
          | Throw e => ([], Throw e)
          | Ok content =>
              if download_supported
              then ([Download filename csv_mime content], Ok tt)
              else ([], Ok tt)
          end
      | _ => ([], Throw TypeError)
      end
  end.

(** *** The combination of several batches

    [const events = [data1,data2,data3,data4].map(d => cleanJsonForLLM(d))
       .reduce((arr, e) => [...arr, ...e.events], [])] *)

(** [[...v]] on a value: the elements of an array, the characters of a
    string; nothing else the data holds can be iterated. *)
Definition spread (v : value) : result (list value) :=
  match v with
  | VArr xs => Ok xs
  | VStr s => Ok (map (fun c => VStr (str1 c)) (chars s))
  | _ => Throw TypeError
  end.

(** The [map] over the batches: each call logs what it logs, and the first
    that throws ends the loop. *)
Fixpoint map_cleanJsonForLLM (datas : list value)
  : list effect * result (list value) :=
  match datas with
  | [] => ([], Ok [])
  | d :: rest =>
      match cleanJsonForLLM d with
      | (log, Throw e) => (log, Throw e)
      | (log, Ok cleaned) =>
          let '(log', r) := map_cleanJsonForLLM rest in
          (log ++ log', do cs <- r; Ok (cleaned :: cs))
      end
  end.

(** The callback of [reduce]: [(arr, e) => [...arr, ...e.events]]. *)
Definition append_events (arr : list value) (e : value) : result (list value) :=
  do evs <- get e "events";
  do l <- spread evs;
  Ok (arr ++ l).

Definition combine_batches (datas : list value)
  : list effect * result (list value) :=
  let '(log, r) := map_cleanJsonForLLM datas in
  (log, do cleaned <- r; foldM append_events [] cleaned).

Definition events (data1 data2 data3 data4 : value)
  : list effect * result (list value) :=
  combine_batches [data1; data2; data3; data4].

End Program.
(** * The vocabulary of the properties *)

(** A decimal digit. *)
Definition is_digit (c : ascii) : bool :=
  let n := nat_of_ascii c in (48 <=? n)%nat && (n <=? 57)%nat.

(** The two-digit, zero-padded text of a number below 100. *)
Definition two_digits (n : Z) : string :=
  String (ascii_of_nat (48 + Z.to_nat (n / 10)))
    (String (ascii_of_nat (48 + Z.to_nat (n mod 10))) EmptyString).

(** The names an event can carry: the targets of [KEY_MAP], the two
    timestamps and the three counts. *)
Definition canonical_keys : list string :=
  [ "title"; "details"; "status"; "location"; "academic_year"; "year";
    "module"; "speciality"; "cpp_speciality"; "student_count";
    "duration_hours"; "is_online"; "is_cpp"; "is_cancelled"; "site";
    "start_time_utc"; "end_time_utc"; "teacher_count";
    "attendance_yes_count"; "attendance_no_count" ].

(** A property read on a value that is not [null] or [undefined]. *)
Definition read (v : value) (k : string) : value :=
  match get v k with
  | Ok x => x
  | Throw _ => VUndefined
  end.

(** The value stored under [newKey]: the year loses its underscores. *)
Definition renamed (newKey : string) (v : value) : value :=
  if String.eqb newKey "year" && jstype_eqb (typeof v) TyString
  then VStr (replaceAll underscore EmptyString (ToString v))
  else v.

(** [obj[k] = v] under a condition *)
Definition maybe_set (c : bool) (props : list (string * value)) (k : string)
           (v : value) : list (string * value) :=
  if c then obj_set props k v else props.

(** The renaming loop, as one pure fold. *)
Definition renames (source : value) (entries : list (string * string))
           (props : list (string * value)) : list (string * value) :=
  fold_left
    (fun acc entry =>
       maybe_set (negb (nullish (read source (fst entry)))) acc (snd entry)
                 (renamed (snd entry) (read source (fst entry))))
    entries props.

(** A document that is missing, or whose [_source] is, maps to [null]. *)
Definition skipped (doc : value) : Prop :=
  truthy doc = false
  \/ exists s, get doc "_source" = Ok s /\ truthy s = false.

(** The value an event holds under a target of [KEY_MAP]. *)
Definition field (source : value) (orig new : string) : value :=
  if nullish (read source orig) then VUndefined
  else renamed new (read source orig).

(** A retained event: an object whose status is not ["Archived"] and
    whose title is truthy, so neither missing nor empty. *)
Definition retained (ev : value) : Prop :=
  nullish ev = false
  /\ exists status title,
      get ev "status" = Ok status /\ status <> VStr "Archived"
      /\ get ev "title" = Ok title /\ truthy title = true
      /\ nullish title = false /\ title <> VStr EmptyString.

(** A document whose source carries the status ["Archived"]. *)
Definition archived (doc : value) : Prop :=
  exists source,
    get doc "_source" = Ok source
    /\ get source "event_status_text" = Ok (VStr "Archived").

(** The text of a cell: nothing for [null] and [undefined]. *)
Definition cell_text (cell : value) : string :=
  if nullish cell then EmptyString else ToString cell.

(** The characters that make a cell need quoting. *)
Definition special (c : ascii) : Prop :=
  c = comma \/ c = dquote \/ c = newline.

(** Every double quote written twice. *)
Definition doubled (cs : list ascii) : list ascii :=
  flat_map (fun a => if Ascii.eqb a dquote then [dquote; dquote] else [a]) cs.

(** A record that is a key/value mapping for the header pass: an object or
    an array, not [null]. *)
Definition mapping_shaped (r : value) : bool :=
  truthy r && jstype_eqb (typeof r) TyObject.

(** The keys a record contributes to the header. *)
Definition keys_of (r : value) : list string :=
  if mapping_shaped r then Object_keys r else [].

(** Each name once, at its first place. *)
Fixpoint first_seen (ks : list string) : list string :=
  match ks with
  | [] => []
  | k :: rest => k :: filter (fun x => negb (String.eqb x k)) (first_seen rest)
  end.

(** Whether [h] names a property of [r] itself: one of its keys, or the
    [length] of an array or of a string. *)
Definition has_own (r : value) (h : string) : bool :=
  match r with
  | VArr _ | VStr _ =>
      String.eqb h "length" || existsb (String.eqb h) (Object_keys r)
  | _ => existsb (String.eqb h) (Object_keys r)
  end.

(** The lines after the first: each row behind one newline. *)
Fixpoint following_lines (rows : list string) : string :=
  match rows with
  | [] => EmptyString
  | row :: rest => String (newline) (String.append row (following_lines rest))
  end.

(** The text up to the first newline. *)
Fixpoint first_line (s : string) : string :=
  match s with
  | EmptyString => EmptyString
  | String c rest =>
      if Ascii.eqb c newline then EmptyString else String c (first_line rest)
  end.

(** Reading a CSV text back, as a spreadsheet does: cells end at a comma,
    rows at a newline; a cell that opens with a double quote runs to the
    next single double quote, two in a row standing for one. *)
Inductive reading : Type :=
| AtStart
| InPlain
| InQuoted
| AfterQuote.

Fixpoint read_csv_from (st : reading) (cur : list ascii)
         (row : list (list ascii)) (cs : list ascii)
  : list (list (list ascii)) :=
  match cs with
  | [] => [row ++ [cur]]
  | c :: rest =>
      match st with
      | InQuoted =>
          if Ascii.eqb c dquote then read_csv_from AfterQuote cur row rest
          else read_csv_from InQuoted (cur ++ [c]) row rest
      | AtStart =>
          if Ascii.eqb c dquote then read_csv_from InQuoted cur row rest
          else if Ascii.eqb c comma
          then read_csv_from AtStart [] (row ++ [cur]) rest
          else if Ascii.eqb c newline
          then (row ++ [cur]) :: read_csv_from AtStart [] [] rest
          else read_csv_from InPlain (cur ++ [c]) row rest
      | InPlain =>
          if Ascii.eqb c comma
          then read_csv_from AtStart [] (row ++ [cur]) rest
          else if Ascii.eqb c newline
          then (row ++ [cur]) :: read_csv_from AtStart [] [] rest
          else read_csv_from InPlain (cur ++ [c]) row rest
      | AfterQuote =>
          if Ascii.eqb c dquote
          then read_csv_from InQuoted (cur ++ [dquote]) row rest
          else if Ascii.eqb c comma
          then read_csv_from AtStart [] (row ++ [cur]) rest
          else if Ascii.eqb c newline
          then (row ++ [cur]) :: read_csv_from AtStart [] [] rest
          else read_csv_from InPlain (cur ++ [c]) row rest
      end
  end.

Definition read_csv (text : string) : list (list (list ascii)) :=
  read_csv_from AtStart [] [] (chars text).

(** What follows a cell: the end of the text, or a comma or newline and
    the rest. *)
Definition closes (k : list ascii) : Prop :=
  k = [] \/ exists k', k = comma :: k' \/ k = newline :: k'.

(** The reading once the cell [t] of the row so far is complete. *)
Definition after (row : list (list ascii)) (t k : list ascii)
  : list (list (list ascii)) :=
  match k with
  | [] => [row ++ [t]]
  | c :: k' =>
      if Ascii.eqb c comma then read_csv_from AtStart [] (row ++ [t]) k'
      else (row ++ [t]) :: read_csv_from AtStart [] [] k'
  end.

Definition plain (c : ascii) : bool :=
  negb (existsb (Ascii.eqb c) [dquote; comma; newline]).

(** A line of cells. *)
Definition line (cells : list value) : string :=
  join (str1 comma) (map escapeCsvCell cells).

Definition texts (cells : list value) : list (list ascii) :=
  map (fun v => chars (cell_text v)) cells.

(** The reading once a row is complete, at the end of the text or at a
    newline. *)
Definition finish (row : list (list ascii)) (k : list ascii)
  : list (list (list ascii)) :=
  match k with
  | [] => [row]
  | _ :: k' => row :: read_csv_from AtStart [] [] k'
  end.

(** The two columns that hold dates. *)
Definition date_column (h : string) : Prop :=
  h = "start_time_utc" \/ h = "end_time_utc".

(** A record that is a plain object whose values are all printable: the
    records on which every cell is made without a fault. *)
Definition plain_record (r : value) : bool :=
  match r with
  | VObj props => forallb (fun kv => printable (snd kv)) props
  | _ => false
  end.

(** A document whose two timestamps, where its source has them, are
    printable: the documents on which [new Date] is given nothing it cannot
    convert. *)
Definition printable_timestamps (doc : value) : bool :=
  match get doc "_source" with
  | Ok source =>
      printable (read source "strat_date_and_time_date")
      && printable (read source "end_date_and_time_date")
  | Throw _ => true
  end.

Section Vocabulary.

Variable Date_parse : string -> option Z.

(** The events one document contributes to the result: its record when
    the record is kept, nothing otherwise. *)
Definition contribution (doc : value) : result (list value) :=
  do ev <- clean_doc Date_parse doc;
  do keep <- keep_event ev;
  Ok (if keep then [ev] else []).

(** A document whose timestamps, where it has any, are dates. *)
Definition well_dated (doc : value) : Prop :=
  forall source k v,
    get doc "_source" = Ok source ->
    k = "strat_date_and_time_date" \/ k = "end_date_and_time_date" ->
    get source k = Ok v -> truthy v = true ->
    Date_new Date_parse v <> None.

(** The value a cell is made from: the value of the record under the
    header, date-formatted in the two date columns. *)
Definition cell_value (row : value) (h : string) : value :=
  if String.eqb h "start_time_utc" || String.eqb h "end_time_utc"
  then formatDateForExcel Date_parse (read row h)
  else read row h.

(** The two timestamp fields and the three list fields of a source, each
    with the name it is stored under. *)
Definition TIMESTAMPS : list (string * string) :=
  [ ("strat_date_and_time_date", "start_time_utc");
    ("end_date_and_time_date", "end_time_utc") ].

Definition LISTS : list (string * string) :=
  [ ("teachers_list_user", "teacher_count");
    ("attended_yes_list_custom_student_info", "attendance_yes_count");
    ("attended_no_list_custom_student_info", "attendance_no_count") ].

(** The twenty source fields the normalizer reads. *)
Definition SOURCE_NAMES : list string :=
  map fst KEY_MAP ++ map fst TIMESTAMPS ++ map fst LISTS.

(** Input the normalizer turns away: nothing truthy, or no [docs] array. *)
Definition invalid_raw (rawData : value) : Prop :=
  truthy rawData = false
  \/ exists d, get rawData "docs" = Ok d /\ isArray d = false.

(** The test of the filter on the event of a source, read off the source:
    a truthy title and a status other than the string Archived. *)
Definition kept (source : value) : bool :=
  truthy (read source "event_title_text")
  && negb (strict_eq_str (read source "event_status_text") "Archived").

(** [obj[k] = v] when there is a value to store. *)
Definition set_opt (props : list (string * value)) (k : string)
           (o : option value) : list (string * value) :=
  match o with
  | Some v => obj_set props k v
  | None => props
  end.

(** The ISO text stored for the timestamp [k] of a source: none when the
    value is falsy, a fault when it is there and is not a date. *)
Definition stamp (source : value) (k : string) : result (option value) :=
  if truthy (read source k) then
    do iso <- toISOString (Date_new Date_parse (read source k));
    Ok (Some (VStr iso))
  else Ok None.

(** The count stored for the list [k] of a source: none unless the value
    is an array. *)
Definition count (source : value) (k : string) : option value :=
  match read source k with
  | VArr xs => Some (VNum (Z.of_nat (List.length xs)))
  | _ => None
  end.

(** The properties of the event of a source, given its two stamps. *)
Definition event_props (source : value) (s1 s2 : option value)
  : list (string * value) :=
  set_opt
    (set_opt
       (set_opt
          (set_opt
             (set_opt (renames source KEY_MAP []) "start_time_utc" s1)
             "end_time_utc" s2)
          "teacher_count" (count source "teachers_list_user"))
       "attendance_yes_count"
       (count source "attended_yes_list_custom_student_info"))
    "attendance_no_count"
    (count source "attended_no_list_custom_student_info").

(** Whether the source has what the canonical name [k] is made from: a
    value that is not [null] or [undefined] for a target of [KEY_MAP], a
    truthy timestamp, an array to count. *)
Definition present (source : value) (k : string) : bool :=
  match find (fun e => String.eqb (snd e) k) KEY_MAP with
  | Some (orig, _) => negb (nullish (read source orig))
  | None =>
      if String.eqb k "start_time_utc"
      then truthy (read source "strat_date_and_time_date")
      else if String.eqb k "end_time_utc"
      then truthy (read source "end_date_and_time_date")
      else if String.eqb k "teacher_count"
      then isArray (read source "teachers_list_user")
      else if String.eqb k "attendance_yes_count"
      then isArray (read source "attended_yes_list_custom_student_info")
      else if String.eqb k "attendance_no_count"
      then isArray (read source "attended_no_list_custom_student_info")
      else false
  end.

End Vocabulary.

(** ** The inputs of the worked examples *)

(** The records of the header example, [[{a:1,b:2},{b:3,c:4}]]. *)
Definition header_example : list value :=
  [ VObj [("a", VNum 1); ("b", VNum 2)];
    VObj [("b", VNum 3); ("c", VNum 4)] ].

(** The batch of the year example,
    [{docs:[{_source:{event_title_text:"T", year_option_year:"2023_2024"}}]}]. *)
Definition year_example : value :=
  VObj [("docs",
         VArr [VObj [("_source",
                      VObj [("event_title_text", VStr "T");
                            ("year_option_year", VStr "2023_2024")])]])].

(** The text [He said, "hi"]. *)
Definition he_said_hi : string :=
  String.append "He said, "
    (String dquote (String.append "hi" (str1 dquote))).

(** The cell [He said, "hi"] is written as: the text between quotes, its
    own quotes twice. *)
Definition he_said_hi_cell : string :=
  String dquote
    (String.append "He said, "
       (String dquote (String dquote
          (String.append "hi"
             (String dquote (String dquote (str1 dquote))))))).

(** The event of the year example, [{title:"T", year:"20232024"}]. *)
Definition year_example_event : value :=
  VObj [("title", VStr "T"); ("year", VStr "20232024")].

Definition year_example_doc : value :=
  VObj [("_source",
         VObj [("event_title_text", VStr "T");
               ("year_option_year", VStr "2023_2024")])].

(** A batch of two documents, the second with a start timestamp that is
    there but is not a date:
    [{docs:[{_source:{event_title_text:"T"}},
            {_source:{event_title_text:"U",
                      strat_date_and_time_date:"bad-date"}}]}]. *)
Definition titled_doc : value :=
  VObj [("_source", VObj [("event_title_text", VStr "T")])].

Definition bad_start_source : value :=
  VObj [("event_title_text", VStr "U");
        ("strat_date_and_time_date", VStr "bad-date")].

Definition bad_start_batch : value :=
  VObj [("docs", VArr [titled_doc; VObj [("_source", bad_start_source)]])].

(** The same with the end timestamp. *)
Definition bad_end_source : value :=
  VObj [("event_title_text", VStr "U");
        ("end_date_and_time_date", VStr "bad-date")].

Definition bad_end_batch : value :=
  VObj [("docs", VArr [titled_doc; VObj [("_source", bad_end_source)]])].

(** A batch with an archived document and a live one. *)
Definition archived_doc : value :=
  VObj [("_source",
         VObj [("event_title_text", VStr "A");
               ("event_status_text", VStr "Archived")])].

Definition live_doc : value :=
  VObj [("_source",
         VObj [("event_title_text", VStr "B");
               ("event_status_text", VStr "Live")])].

Definition live_event : value :=
  VObj [("title", VStr "B"); ("status", VStr "Live")].

Definition archived_batch : value :=
  VObj [("docs", VArr [archived_doc; live_doc])].

(** A batch whose middle document has no [_source], and the batch without
    that document. *)
Definition no_source_doc : value := VObj [("_id", VStr "x1")].

Definition batch_with_gap : value :=
  VObj [("docs", VArr [live_doc; no_source_doc; year_example_doc])].


(** Records with a [null] among them, [[{a:1}, null]]. *)
Definition null_record_example : list value :=
  [VObj [("a", VNum 1)]; VNull].

(** A record whose start time is a number, [{start_time_utc:
    1705312800000}], the time value of 2024-01-15T10:00:00.000Z. *)
Definition numeric_time_record : value :=
  VObj [("start_time_utc", VNum 1705312800000)].

(** A record with a start time in ISO text and an end time that is not a
    date. *)
Definition dated_record : value :=
  VObj [("start_time_utc", VStr "2024-01-15T10:00:00.000Z");
        ("end_time_utc", VStr "bad-date")].

(** A source with its fields out of canonical order, a field the
    normalizer does not read, a null, an empty end time and a list that is
    no array; its document and its event. *)
Definition sample_source : value :=
  VObj [("teachers_list_user", VArr [VStr "t1"; VStr "t2"]);
        ("year_option_year", VStr "2023_2024");
        ("created_by", VStr "admin");
        ("event_title_text", VStr "Anatomy");
        ("event_details_text", VNull);
        ("strat_date_and_time_date", VStr "2024-01-15T10:00:00.000Z");
        ("end_date_and_time_date", VStr EmptyString);
        ("attended_yes_list_custom_student_info", VStr "n/a")].

Definition sample_doc : value :=
  VObj [("_id", VStr "e1"); ("_source", sample_source)].

Definition sample_event : value :=
  VObj [("title", VStr "Anatomy");
        ("year", VStr "20232024");
        ("start_time_utc", VStr "2024-01-15T10:00:00.000Z");
        ("teacher_count", VNum 2)].

(** The same source without the unread field, in another order. *)
Definition sample_source_bare : value :=
  VObj [("event_title_text", VStr "Anatomy");
        ("strat_date_and_time_date", VStr "2024-01-15T10:00:00.000Z");
        ("end_date_and_time_date", VStr EmptyString);
        ("attended_yes_list_custom_student_info", VStr "n/a");
        ("event_details_text", VNull);
        ("year_option_year", VStr "2023_2024");
        ("teachers_list_user", VArr [VStr "t1"; VStr "t2"])].

(** A record whose values need quoting: a comma, a quote, a newline. *)
Definition awkward_record : value :=
  VObj [("title", VStr "Heart, lungs");
        ("details", VStr (String.append "the " (String dquote
                            (String.append "big" (String dquote " one")))));
        ("location", VStr (String.append "Room 1" (String newline "Floor 2")))].

(** * Properties *)

(** ** The calendar *)

Module DateFacts.
Import DateTime.

(** [YearFromTime] is the year the standard asks for: the one whose first
    day is the last not after the day of [t]. *)
Lemma YearFromTime_spec (t : Z) :
  DayFromYear (YearFromTime t) <= Day t < DayFromYear (YearFromTime t + 1).
Proof.
  unfold YearFromTime. generalize (Day t). intro d. cbv zeta.
  unfold DayFromYear.
  repeat match goal with
         | |- context [?a <=? ?b] => destruct (Z.leb_spec a b)
         end;
    Z.div_mod_to_equations; lia.
Qed.

Lemma YearFromTime_unique (t y : Z) :
  DayFromYear y <= Day t < DayFromYear (y + 1) -> YearFromTime t = y.
Proof.
  intros Hy. pose proof (YearFromTime_spec t) as Hs.
  revert Hy Hs. generalize (YearFromTime t) (Day t). intros y' d.
  unfold DayFromYear. intros Hy Hs.
  Z.div_mod_to_equations. lia.
Qed.

Lemma DaysInYear_length (y : Z) :
  DaysInYear y = DayFromYear (y + 1) - DayFromYear y.
Proof.
  unfold DaysInYear, DayFromYear.
  repeat match goal with
         | |- context [?a =? ?b] => destruct (Z.eqb_spec a b)
         end;
    cbn [negb]; Z.div_mod_to_equations; lia.
Qed.

Lemma DayWithinYear_range (t : Z) :
  0 <= DayWithinYear t < DaysInYear (YearFromTime t).
Proof.
  unfold DayWithinYear. rewrite DaysInYear_length.
  pose proof (YearFromTime_spec t). lia.
Qed.

Lemma DaysInYear_cases (y : Z) : DaysInYear y = 365 \/ DaysInYear y = 366.
Proof.
  unfold DaysInYear.
  repeat match goal with
         | |- context [if ?b then _ else _] => destruct b
         end; auto.
Qed.

Lemma MonthFromTime_range (t : Z) : 0 <= MonthFromTime t <= 11.
Proof.
  unfold MonthFromTime. cbv zeta.
  repeat match goal with
         | |- context [?a <? ?b] => destruct (Z.ltb_spec a b)
         end; lia.
Qed.

Lemma DateFromTime_range (t : Z) : 1 <= DateFromTime t <= 31.
Proof.
  pose proof (DayWithinYear_range t) as Hd.
  unfold DateFromTime, MonthFromTime, InLeapYear in *. cbv zeta.
  destruct (DaysInYear_cases (YearFromTime t)) as [E | E]; rewrite E in *;
    cbn [Z.eqb Pos.eqb];
    repeat match goal with
           | |- context [?a <? ?b] => destruct (Z.ltb_spec a b)
           end; lia.
Qed.

Lemma HourFromTime_range (t : Z) : 0 <= HourFromTime t <= 23.
Proof. unfold HourFromTime. pose proof (Z.mod_pos_bound (t / msPerHour) 24). lia. Qed.

Lemma MinFromTime_range (t : Z) : 0 <= MinFromTime t <= 59.
Proof. unfold MinFromTime. pose proof (Z.mod_pos_bound (t / msPerMinute) 60). lia. Qed.

Lemma SecFromTime_range (t : Z) : 0 <= SecFromTime t <= 59.
Proof. unfold SecFromTime. pose proof (Z.mod_pos_bound (t / msPerSecond) 60). lia. Qed.

(** The calendar fields undo [MakeDate]: a date and time of day put
    together come apart into the same fields. *)
Lemma Day_MakeDate (y m d h mi s ms : Z) :
  0 <= h <= 23 -> 0 <= mi <= 59 -> 0 <= s <= 59 -> 0 <= ms <= 999 ->
  Day (MakeDate y m d h mi s ms) = DayFromMonth y m + d - 1.
Proof.
  intros Hh Hmi Hs Hms.
  unfold Day, MakeDate, msPerDay, msPerHour, msPerMinute, msPerSecond.
  generalize (DayFromMonth y m + d - 1). intros D.
  Z.div_mod_to_equations. lia.
Qed.

Ltac month_cases m Hd :=
  let Hc := fresh "Hc" in
  assert (Hc : m = 0 \/ m = 1 \/ m = 2 \/ m = 3 \/ m = 4 \/ m = 5 \/ m = 6
               \/ m = 7 \/ m = 8 \/ m = 9 \/ m = 10 \/ m = 11) by lia;
  repeat (destruct Hc as [-> | Hc]); try subst m; cbn in Hd |- *.

Lemma fields_of_MakeDate (y m d h mi s ms : Z) :
  0 <= m <= 11 -> 1 <= d <= DaysInMonth y m ->
  0 <= h <= 23 -> 0 <= mi <= 59 -> 0 <= s <= 59 -> 0 <= ms <= 999 ->
  let t := MakeDate y m d h mi s ms in
  YearFromTime t = y /\ MonthFromTime t = m /\ DateFromTime t = d
  /\ HourFromTime t = h /\ MinFromTime t = mi /\ SecFromTime t = s
  /\ msFromTime t = ms.
Proof.
  intros Hm Hd Hh Hmi Hs Hms t.
  pose proof (Day_MakeDate y m d h mi s ms Hh Hmi Hs Hms) as HD. fold t in HD.
  pose proof (DaysInYear_length y) as HL.
  assert (Hy : YearFromTime t = y).
  { apply YearFromTime_unique. rewrite HD.
    unfold DayFromMonth, DaysInMonth in *.
    destruct (DaysInYear_cases y) as [E | E]; rewrite E in *;
      cbn [Z.eqb Pos.eqb] in *; month_cases m Hd; lia. }
  assert (HW : DayWithinYear t = DayFromMonth y m + d - 1 - DayFromYear y).
  { unfold DayWithinYear. rewrite Hy, HD. reflexivity. }
  assert (HM : MonthFromTime t = m /\ DateFromTime t = d).
  { unfold DateFromTime, MonthFromTime, InLeapYear. rewrite HW, Hy. cbv zeta.
    unfold DayFromMonth, DaysInMonth in *.
    destruct (DaysInYear_cases y) as [E | E]; rewrite E in *;
      cbn [Z.eqb Pos.eqb] in *; month_cases m Hd;
      repeat match goal with
             | |- context [?a <? ?b] => destruct (Z.ltb_spec a b); try lia
             end; split; lia. }
  split; [exact Hy |]. destruct HM as [HM1 HM2].
  split; [exact HM1 |]. split; [exact HM2 |].
  unfold HourFromTime, MinFromTime, SecFromTime, msFromTime, t, MakeDate,
    msPerDay, msPerHour, msPerMinute, msPerSecond.
  generalize (DayFromMonth y m + d - 1). intros D.
  repeat split; Z.div_mod_to_equations; lia.
Qed.

End DateFacts.

(** ** Text *)

Module TextFacts.

Lemma chars_append (a b : string) :
  chars (a ++ b)%string = chars a ++ chars b.
Proof. induction a as [| c a IH]; cbn; [reflexivity | now rewrite IH]. Qed.

Lemma length_append (a b : string) :
  String.length (a ++ b)%string = (String.length a + String.length b)%nat.
Proof. induction a as [| c a IH]; cbn; [reflexivity | now rewrite IH]. Qed.

Lemma string_of_uint_digits (u : Decimal.uint) :
  forallb is_digit (chars (NilEmpty.string_of_uint u)) = true.
Proof. induction u; cbn; auto. Qed.

Lemma Z_to_string_digits (n : Z) :
  0 <= n -> forallb is_digit (chars (Z_to_string n)) = true.
Proof.
  intros Hn. unfold Z_to_string.
  destruct n as [| p | p]; [reflexivity | apply string_of_uint_digits | lia].
Qed.

Lemma test_class_append (cs : list ascii) (a b : string) :
  test_class cs (a ++ b)%string = test_class cs a || test_class cs b.
Proof.
  induction a as [| c a IH]; cbn; [reflexivity |].
  now rewrite IH, orb_assoc.
Qed.

Lemma test_class_chars (cs : list ascii) (s : string) :
  test_class cs s = existsb (fun a => existsb (Ascii.eqb a) cs) (chars s).
Proof. induction s as [| c s IH]; cbn; [reflexivity | now rewrite IH]. Qed.

(** The class tested is hit exactly when the text holds one of its
    characters. *)
Lemma test_class_true (cs : list ascii) (s : string) :
  test_class cs s = true <-> exists c, In c (chars s) /\ In c cs.
Proof.
  rewrite test_class_chars, existsb_exists. split.
  - intros (a & Ha & Hcs). apply existsb_exists in Hcs as (c & Hc & E).
    apply Ascii.eqb_eq in E. subst c. eauto.
  - intros (c & Hs & Hcs). exists c. split; [assumption |].
    apply existsb_exists. exists c. split; [assumption | apply Ascii.eqb_refl].
Qed.

Lemma digits_not_special (s : string) :
  forallb is_digit (chars s) = true ->
  test_class [dquote; comma; newline] s = false.
Proof.
  induction s as [| c s IH]; cbn; [reflexivity |].
  intros H. apply andb_prop in H as [Hc Hs]. rewrite (IH Hs), orb_false_r.
  unfold is_digit in Hc. apply andb_prop in Hc as [Hlo Hhi].
  apply Nat.leb_le in Hlo.
  destruct (Ascii.eqb_spec c dquote) as [-> | _]; [cbn in Hlo; lia |].
  destruct (Ascii.eqb_spec c comma) as [-> | _]; [cbn in Hlo; lia |].
  destruct (Ascii.eqb_spec c newline) as [-> | _]; [cbn in Hlo; lia |].
  reflexivity.
Qed.

(** What [replaceAll] does, character by character. *)
Lemma replaceAll_chars (c : ascii) (rep s : string) :
  chars (replaceAll c rep s)
  = flat_map (fun a => if Ascii.eqb a c then chars rep else [a]) (chars s).
Proof.
  induction s as [| a s IH]; cbn; [reflexivity |].
  destruct (Ascii.eqb a c); cbn; [rewrite chars_append |]; now rewrite IH.
Qed.

Lemma replaceAll_empty_filter (c : ascii) (s : string) :
  chars (replaceAll c EmptyString s)
  = filter (fun a => negb (Ascii.eqb a c)) (chars s).
Proof.
  induction s as [| a s IH]; cbn; [reflexivity |].
  destruct (Ascii.eqb a c); cbn; now rewrite IH.
Qed.

Lemma chars_inj (a b : string) : chars a = chars b -> a = b.
Proof.
  revert b. induction a as [| c a IH]; intros [| d b]; cbn; try discriminate.
  - reflexivity.
  - intros H. injection H as -> H. now rewrite (IH _ H).
Qed.

Lemma pad_two_digits (n : Z) : 0 <= n <= 99 -> pad n = two_digits n.
Proof.
  intros Hn. rewrite <- (Z2Nat.id n) by lia.
  assert (Hk : (Z.to_nat n < 100)%nat) by lia.
  revert Hk. generalize (Z.to_nat n). intros k Hk.
  do 100 (destruct k as [| k]; [vm_compute; reflexivity |]).
  lia.
Qed.

Lemma two_digits_digits (n : Z) :
  0 <= n <= 99 -> forallb is_digit (chars (two_digits n)) = true.
Proof.
  intros Hn. rewrite <- (Z2Nat.id n) by lia.
  assert (Hk : (Z.to_nat n < 100)%nat) by lia.
  revert Hk. generalize (Z.to_nat n). intros k Hk.
  do 100 (destruct k as [| k]; [vm_compute; reflexivity |]).
  lia.
Qed.

(** A year of four digits is written in four characters. *)
Lemma year_text_length (y : Z) :
  1000 <= y <= 9999 -> String.length (Z_to_string y) = 4%nat.
Proof.
  intros H.
  assert (A : forallb
                (fun k => Nat.eqb (String.length
                                     (Z_to_string (1000 + Z.of_nat k))) 4)
                (seq 0 (Z.to_nat 9000)) = true)
    by (vm_compute; reflexivity).
  rewrite forallb_forall in A. specialize (A (Z.to_nat (y - 1000))).
  rewrite in_seq in A.
  replace (1000 + Z.of_nat (Z.to_nat (y - 1000))) with y in A by lia.
  apply Nat.eqb_eq, A. lia.
Qed.

End TextFacts.

(** ** Property lists and the exception monad *)

Lemma truthy_not_nullish (v : value) : truthy v = true -> nullish v = false.
Proof. destruct v; cbn; congruence. Qed.

Lemma get_total (v : value) (k : string) :
  nullish v = false -> exists x, get v k = Ok x.
Proof.
  destruct v; cbn; try discriminate; intros _; eauto;
    destruct (String.eqb k "length"); eauto.
Qed.

Lemma get_throws (v : value) (k : string) (e : error) :
  get v k = Throw e -> nullish v = true /\ e = TypeError.
Proof.
  destruct v; cbn; try discriminate;
    try (intros H; injection H as <-; now split);
    destruct (String.eqb k "length"); discriminate.
Qed.

Lemma get_object (props : list (string * value)) (k : string) :
  get (VObj props) k = Ok (lookup k props).
Proof. reflexivity. Qed.

Lemma lookup_obj_set (props : list (string * value)) (k k' : string) (v : value) :
  lookup k (obj_set props k' v)
  = if String.eqb k k' then v else lookup k props.
Proof.
  unfold lookup. induction props as [| [k0 v0] props IH]; cbn.
  - destruct (String.eqb_spec k k'); reflexivity.
  - destruct (String.eqb_spec k' k0) as [-> | Hne]; cbn.
    + destruct (String.eqb_spec k k0); reflexivity.
    + destruct (String.eqb_spec k k0) as [-> | Hne'].
      * destruct (String.eqb_spec k0 k'); [congruence | reflexivity].
      * exact IH.
Qed.

Lemma obj_set_keys (props : list (string * value)) (k : string) (v : value) :
  forall k0, In k0 (map fst (obj_set props k v)) ->
             k0 = k \/ In k0 (map fst props).
Proof.
  induction props as [| [k1 v1] props IH]; cbn; intros k0 H.
  - destruct H as [<- | []]. now left.
  - destruct (String.eqb_spec k k1) as [-> | Hne]; cbn in H.
    + destruct H as [<- | H]; auto.
    + destruct H as [<- | H]; auto.
      destruct (IH _ H); auto.
Qed.

Lemma mapM_app {A B : Type} (f : A -> result B) (xs ys : list A) :
  mapM f (xs ++ ys)
  = do l <- mapM f xs; do r <- mapM f ys; Ok (l ++ r).
Proof.
  induction xs as [| x xs IH]; cbn.
  - destruct (mapM f ys); reflexivity.
  - destruct (f x) as [y | e]; cbn; [| reflexivity].
    rewrite IH. destruct (mapM f xs); cbn; [| reflexivity].
    destruct (mapM f ys); reflexivity.
Qed.

Lemma mapM_Forall2 {A B : Type} (f : A -> result B) (xs : list A) (ys : list B) :
  mapM f xs = Ok ys <-> Forall2 (fun x y => f x = Ok y) xs ys.
Proof.
  revert ys. induction xs as [| x xs IH]; intros ys; cbn.
  - split; [intros [= <-]; constructor | inversion 1; reflexivity].
  - split.
    + destruct (f x) as [y | e] eqn:Ex; cbn; [| discriminate].
      destruct (mapM f xs) as [l | e]; cbn; [| discriminate].
      intros [= <-]. constructor; [assumption | now apply IH].
    + inversion 1 as [| ? y ? l Hx Hl]; subst. rewrite Hx. cbn.
      apply IH in Hl. rewrite Hl. reflexivity.
Qed.

(** A loop whose every step succeeds runs to its end. *)
Lemma mapM_total {A B : Type} (f : A -> result B) (xs : list A) :
  Forall (fun x => exists y, f x = Ok y) xs -> exists ys, mapM f xs = Ok ys.
Proof.
  induction 1 as [| x xs [y Hy] _ [ys Hys]]; cbn; [eauto |].
  rewrite Hy, Hys. cbn. eauto.
Qed.

Lemma mapM_throws {A B : Type} (f : A -> result B) (xs : list A) (e : error) :
  mapM f xs = Throw e -> exists x, In x xs /\ f x = Throw e.
Proof.
  induction xs as [| x xs IH]; cbn; [discriminate |].
  destruct (f x) as [y | e'] eqn:Ex; cbn.
  - destruct (mapM f xs) as [l | e'']; cbn; [discriminate |].
    intros [= <-]. destruct (IH eq_refl) as (x' & Hin & Hx'). eauto.
  - intros [= <-]. eauto.
Qed.


Lemma filterM_Forall {A : Type} (f : A -> result bool) (xs ys : list A) :
  filterM f xs = Ok ys -> Forall (fun y => f y = Ok true) ys.
Proof.
  revert ys. induction xs as [| x xs IH]; cbn; intros ys.
  - intros [= <-]. constructor.
  - destruct (f x) as [b | e] eqn:Ex; cbn; [| discriminate].
    destruct (filterM f xs) as [l | e]; cbn; [| discriminate].
    intros [= <-]. destruct b; [constructor |]; auto.
Qed.

(** ** The normalizer *)

Lemma get_read (v : value) (k : string) :
  nullish v = false -> get v k = Ok (read v k).
Proof.
  intros H. unfold read. destruct (get_total v k H) as [x ->]. reflexivity.
Qed.

Lemma lookup_maybe_set (c : bool) props (k k0 : string) (v : value) :
  lookup k0 (maybe_set c props k v)
  = if c && String.eqb k0 k then v else lookup k0 props.
Proof.
  unfold maybe_set. destruct c; cbn; [apply lookup_obj_set | reflexivity].
Qed.

Lemma maybe_set_keys (c : bool) props (k : string) (v : value) :
  forall k0, In k0 (map fst (maybe_set c props k v)) ->
             k0 = k \/ In k0 (map fst props).
Proof.
  unfold maybe_set. destruct c; intros k0 H; [eapply obj_set_keys; eauto | auto].
Qed.

Section Normalizer.

Variable Date_parse : string -> option Z.

Let clean := clean_doc Date_parse.
Let run := cleanJsonForLLM Date_parse.
Let contrib := contribution Date_parse.

Lemma rename_key_eq (source : value) props (orig new : string) :
  nullish source = false ->
  rename_key source props (orig, new)
  = Ok (maybe_set (negb (nullish (read source orig))) props new
                  (renamed new (read source orig))).
Proof.
  intros H. unfold rename_key. rewrite (get_read _ _ H). cbn.
  unfold maybe_set, renamed. destruct (nullish (read source orig)); reflexivity.
Qed.

Lemma renames_cons (source : value) (orig new : string) entries props :
  renames source ((orig, new) :: entries) props
  = renames source entries
      (maybe_set (negb (nullish (read source orig))) props new
                 (renamed new (read source orig))).
Proof. reflexivity. Qed.

Lemma foldM_rename_key (source : value) entries props :
  nullish source = false ->
  foldM (rename_key source) props entries = Ok (renames source entries props).
Proof.
  intros H. revert props.
  induction entries as [| [orig new] entries IH]; intros props.
  - reflexivity.
  - rewrite renames_cons. cbn [foldM].
    rewrite (rename_key_eq _ _ _ _ H). cbn [bind]. apply IH.
Qed.

Lemma renames_keys (source : value) entries props :
  forall k, In k (map fst (renames source entries props)) ->
            In k (map snd entries) \/ In k (map fst props).
Proof.
  revert props. induction entries as [| [orig new] entries IH];
    intros props k H; [now right |].
  rewrite renames_cons in H. cbn [map snd In].
  apply IH in H as [H | H]; [auto |].
  apply maybe_set_keys in H as [-> | H]; auto.
Qed.

Lemma renames_lookup_other (source : value) entries props (k : string) :
  existsb (String.eqb k) (map snd entries) = false ->
  lookup k (renames source entries props) = lookup k props.
Proof.
  revert props. induction entries as [| [orig new] entries IH];
    intros props H; [reflexivity |].
  rewrite renames_cons. cbn [map snd existsb] in H.
  apply orb_false_elim in H as [Hk H].
  rewrite (IH _ H), lookup_maybe_set, Hk, andb_false_r. reflexivity.
Qed.

Lemma renames_lookup (source : value) entries props (orig new : string) :
  NoDup (map snd entries) ->
  In (orig, new) entries ->
  lookup new (renames source entries props)
  = if nullish (read source orig) then lookup new props
    else renamed new (read source orig).
Proof.
  revert props. induction entries as [| [o n] entries IH];
    intros props Hnd Hin; [contradiction |].
  rewrite renames_cons. cbn [map snd] in Hnd.
  inversion Hnd as [| ? ? Hn Hnd']; subst.
  destruct Hin as [[= -> ->] | Hin].
  - rewrite renames_lookup_other.
    + rewrite lookup_maybe_set, String.eqb_refl, andb_true_r.
      destruct (nullish (read source orig)); reflexivity.
    + destruct (existsb (String.eqb new) (map snd entries)) eqn:E;
        [| reflexivity].
      apply existsb_exists in E as (x & Hx & Ex).
      apply String.eqb_eq in Ex. subst x. contradiction.
  - rewrite (IH _ Hnd' Hin).
    rewrite lookup_maybe_set.
    destruct (String.eqb_spec new n) as [-> | Hne].
    + exfalso. apply Hn. change n with (snd (orig, n)). now apply in_map.
    + rewrite andb_false_r. reflexivity.
Qed.

Lemma convert_timestamp_eq (source : value) (k out : string) props :
  nullish source = false ->
  convert_timestamp Date_parse source k out props
  = if truthy (read source k) then
      do iso <- toISOString (Date_new Date_parse (read source k));
      Ok (obj_set props out (VStr iso))
    else Ok props.
Proof.
  intros H. unfold convert_timestamp. rewrite (get_read _ _ H). reflexivity.
Qed.

Lemma convert_timestamp_inv (source : value) (k out : string) props :
  nullish source = false ->
  (convert_timestamp Date_parse source k out props = Throw RangeError
   /\ truthy (read source k) = true
   /\ Date_new Date_parse (read source k) = None)
  \/ (exists c v,
        convert_timestamp Date_parse source k out props
        = Ok (maybe_set c props out v)).
Proof.
  intros H. rewrite (convert_timestamp_eq _ _ _ _ H).
  destruct (truthy (read source k)).
  - destruct (Date_new Date_parse (read source k)) as [t |]; cbn.
    + right. eexists true, _. reflexivity.
    + left. auto.
  - right. exists false, VUndefined. reflexivity.
Qed.

Lemma count_list_eq (source : value) (k out : string) props :
  nullish source = false ->
  exists c v, count_list source k out props = Ok (maybe_set c props out v).
Proof.
  intros H. unfold count_list. rewrite (get_read _ _ H). cbn.
  destruct (read source k); cbn;
    try (exists false, VUndefined; reflexivity).
  eexists true, _. reflexivity.
Qed.

(** Runs the three count steps in a hypothesis about [clean_doc]. *)
Ltac count_steps src Hn H :=
  repeat match type of H with
         | context [count_list _ ?k ?out ?p] =>
             let c := fresh "c" in
             let v := fresh "v" in
             let E := fresh "E" in
             destruct (count_list_eq src k out p Hn) as (c & v & E);
             rewrite E in H; cbn [bind] in H
         end.

Lemma KEY_MAP_targets (orig new : string) :
  In (orig, new) KEY_MAP ->
  In new canonical_keys
  /\ String.eqb new "start_time_utc" = false
  /\ String.eqb new "end_time_utc" = false
  /\ String.eqb new "teacher_count" = false
  /\ String.eqb new "attendance_yes_count" = false
  /\ String.eqb new "attendance_no_count" = false.
Proof.
  intros H. cbn in H.
  repeat (destruct H as [[= <- <-] | H]); try contradiction;
    (split; [cbn; repeat first [left; reflexivity | right] | repeat split]).
Qed.

Lemma KEY_MAP_NoDup : NoDup (map snd KEY_MAP).
Proof.
  cbn. repeat (constructor; [cbn; intuition discriminate |]). constructor.
Qed.

Lemma clean_doc_skipped (doc : value) : skipped doc -> clean doc = Ok VNull.
Proof.
  unfold clean, clean_doc. intros [H | (s & Hs & Ht)].
  - rewrite H. reflexivity.
  - destruct (truthy doc); [| reflexivity]. cbn.
    rewrite Hs. cbn. rewrite Ht. reflexivity.
Qed.

(** Any other document goes through the three stages. *)
Lemma clean_doc_proper (doc source : value) :
  truthy doc = true -> get doc "_source" = Ok source -> truthy source = true ->
  clean doc =
    (do e2 <- convert_timestamp Date_parse source "strat_date_and_time_date"
                                "start_time_utc" (renames source KEY_MAP []);
     do e3 <- convert_timestamp Date_parse source "end_date_and_time_date"
                                "end_time_utc" e2;
     do e4 <- count_list source "teachers_list_user" "teacher_count" e3;
     do e5 <- count_list source "attended_yes_list_custom_student_info"
                         "attendance_yes_count" e4;
     do e6 <- count_list source "attended_no_list_custom_student_info"
                         "attendance_no_count" e5;
     Ok (VObj e6)).
Proof.
  intros Hd Hs Ht. unfold clean, clean_doc.
  rewrite Hd. cbn [negb]. rewrite Hs. cbn [bind]. rewrite Ht. cbn [negb].
  rewrite (foldM_rename_key _ _ _ (truthy_not_nullish _ Ht)). reflexivity.
Qed.

Lemma clean_doc_cases (doc : value) :
  skipped doc
  \/ exists source,
      truthy doc = true /\ get doc "_source" = Ok source
      /\ truthy source = true.
Proof.
  destruct (truthy doc) eqn:Hd; [| left; now left].
  destruct (get_total doc "_source" (truthy_not_nullish _ Hd)) as [s Hs].
  destruct (truthy s) eqn:Ht.
  - right. eauto.
  - left. right. eauto.
Qed.

(** What a document maps to, when the mapping returns. *)
Lemma clean_doc_inv (doc ev : value) :
  clean doc = Ok ev ->
  (ev = VNull /\ skipped doc)
  \/ exists source props,
      truthy doc = true /\ get doc "_source" = Ok source
      /\ truthy source = true /\ ev = VObj props
      /\ (forall k, In k (map fst props) -> In k canonical_keys)
      /\ (forall orig new, In (orig, new) KEY_MAP ->
                           lookup new props = field source orig new).
Proof.
  intros H. destruct (clean_doc_cases doc) as [Hskip | (src & Hd & Hs & Ht)].
  - left. rewrite (clean_doc_skipped _ Hskip) in H. injection H as <-. auto.
  - right. exists src.
    rewrite (clean_doc_proper _ _ Hd Hs Ht) in H.
    pose proof (truthy_not_nullish _ Ht) as Hn.
    destruct (convert_timestamp_inv src "strat_date_and_time_date"
                "start_time_utc" (renames src KEY_MAP []) Hn)
      as [(E & _) | (c1 & v1 & E)]; rewrite E in H; [discriminate |].
    cbn [bind] in H.
    match type of H with
    | context [convert_timestamp _ _ _ _ ?p] =>
        destruct (convert_timestamp_inv src "end_date_and_time_date"
                    "end_time_utc" p Hn)
        as [(E2 & _) | (c2 & v2 & E2)]; rewrite E2 in H; [discriminate |]
    end.
    cbn [bind] in H.
    count_steps src Hn H.
    injection H as <-. eexists. repeat split; try eassumption.
    + intros k Hk.
      repeat (apply maybe_set_keys in Hk as [-> | Hk];
              [cbn; repeat first [left; reflexivity | right] |]).
      contradiction.
    + intros orig new Hin.
      destruct (KEY_MAP_targets _ _ Hin) as (_ & N1 & N2 & N3 & N4 & N5).
      rewrite lookup_maybe_set, N5, andb_false_r.
      rewrite lookup_maybe_set, N4, andb_false_r.
      rewrite lookup_maybe_set, N3, andb_false_r.
      rewrite lookup_maybe_set, N2, andb_false_r.
      rewrite lookup_maybe_set, N1, andb_false_r.
      exact (renames_lookup _ _ _ _ _ KEY_MAP_NoDup Hin).
Qed.

(** A document can only fail on a timestamp that is there and is not a
    date, and then with a [RangeError]. *)
Lemma clean_doc_throws (doc : value) (e : error) :
  clean doc = Throw e ->
  e = RangeError
  /\ exists source k,
      truthy doc = true /\ get doc "_source" = Ok source
      /\ truthy source = true
      /\ (k = "strat_date_and_time_date" \/ k = "end_date_and_time_date")
      /\ truthy (read source k) = true
      /\ Date_new Date_parse (read source k) = None.
Proof.
  intros H. destruct (clean_doc_cases doc) as [Hskip | (src & Hd & Hs & Ht)].
  - rewrite (clean_doc_skipped _ Hskip) in H. discriminate.
  - rewrite (clean_doc_proper _ _ Hd Hs Ht) in H.
    pose proof (truthy_not_nullish _ Ht) as Hn.
    destruct (convert_timestamp_inv src "strat_date_and_time_date"
                "start_time_utc" (renames src KEY_MAP []) Hn)
      as [(E & T & D) | (c1 & v1 & E)]; rewrite E in H.
    { injection H as <-. split; [reflexivity |].
      exists src, "strat_date_and_time_date". repeat split; auto. }
    cbn [bind] in H.
    match type of H with
    | context [convert_timestamp _ _ _ _ ?p] =>
        destruct (convert_timestamp_inv src "end_date_and_time_date"
                    "end_time_utc" p Hn)
        as [(E2 & T & D) | (c2 & v2 & E2)]; rewrite E2 in H
    end.
    { injection H as <-. split; [reflexivity |].
      exists src, "end_date_and_time_date". repeat split; auto. }
    cbn [bind] in H.
    count_steps src Hn H.
    discriminate.
Qed.

(** *** The whole batch *)

Lemma run_batch (rawData : value) (ds : list value) :
  truthy rawData = true -> get rawData "docs" = Ok (VArr ds) ->
  run rawData
  = ([],
     do mapped <- mapM clean ds;
     do cleanedEvents <- filterM keep_event mapped;
     Ok (events_object cleanedEvents)).
Proof.
  intros Ht Hd. unfold run, cleanJsonForLLM, invalid_input.
  rewrite Ht. cbn [negb]. rewrite Hd. reflexivity.
Qed.

(** Input that is missing or has no [docs] array: a diagnostic and the
    empty result. *)
Lemma run_invalid (rawData : value) :
  truthy rawData = false
  \/ (exists d, get rawData "docs" = Ok d /\ isArray d = false) ->
  run rawData
  = ([ConsoleError invalid_input_message], Ok (events_object [])).
Proof.
  unfold run, cleanJsonForLLM, invalid_input. intros [H | (d & Hd & Ha)].
  - rewrite H. reflexivity.
  - destruct (truthy rawData); [| reflexivity]. cbn [negb].
    rewrite Hd. cbn [bind]. rewrite Ha. reflexivity.
Qed.

Lemma run_cases (rawData : value) :
  run rawData
  = ([ConsoleError invalid_input_message], Ok (events_object []))
  \/ exists ds, truthy rawData = true /\ get rawData "docs" = Ok (VArr ds).
Proof.
  destruct (truthy rawData) eqn:Ht; [| left; apply run_invalid; now left].
  destruct (get_total rawData "docs" (truthy_not_nullish _ Ht)) as [d Hd].
  destruct (isArray d) eqn:Ha.
  - right. destruct d; try discriminate. eauto.
  - left. apply run_invalid. right. eauto.
Qed.

(** The normalizer never throws a [TypeError]: its reads are guarded. *)
Lemma run_throws (rawData : value) (e : error) :
  snd (run rawData) = Throw e -> e = RangeError.
Proof.
  destruct (run_cases rawData) as [-> | (ds & Ht & Hd)]; [discriminate |].
  rewrite (run_batch _ _ Ht Hd). cbn [snd].
  destruct (mapM clean ds) as [mapped |e'] eqn:Em; cbn [bind].
  - assert (Hall : Forall (fun ev => ev = VNull \/ exists p, ev = VObj p) mapped).
    { apply mapM_Forall2 in Em. clear -Em.
      induction Em as [| d ev ds mapped Hc _ IH]; constructor; [| exact IH].
      apply clean_doc_inv in Hc as [[-> _] | (s & p & _ & _ & _ & -> & _)];
        eauto. }
    clear Em. induction Hall as [| ev mapped Hev _ IH]; cbn; [discriminate |].
    destruct Hev as [-> | [p ->]]; cbn.
    + destruct (filterM keep_event mapped); cbn in *; [discriminate | exact IH].
    + destruct (strict_eq_str (lookup "status" p) "Archived"); cbn;
        destruct (filterM keep_event mapped); cbn in *;
        try discriminate; exact IH.
  - intros [= <-]. apply mapM_throws in Em as (d & _ & Hc).
    now apply clean_doc_throws in Hc.
Qed.

Lemma keep_event_total (ev : value) :
  ev = VNull \/ (exists p, ev = VObj p) -> exists b, keep_event ev = Ok b.
Proof.
  intros [-> | [p ->]]; cbn; [eauto |].
  destruct (strict_eq_str (lookup "status" p) "Archived"); cbn; eauto.
Qed.

(** Map-then-filter is the concatenation of the contributions. *)
Lemma map_filter_contributions (ds mapped kept : list value) :
  mapM clean ds = Ok mapped -> filterM keep_event mapped = Ok kept ->
  exists cs, Forall2 (fun d c => contrib d = Ok c) ds cs
             /\ kept = List.concat cs.
Proof.
  intros Hm. apply mapM_Forall2 in Hm. revert kept.
  induction Hm as [| d ev ds mapped Hd _ IH]; cbn; intros kept.
  - intros [= <-]. exists []. split; [constructor | reflexivity].
  - destruct (keep_event ev) as [b | e] eqn:Eb; cbn; [| discriminate].
    destruct (filterM keep_event mapped) as [l | e]; cbn; [| discriminate].
    intros [= <-]. destruct (IH l eq_refl) as (cs & Hcs & ->).
    exists ((if b then [ev] else []) :: cs). split.
    + constructor; [| exact Hcs]. unfold contrib, contribution. fold clean.
      rewrite Hd. cbn. rewrite Eb. reflexivity.
    + destruct b; reflexivity.
Qed.

Lemma keep_event_retained (ev : value) :
  keep_event ev = Ok true -> retained ev.
Proof.
  unfold keep_event. destruct (truthy ev) eqn:Ht; cbn [negb]; [| discriminate].
  pose proof (truthy_not_nullish _ Ht) as Hn.
  rewrite (get_read _ "status" Hn), (get_read _ "title" Hn). cbn [bind].
  destruct (strict_eq_str (read ev "status") "Archived") eqn:Es;
    [discriminate |].
  intros [= Htitle]. split; [exact Hn |].
  exists (read ev "status"), (read ev "title").
  split; [now apply get_read |].
  split; [intros E; rewrite E in Es; discriminate |].
  split; [now apply get_read |].
  split; [exact Htitle |].
  split; [now apply truthy_not_nullish |].
  intros E. rewrite E in Htitle. discriminate.
Qed.

Lemma archived_contributes_nothing (doc : value) (c : list value) :
  archived doc -> contrib doc = Ok c -> c = [].
Proof.
  intros (src & Hs & Hst). unfold contrib, contribution. fold clean.
  destruct (clean doc) as [ev | e] eqn:Ec; cbn [bind]; [| discriminate].
  apply clean_doc_inv in Ec
      as [[-> _] | (src' & p & _ & Hs' & _ & -> & _ & Hf)].
  - cbn. now intros [= <-].
  - rewrite Hs in Hs'. injection Hs' as <-.
    assert (Hl : lookup "status" p = VStr "Archived").
    { rewrite (Hf "event_status_text" "status").
      - unfold field, read. rewrite Hst. reflexivity.
      - cbn. auto. }
    cbn. rewrite Hl. cbn. now intros [= <-].
Qed.

Lemma run_returns (rawData out : value) :
  snd (run rawData) = Ok out ->
  exists events,
    out = events_object events
    /\ Forall (fun ev => keep_event ev = Ok true) events
    /\ Forall (fun ev => exists d, clean d = Ok ev) events.
Proof.
  destruct (run_cases rawData) as [-> | (ds & Ht & Hd)].
  - intros [= <-]. exists []. repeat split; constructor.
  - rewrite (run_batch _ _ Ht Hd). cbn [snd].
    destruct (mapM clean ds) as [mapped | e] eqn:Em; cbn [bind]; [| discriminate].
    destruct (filterM keep_event mapped) as [kept | e] eqn:Ef; cbn [bind];
      [| discriminate].
    intros [= <-]. exists kept. split; [reflexivity |].
    split; [eapply filterM_Forall; eassumption |].
    apply mapM_Forall2 in Em.
    assert (Hsrc : Forall (fun ev => exists d, clean d = Ok ev) mapped).
    { clear -Em. induction Em; constructor; eauto. }
    clear -Ef Hsrc. revert kept Ef.
    induction Hsrc as [| ev mapped Hev _ IH]; cbn; intros kept.
    + intros [= <-]. constructor.
    + destruct (keep_event ev) as [b | e]; cbn; [| discriminate].
      destruct (filterM keep_event mapped) as [l | e]; cbn; [| discriminate].
      intros [= <-]. destruct b; [constructor |]; auto.
Qed.

Lemma clean_doc_returns (doc : value) :
  well_dated Date_parse doc -> exists ev, clean doc = Ok ev.
Proof.
  intros Hw. destruct (clean doc) as [ev | e] eqn:E; [eauto |].
  apply clean_doc_throws in E
      as (_ & src & k & _ & Hs & Ht & Hk & Htv & Hnone).
  exfalso. apply (Hw src k (read src k) Hs Hk); auto.
  apply get_read. now apply truthy_not_nullish.
Qed.

(** A batch whose documents are all mapped without a fault returns. *)
Lemma batch_returns (rawData : value) (ds : list value) :
  truthy rawData = true -> get rawData "docs" = Ok (VArr ds) ->
  Forall (fun d => exists ev, clean d = Ok ev) ds ->
  exists events, run rawData = ([], Ok (events_object events)).
Proof.
  intros Ht Hd Hall. rewrite (run_batch _ _ Ht Hd).
  destruct (mapM_total _ _ Hall) as [mapped Em]. rewrite Em. cbn [bind].
  assert (Hk : Forall (fun ev => exists b, keep_event ev = Ok b) mapped).
  { apply mapM_Forall2 in Em. clear -Em.
    induction Em as [| d ev ds mapped Hev _ IH]; constructor; [| exact IH].
    apply keep_event_total.
    apply clean_doc_inv in Hev as [[-> _] | (s & p & _ & _ & _ & -> & _)];
      eauto. }
  assert (Hf : exists kept, filterM keep_event mapped = Ok kept).
  { clear -Hk. induction Hk as [| ev mapped [b Hb] _ [kept IH]]; cbn; [eauto |].
    rewrite Hb, IH. cbn. eauto. }
  destruct Hf as [kept ->]. cbn [bind]. eauto.
Qed.

(** The call returns on every batch whose timestamps are dates. *)
Lemma run_well_dated (rawData : value) (ds : list value) :
  truthy rawData = true -> get rawData "docs" = Ok (VArr ds) ->
  Forall (well_dated Date_parse) ds ->
  exists events, run rawData = ([], Ok (events_object events)).
Proof.
  intros Ht Hd Hall. apply (batch_returns _ _ Ht Hd).
  eapply Forall_impl; [| exact Hall]. intros d. apply clean_doc_returns.
Qed.

(** C2.  Every event of a returned result is retained: it is an object,
    its status is not the string Archived, and its title is truthy, hence
    neither missing nor empty.  The events are the contributions of the
    documents in order, and a document whose [_source.event_status_text] is
    the string Archived contributes nothing. *)
Theorem C2_archived_dropped_and_events_retained (rawData out : value) :
  snd (run rawData) = Ok out ->
  exists events,
    out = events_object events
    /\ Forall retained events
    /\ forall ds,
        truthy rawData = true -> get rawData "docs" = Ok (VArr ds) ->
        exists cs,
          Forall2 (fun d c => contrib d = Ok c /\ (archived d -> c = [])) ds cs
          /\ events = List.concat cs.
Proof.
  intros H. destruct (run_returns _ _ H) as (events & -> & Hkeep & _).
  exists events. split; [reflexivity |]. split.
  - eapply Forall_impl; [| exact Hkeep]. intros ev. apply keep_event_retained.
  - intros ds Ht Hd. rewrite (run_batch _ _ Ht Hd) in H. cbn [snd] in H.
    destruct (mapM clean ds) as [mapped | e] eqn:Em; cbn [bind] in H;
      [| discriminate].
    destruct (filterM keep_event mapped) as [kept | e] eqn:Ef; cbn [bind] in H;
      [| discriminate].
    assert (kept = events) as <- by (unfold events_object in H; congruence).
    destruct (map_filter_contributions _ _ _ Em Ef) as (cs & Hcs & ->).
    exists cs. split; [| reflexivity].
    eapply Forall2_impl; [| exact Hcs].
    intros d c Hc. split; [exact Hc |].
    intros Ha. eapply archived_contributes_nothing; eassumption.
Qed.




(** C10.  Every key of every event of a returned result is one of the
    twenty canonical names: the fifteen targets of [KEY_MAP] followed by
    the two timestamps and the three counts. *)
Theorem C10_event_keys_are_canonical (rawData out : value) :
  snd (run rawData) = Ok out ->
  exists events,
    out = events_object events
    /\ Forall (fun ev =>
                 exists props,
                   ev = VObj props
                   /\ Forall (fun k => In k canonical_keys) (map fst props))
              events
    /\ canonical_keys
       = map snd KEY_MAP
         ++ ["start_time_utc"; "end_time_utc"; "teacher_count";
             "attendance_yes_count"; "attendance_no_count"]
    /\ List.length (map snd KEY_MAP) = 15%nat
    /\ List.length canonical_keys = 20%nat
    /\ NoDup canonical_keys.
Proof.
  intros H. destruct (run_returns _ _ H) as (events & -> & Hkeep & Hsrc).
  exists events. split; [reflexivity |]. split.
  - apply Forall_forall. intros ev Hin.
    rewrite Forall_forall in Hkeep, Hsrc.
    destruct (Hsrc _ Hin) as [d Hd]. specialize (Hkeep _ Hin).
    apply clean_doc_inv in Hd as [[-> _] | (s & p & _ & _ & _ & -> & Hk & _)].
    + discriminate.
    + exists p. split; [reflexivity |]. now apply Forall_forall.
  - repeat split.
    cbn. repeat (constructor; [cbn; intuition discriminate |]). constructor.
Qed.

Lemma get_defined_truthy (v x : value) (k : string) :
  get v k = Ok x -> nullish x = false -> String.eqb k "length" = false ->
  truthy v = true.
Proof.
  destruct v as [| | [] | n | s | xs | props]; cbn; try discriminate;
    try reflexivity.
  - intros [= <-]. discriminate.
  - unfold lookup. destruct (n =? 0); [| reflexivity].
    intros [= <-]. discriminate.
  - intros H Hx Hk. rewrite Hk in H. destruct s; [| reflexivity].
    injection H as <-. discriminate.
Qed.

(** C8.  When the source value of [year_option_year] is a string, the
    event's [year] is that string with every underscore removed: its
    characters other than the underscore, in order.  The batch
    [{docs:[{_source:{event_title_text:"T", year_option_year:"2023_2024"}}]}]
    gives exactly [{events:[{title:"T", year:"20232024"}]}]. *)
Theorem C8_year_underscores_stripped (doc source ev : value) (s : string) :
  get doc "_source" = Ok source ->
  get source "year_option_year" = Ok (VStr s) ->
  clean doc = Ok ev ->
  (get ev "year" = Ok (VStr (replaceAll underscore EmptyString s))
   /\ chars (replaceAll underscore EmptyString s)
      = filter (fun a => negb (Ascii.eqb a underscore)) (chars s)
   /\ ~ In underscore (chars (replaceAll underscore EmptyString s)))
  /\ run year_example = ([], Ok (events_object [year_example_event])).
Proof.
  intros Hs Hy Hc. split; [| reflexivity].
  assert (Hts : truthy source = true)
    by (eapply get_defined_truthy; [exact Hy | reflexivity | reflexivity]).
  apply clean_doc_inv in Hc
      as [[_ [Hd | (s' & Hs' & Ht')]] | (src & p & _ & Hs' & _ & -> & _ & Hf)].
  - assert (truthy doc = true); [| congruence].
    eapply get_defined_truthy; [exact Hs | | reflexivity].
    now apply truthy_not_nullish.
  - congruence.
  - rewrite Hs in Hs'. injection Hs' as <-.
    split; [| split].
    + rewrite get_object, (Hf "year_option_year" "year").
      * unfold field, read. rewrite Hy. reflexivity.
      * cbn. auto 10.
    + apply TextFacts.replaceAll_empty_filter.
    + rewrite TextFacts.replaceAll_empty_filter. intros Hin.
      apply filter_In in Hin as [_ Hin]. rewrite Ascii.eqb_refl in Hin.
      discriminate.
Qed.

(** C1.  A batch holding a document whose start or end timestamp is
    there but is not a date does not return with an invalid marker: the
    conversion to ISO text throws a [RangeError] out of the whole call, and
    with it go the records of the other documents. *)
Theorem C1_unparseable_timestamp_aborts_batch
        (raw doc source v : value) (pre post : list value) (k : string) :
  truthy raw = true -> get raw "docs" = Ok (VArr (pre ++ doc :: post)) ->
  get doc "_source" = Ok source ->
  k = "strat_date_and_time_date" \/ k = "end_date_and_time_date" ->
  get source k = Ok v -> truthy v = true ->
  Date_new Date_parse v = None ->
  run raw = ([], Throw RangeError).
Proof.
  intros Ht Hd Hs Hk Hv Htv Hnew.
  assert (Hkl : String.eqb k "length" = false) by (destruct Hk; subst; reflexivity).
  assert (Hts : truthy source = true)
    by (eapply get_defined_truthy; eauto using truthy_not_nullish).
  assert (Htd : truthy doc = true)
    by (eapply get_defined_truthy; eauto using truthy_not_nullish).
  pose proof (truthy_not_nullish _ Hts) as Hn.
  assert (Hr : read source k = v) by (unfold read; now rewrite Hv).
  assert (Hdoc : clean doc = Throw RangeError).
  { rewrite (clean_doc_proper _ _ Htd Hs Hts).
    destruct Hk as [-> | ->].
    - rewrite convert_timestamp_eq, Hr, Htv, Hnew by assumption. reflexivity.
    - destruct (convert_timestamp_inv source "strat_date_and_time_date"
                  "start_time_utc" (renames source KEY_MAP []) Hn)
        as [(E & _) | (c1 & v1 & E)]; rewrite E; [reflexivity |].
      cbn [bind].
      rewrite convert_timestamp_eq, Hr, Htv, Hnew by assumption. reflexivity. }
  rewrite (run_batch _ _ Ht Hd). f_equal.
  rewrite mapM_app. cbn [mapM]. rewrite Hdoc.
  destruct (mapM clean pre) as [l | e] eqn:Em; cbn [bind]; [reflexivity |].
  apply mapM_throws in Em as (d & _ & Hc).
  apply clean_doc_throws in Hc as [-> _]. reflexivity.
Qed.

End Normalizer.

(** ** The exporter *)

Lemma filter_swap {A : Type} (p q : A -> bool) (l : list A) :
  filter p (filter q l) = filter q (filter p l).
Proof.
  induction l as [| y l IH]; cbn; [reflexivity |].
  destruct (p y) eqn:Py, (q y) eqn:Qy; cbn; rewrite ?Py, ?Qy, IH; reflexivity.
Qed.

Lemma filter_absorb {A : Type} (p q : A -> bool) (l : list A) :
  (forall y, p y = true -> q y = true) ->
  filter p (filter q l) = filter p l.
Proof.
  intros H. induction l as [| y l IH]; cbn; [reflexivity |].
  destruct (p y) eqn:Py.
  - rewrite (H _ Py). cbn. now rewrite Py, IH.
  - destruct (q y); cbn; now rewrite ?Py, IH.
Qed.

Lemma filter_both {A : Type} (p q : A -> bool) (l : list A) :
  filter p (filter q l) = filter (fun y => q y && p y) l.
Proof.
  induction l as [| y l IH]; cbn; [reflexivity |].
  destruct (q y); cbn; [destruct (p y) |]; now rewrite IH.
Qed.

Lemma first_seen_filter (p : string -> bool) (l : list string) :
  first_seen (filter p l) = filter p (first_seen l).
Proof.
  induction l as [| x l IH]; [reflexivity |].
  cbn [filter first_seen]. destruct (p x) eqn:Px.
  - cbn [first_seen]. rewrite IH. f_equal. apply filter_swap.
  - rewrite IH. symmetry. apply filter_absorb.
    intros y Py. destruct (String.eqb_spec y x) as [-> | _]; [congruence |].
    reflexivity.
Qed.

Lemma first_seen_In (l : list string) (x : string) :
  In x (first_seen l) <-> In x l.
Proof.
  induction l as [| k l IH]; cbn; [tauto |].
  rewrite filter_In, IH. split.
  - intros [-> | [H _]]; auto.
  - intros [-> | H]; [now left |].
    destruct (String.eqb_spec x k) as [-> | Hne]; [now left | right].
    split; [assumption | reflexivity].
Qed.

Lemma first_seen_NoDup (l : list string) : NoDup (first_seen l).
Proof.
  induction l as [| k l IH]; cbn; constructor.
  - rewrite filter_In. intros [_ H]. rewrite String.eqb_refl in H. discriminate.
  - now apply NoDup_filter.
Qed.

(** Adding names to the set one by one appends the new ones, each once,
    where they are first met. *)
Lemma fold_Set_add (ks acc : list string) :
  fold_left Set_add ks acc
  = acc ++ first_seen
             (filter (fun k => negb (existsb (String.eqb k) acc)) ks).
Proof.
  revert acc. induction ks as [| k ks IH]; intros acc; cbn.
  - now rewrite app_nil_r.
  - unfold Set_add at 2. destruct (existsb (String.eqb k) acc) eqn:E; cbn.
    + apply IH.
    + rewrite IH, <- app_assoc. cbn. do 2 f_equal.
      rewrite <- first_seen_filter, filter_both.
      f_equal. apply filter_ext. intros x.
      rewrite existsb_app. cbn. now rewrite orb_false_r, negb_orb.
Qed.

Lemma fold_add_keys (records : list value) (acc : list string) :
  fold_left add_keys records acc
  = fold_left Set_add (flat_map keys_of records) acc.
Proof.
  revert acc. induction records as [| r records IH]; intros acc; cbn;
    [reflexivity |].
  rewrite fold_left_app, IH. f_equal.
  unfold add_keys, keys_of, mapping_shaped.
  destruct (truthy r && jstype_eqb (typeof r) TyObject); reflexivity.
Qed.

Lemma headers_first_seen (records : list value) :
  headers records = first_seen (flat_map keys_of records).
Proof.
  unfold headers. rewrite fold_add_keys, fold_Set_add. cbn.
  f_equal. induction (flat_map keys_of records) as [| k l IH]; cbn;
    now rewrite ?IH.
Qed.

Lemma join_cons_following (first : string) (rest : list string) :
  join (str1 newline) (first :: rest)
  = String.append first (following_lines rest).
Proof.
  revert first. induction rest as [| r rest IH]; intros first.
  - cbn. induction first as [| c f IHf]; cbn; [reflexivity | now rewrite <- IHf].
  - change (join (str1 newline) (first :: r :: rest))
      with (String.append first
              (String.append (str1 newline) (join (str1 newline) (r :: rest)))).
    rewrite IH. reflexivity.
Qed.

Lemma assoc_absent (k : string) (props : list (string * value)) :
  existsb (String.eqb k) (map fst props) = false -> lookup k props = VUndefined.
Proof.
  unfold lookup. induction props as [| [k' v] props IH]; cbn; [reflexivity |].
  intros H. apply orb_false_elim in H as [-> H]. exact (IH H).
Qed.

Lemma get_absent (r : value) (h : string) :
  nullish r = false -> has_own r h = false -> get r h = Ok VUndefined.
Proof.
  unfold has_own, Object_keys.
  destruct r; cbn [nullish get]; try discriminate; intros _ H;
    try (apply orb_false_elim in H as [-> H]);
    now rewrite (assoc_absent _ _ H).
Qed.

(** The text of the year and of the five two-digit fields of a date from
    1980 on has no character that needs quoting. *)
Lemma excel_date_plain (t : Z) :
  1980 <= DateTime.YearFromTime t ->
  excel_date t
  = (Z_to_string (DateTime.YearFromTime t)
       ++ "-" ++ two_digits (DateTime.MonthFromTime t + 1)
       ++ "-" ++ two_digits (DateTime.DateFromTime t)
       ++ " " ++ two_digits (DateTime.HourFromTime t)
       ++ ":" ++ two_digits (DateTime.MinFromTime t)
       ++ ":" ++ two_digits (DateTime.SecFromTime t))%string
  /\ test_class [dquote; comma; newline] (excel_date t) = false
  /\ (DateTime.YearFromTime t <= 9999 ->
      String.length (excel_date t) = 19%nat).
Proof.
  intros Hy.
  pose proof (DateFacts.MonthFromTime_range t) as Hm.
  pose proof (DateFacts.DateFromTime_range t) as Hd.
  pose proof (DateFacts.HourFromTime_range t) as Hh.
  pose proof (DateFacts.MinFromTime_range t) as Hmi.
  pose proof (DateFacts.SecFromTime_range t) as Hs.
  unfold excel_date.
  rewrite !TextFacts.pad_two_digits by lia.
  split; [reflexivity |]. split.
  2: { intros Hy'. rewrite !TextFacts.length_append.
       rewrite TextFacts.year_text_length by lia. reflexivity. }
  rewrite !TextFacts.test_class_append.
  rewrite (TextFacts.digits_not_special (Z_to_string _))
    by (apply TextFacts.Z_to_string_digits; lia).
  repeat match goal with
         | |- context [test_class _ (two_digits ?n)] =>
             rewrite (TextFacts.digits_not_special (two_digits n))
               by (apply TextFacts.two_digits_digits; lia)
         end.
  reflexivity.
Qed.

Lemma escapeCsvCell_text (v : value) :
  escapeCsvCell v
  = if test_class [dquote; comma; newline] (cell_text v)
    then String dquote
           (String.append
              (replaceAll dquote (String dquote (str1 dquote)) (cell_text v))
              (str1 dquote))
    else cell_text v.
Proof.
  unfold escapeCsvCell, cell_text, coalesce. destruct (nullish v); reflexivity.
Qed.

(** C5.  [null] and [undefined] give the empty cell.  The text of any
    other value is put between double quotes, each of its double quotes
    written twice, exactly when it holds a comma, a double quote or a
    newline; otherwise it is the cell as it is.  The text [He said, "hi"]
    gives the cell that opens and closes with a quote and has two quotes
    on each side of [hi]. *)
Theorem C5_cell_escaping (v : value) :
  escapeCsvCell VNull = EmptyString
  /\ escapeCsvCell VUndefined = EmptyString
  /\ cell_text v = (if nullish v then EmptyString else ToString v)
  /\ (((exists c, In c (chars (cell_text v)) /\ special c)
       /\ chars (escapeCsvCell v)
          = dquote :: doubled (chars (cell_text v)) ++ [dquote])
      \/ ((~ exists c, In c (chars (cell_text v)) /\ special c)
          /\ escapeCsvCell v = cell_text v))
  /\ escapeCsvCell (VStr he_said_hi) = he_said_hi_cell.
Proof.
  repeat (split; [reflexivity |]). split; [| reflexivity].
  rewrite escapeCsvCell_text.
  destruct (test_class [dquote; comma; newline] (cell_text v)) eqn:E.
  - left. split.
    + apply TextFacts.test_class_true in E as (c & Hc & Hs).
      exists c. split; [exact Hc |]. unfold special. cbn in Hs. intuition.
    + cbn [chars]. rewrite TextFacts.chars_append, TextFacts.replaceAll_chars.
      reflexivity.
  - right. split; [| reflexivity].
    intros (c & Hc & Hs).
    assert (T : test_class [dquote; comma; newline] (cell_text v) = true).
    { apply TextFacts.test_class_true. exists c. split; [exact Hc |].
      unfold special in Hs. cbn. intuition. }
    congruence.
Qed.

Lemma first_line_append (a b : string) :
  test_class [newline] a = false ->
  first_line (String.append a (String newline b)) = a.
Proof.
  induction a as [| c a IH]; cbn.
  - intros _. reflexivity.
  - rewrite orb_false_r. intros H. apply orb_false_elim in H as [Hc Ha].
    rewrite Hc, (IH Ha). reflexivity.
Qed.

Section Exporter.

Variable Date_parse : string -> option Z.
Variable download_supported : bool.

Let format := formatDateForExcel Date_parse.
Let cell_of := cell Date_parse.
Let row_of := dataRow Date_parse.
Let rows_of := dataRows Date_parse.
Let csv := csvString Date_parse.
Let export := downloadJsonAsCsv Date_parse download_supported.

Lemma cell_eq (row value : value) (h : string) :
  get row h = Ok value ->
  cell_of row h
  = Ok (if String.eqb h "start_time_utc" || String.eqb h "end_time_utc"
        then escapeCsvCell (format value)
        else escapeCsvCell value).
Proof.
  intros H. unfold cell_of, cell. rewrite H. cbn [bind].
  destruct (String.eqb h "start_time_utc" || String.eqb h "end_time_utc");
    reflexivity.
Qed.

Lemma cell_total (row : value) (h : string) :
  nullish row = false -> exists c, cell_of row h = Ok c.
Proof using Date_parse.
  intros H. destruct (get_total row h H) as [v Hv].
  rewrite (cell_eq _ _ _ Hv). eauto.
Qed.

(** A header the record has no property for gives an empty cell. *)
Lemma cell_absent (row : value) (h : string) :
  nullish row = false -> has_own row h = false ->
  cell_of row h = Ok EmptyString.
Proof using Date_parse.
  intros Hn Ho. rewrite (cell_eq _ _ _ (get_absent _ _ Hn Ho)).
  destruct (String.eqb h "start_time_utc" || String.eqb h "end_time_utc");
    reflexivity.
Qed.

Lemma dataRow_cells (hs : list string) (row : value) :
  nullish row = false ->
  exists cells,
    Forall2 (fun h c => cell_of row h = Ok c) hs cells
    /\ row_of hs row = Ok (join (str1 comma) cells).
Proof using Date_parse.
  intros Hn.
  destruct (mapM_total (cell_of row) hs) as [cells Hc].
  - apply Forall_forall. intros h _. now apply cell_total.
  - exists cells. split; [now apply mapM_Forall2 |].
    unfold row_of, dataRow. fold cell_of. rewrite Hc. reflexivity.
Qed.

Lemma dataRows_total (records : list value) :
  Forall (fun r => nullish r = false) records ->
  exists rows,
    rows_of records = Ok rows
    /\ Forall2 (fun r row => row_of (headers records) r = Ok row) records rows.
Proof using Date_parse.
  intros Hall.
  destruct (mapM_total (row_of (headers records)) records) as [rows Hr].
  - eapply Forall_impl; [| exact Hall]. intros r Hn.
    destruct (dataRow_cells (headers records) r Hn) as (cells & _ & E). eauto.
  - exists rows. split; [exact Hr | now apply mapM_Forall2].
Qed.

Lemma headers_In (records : list value) (h : string) :
  In h (headers records)
  <-> exists r, In r records /\ mapping_shaped r = true /\ In h (Object_keys r).
Proof using.
  rewrite headers_first_seen, first_seen_In, in_flat_map. unfold keys_of.
  split.
  - intros (r & Hr & Hh). exists r.
    destruct (mapping_shaped r); [auto | contradiction].
  - intros (r & Hr & Hm & Hh). exists r. rewrite Hm. auto.
Qed.

(** Records none of which is [null] or [undefined].  The header is the
    keys of the mapping-shaped records, each once, in the order they are
    first seen; every record gives a row of one cell per header, joined by
    commas, and a header the record has no property for gives the empty
    cell.  The records [[{a:1,b:2},{b:3,c:4}]] give the header [a,b,c] and
    the rows [1,2,] and [,3,4]. *)
Lemma header_union_and_empty_cells (records : list value) :
  Forall (fun r => nullish r = false) records ->
  headers records = first_seen (flat_map keys_of records)
  /\ NoDup (headers records)
  /\ (forall h,
         In h (headers records)
         <-> exists r, In r records /\ mapping_shaped r = true
                       /\ In h (Object_keys r))
  /\ headerRow records = join (str1 comma) (headers records)
  /\ (exists rows,
         rows_of records = Ok rows
         /\ Forall2
              (fun r row =>
                 exists cells,
                   Forall2 (fun h c => cell_of r h = Ok c
                                       /\ (has_own r h = false
                                           -> c = EmptyString))
                           (headers records) cells
                   /\ row = join (str1 comma) cells)
              records rows)
  /\ headerRow header_example = "a,b,c"
  /\ rows_of header_example = Ok ["1,2,"; ",3,4"].
Proof using Date_parse.
  intros Hall.
  split; [apply headers_first_seen |].
  split; [rewrite headers_first_seen; apply first_seen_NoDup |].
  split; [apply headers_In |].
  split; [reflexivity |].
  split; [| split; reflexivity].
  destruct (dataRows_total records Hall) as (rows & Hr & Hrows).
  exists rows. split; [exact Hr |].
  clear Hr. revert Hrows. generalize (headers records). intros hs Hrows.
  induction Hrows as [| r row rs rows Hrow _ IH]; [constructor |].
  inversion Hall as [| ? ? Hn Hall']; subst.
  constructor; [| exact (IH Hall')].
  destruct (dataRow_cells hs r Hn) as (cells & Hcells & E).
  rewrite E in Hrow. injection Hrow as <-.
  exists cells. split; [| reflexivity].
  eapply Forall2_impl; [| exact Hcells].
  intros h c Hc. split; [exact Hc |].
  intros Ho. pose proof (cell_absent _ _ Hn Ho) as Ha.
  unfold cell_of in *. cbv beta in Hc. congruence.
Qed.

(** Reading the cells of a record throws nothing but a [TypeError], and
    the read of a header throws only on a record that is [null] or
    [undefined]. *)
Lemma dataRow_throws (hs : list string) (row : value) (e : error) :
  row_of hs row = Throw e -> e = TypeError /\ nullish row = true.
Proof using Date_parse.
  clear export. unfold row_of, dataRow. fold cell_of.
  destruct (mapM (cell_of row) hs) as [cells | e'] eqn:Em; [discriminate |].
  cbn [bind]. intros [= <-].
  apply mapM_throws in Em as (h & _ & Hc).
  unfold cell_of, cell in Hc.
  destruct (get row h) as [v | e''] eqn:Eg; cbn [bind] in Hc.
  - destruct (String.eqb h "start_time_utc" || String.eqb h "end_time_utc");
      discriminate.
  - injection Hc as <-. apply get_throws in Eg as [Hn ->]. now split.
Qed.

(** C4.  The claim covers every list of records, and the header pass does
    skip a record that is [null] or [undefined]; the row pass does not:
    when such a record is in the list and there is a header at all,
    reading the header off the record throws a [TypeError], so no row and
    no file comes out, instead of a row of empty cells. *)
Theorem C4_null_record_aborts_rows
        (pre post : list value) (bad : value) (filename : option string) :
  nullish bad = true ->
  headers (pre ++ bad :: post) <> [] ->
  add_keys (headers pre) bad = headers pre
  /\ rows_of (pre ++ bad :: post) = Throw TypeError
  /\ export (VArr (pre ++ bad :: post)) filename = ([], Throw TypeError).
Proof.
  intros Hbad Hhs.
  assert (Hskip : add_keys (headers pre) bad = headers pre)
    by (destruct bad; try discriminate; reflexivity).
  assert (Hrows : rows_of (pre ++ bad :: post) = Throw TypeError).
  { unfold rows_of, dataRows. fold row_of.
    destruct (headers (pre ++ bad :: post)) as [| h hs] eqn:Eh; [congruence |].
    rewrite mapM_app.
    assert (Hb : row_of (h :: hs) bad = Throw TypeError)
      by (destruct bad; try discriminate; reflexivity).
    cbn [mapM]. rewrite Hb.
    destruct (mapM (row_of (h :: hs)) pre) as [l | e] eqn:Em; cbn [bind];
      [reflexivity |].
    apply mapM_throws in Em as (r & _ & Hr).
    apply dataRow_throws in Hr as [-> _]. reflexivity. }
  split; [exact Hskip |]. split; [exact Hrows |].
  unfold export, downloadJsonAsCsv, invalid_data.
  cbn [truthy isArray negb get String.eqb Ascii.eqb Bool.eqb bind].
  cbn [strict_eq_num].
  replace (Z.of_nat (List.length (pre ++ bad :: post)) =? 0) with false
    by (symmetry; apply Z.eqb_neq; rewrite length_app; cbn [List.length]; lia).
  unfold csvString. fold rows_of. rewrite Hrows. reflexivity.
Qed.

Lemma format_not_string (v : value) :
  (forall s, v <> VStr s) \/ v = VStr EmptyString ->
  format v = VStr EmptyString.
Proof using Date_parse.
  unfold format, formatDateForExcel.
  intros [H | ->]; [| reflexivity].
  destruct v; cbn; try reflexivity.
  - destruct b; reflexivity.
  - destruct (n =? 0); reflexivity.
  - exfalso. eapply H. reflexivity.
Qed.

Lemma format_string (s : string) :
  s <> EmptyString ->
  format (VStr s)
  = match Date_new Date_parse (VStr s) with
    | None => VStr s
    | Some t =>
        if DateTime.YearFromTime t <? 1980 then VStr s else VStr (excel_date t)
    end.
Proof using Date_parse.
  intros H. unfold format, formatDateForExcel. cbn [truthy typeof jstype_eqb].
  destruct (String.eqb_spec s EmptyString) as [-> | _]; [contradiction |].
  reflexivity.
Qed.

(** C6, for string values.  In the columns [start_time_utc] and
    [end_time_utc], and in no other, a string is read as a timestamp: when
    it is not one, or its UTC year is before 1980, the cell is the string
    itself, escaped as any cell and so unchanged when it needs no quoting;
    otherwise the cell is year, month, day, hour, minute and second of the
    UTC time, the last five in two digits, nineteen characters in all up to
    the year 9999.  A value that is missing, empty or not a string gives
    the empty cell in those columns. *)
Theorem C6_date_columns (row value : value) (h : string) :
  get row h = Ok value ->
  (~ date_column h -> cell_of row h = Ok (escapeCsvCell value))
  /\ (date_column h ->
      ((forall s, value <> VStr s) \/ value = VStr EmptyString ->
       cell_of row h = Ok EmptyString)
      /\ forall s,
          value = VStr s -> s <> EmptyString ->
          (Date_new Date_parse (VStr s) = None ->
           cell_of row h = Ok (escapeCsvCell (VStr s)))
          /\ (forall t,
                 Date_new Date_parse (VStr s) = Some t ->
                 DateTime.YearFromTime t < 1980 ->
                 cell_of row h = Ok (escapeCsvCell (VStr s)))
          /\ (forall t,
                 Date_new Date_parse (VStr s) = Some t ->
                 1980 <= DateTime.YearFromTime t ->
                 cell_of row h = Ok (excel_date t)
                 /\ excel_date t
                    = (Z_to_string (DateTime.YearFromTime t)
                         ++ "-" ++ two_digits (DateTime.MonthFromTime t + 1)
                         ++ "-" ++ two_digits (DateTime.DateFromTime t)
                         ++ " " ++ two_digits (DateTime.HourFromTime t)
                         ++ ":" ++ two_digits (DateTime.MinFromTime t)
                         ++ ":" ++ two_digits (DateTime.SecFromTime t))%string
                 /\ (DateTime.YearFromTime t <= 9999 ->
                     String.length (excel_date t) = 19%nat)))
  /\ (forall s, test_class [dquote; comma; newline] s = false ->
                escapeCsvCell (VStr s) = s).
Proof using Date_parse.
  clear export.
  intros Hv. rewrite (cell_eq _ _ _ Hv). split; [| split].
  - intros Hh. unfold date_column in Hh.
    destruct (String.eqb_spec h "start_time_utc"); [tauto |].
    destruct (String.eqb_spec h "end_time_utc"); [tauto |]. reflexivity.
  - intros Hh.
    assert (E : String.eqb h "start_time_utc" || String.eqb h "end_time_utc"
                = true)
      by (destruct Hh as [-> | ->]; reflexivity).
    rewrite E. split.
    + intros Hns. now rewrite (format_not_string _ Hns).
    + intros s -> Hs. rewrite (format_string _ Hs). split; [| split].
      * intros ->. reflexivity.
      * intros t -> Hy. apply Z.ltb_lt in Hy. rewrite Hy. reflexivity.
      * intros t -> Hy.
        destruct (Z.ltb_spec (DateTime.YearFromTime t) 1980); [lia |].
        destruct (excel_date_plain t Hy) as (Eq & Hplain & Hlen).
        split; [| split; [exact Eq | exact Hlen]].
        rewrite escapeCsvCell_text. unfold cell_text. cbn [nullish ToString].
        now rewrite Hplain.
  - intros s Hs. rewrite escapeCsvCell_text. unfold cell_text.
    cbn [nullish ToString]. now rewrite Hs.
Qed.

(** C7.  When the data is missing, is not an array, or is the empty array,
    the call logs its diagnostic and returns: the one effect is the
    diagnostic, so nothing is saved. *)
Theorem C7_invalid_data_no_artifact (jsonData : value) (filename : option string) :
  nullish jsonData = true \/ isArray jsonData = false \/ jsonData = VArr [] ->
  export jsonData filename = ([ConsoleError invalid_data_message], Ok tt)
  /\ forall name mime content,
      ~ In (Download name mime content) (fst (export jsonData filename)).
Proof.
  intros H.
  assert (E : export jsonData filename
              = ([ConsoleError invalid_data_message], Ok tt)).
  { unfold export, downloadJsonAsCsv, invalid_data.
    destruct H as [H | [H | ->]]; [| | reflexivity].
    - destruct jsonData; try discriminate; reflexivity.
    - destruct jsonData; try discriminate; cbn;
        repeat match goal with
               | |- context [if ?b then _ else _] => destruct b
               end; reflexivity. }
  split; [exact E |].
  rewrite E. cbn. intros name mime content [Hc | []]. discriminate.
Qed.

Lemma null_record_rows_throw (pre post : list value) (bad : value) :
  nullish bad = true ->
  headers (pre ++ bad :: post) <> [] ->
  rows_of (pre ++ bad :: post) = Throw TypeError.
Proof using Date_parse.
  clear export. intros Hbad Hhs.
  unfold rows_of, dataRows. fold row_of.
  destruct (headers (pre ++ bad :: post)) as [| h hs] eqn:Eh; [congruence |].
  rewrite mapM_app.
  assert (Hb : row_of (h :: hs) bad = Throw TypeError)
    by (destruct bad; try discriminate; reflexivity).
  cbn [mapM]. rewrite Hb.
  destruct (mapM (row_of (h :: hs)) pre) as [l | e] eqn:Em; cbn [bind];
    [reflexivity |].
  apply mapM_throws in Em as (r & _ & Hr).
  apply dataRow_throws in Hr as [-> _]. reflexivity.
Qed.

(** C9.  The claim covers every list the validation lets through, and a
    list that holds a [null] or [undefined] record beside a record with a
    key is one: it is an array and not empty.  For it no text is made at
    all, neither mark nor header nor row: the row pass throws its
    [TypeError] before the text is put together, and nothing is saved. *)
Theorem C9_null_record_leaves_no_text
        (pre post : list value) (bad : value) (filename : option string) :
  nullish bad = true ->
  headers (pre ++ bad :: post) <> [] ->
  invalid_data (VArr (pre ++ bad :: post)) = Ok false
  /\ csv (pre ++ bad :: post) = Throw TypeError
  /\ (forall text, csv (pre ++ bad :: post) <> Ok text)
  /\ export (VArr (pre ++ bad :: post)) filename = ([], Throw TypeError).
Proof.
  intros Hbad Hhs.
  pose proof (null_record_rows_throw pre post bad Hbad Hhs) as Hrows.
  assert (Hvalid : invalid_data (VArr (pre ++ bad :: post)) = Ok false).
  { unfold invalid_data.
    cbn [truthy isArray negb get String.eqb Ascii.eqb Bool.eqb bind].
    cbn [strict_eq_num].
    replace (Z.of_nat (List.length (pre ++ bad :: post)) =? 0) with false
      by (symmetry; apply Z.eqb_neq; rewrite length_app; cbn [List.length];
          lia).
    reflexivity. }
  assert (Hcsv : csv (pre ++ bad :: post) = Throw TypeError).
  { unfold csv, csvString. fold rows_of. rewrite Hrows. reflexivity. }
  split; [exact Hvalid |]. split; [exact Hcsv |]. split.
  - intros text H. rewrite Hcsv in H. discriminate.
  - unfold export, downloadJsonAsCsv. rewrite Hvalid. fold csv.
    rewrite Hcsv. reflexivity.
Qed.

End Exporter.

(** ** Worked examples

    The host's [Date.parse] is taken to read the ISO form and nothing
    else, as every engine does on the texts used here. *)

(** The batches with the text [bad-date] for a start and for an end
    timestamp. *)
Lemma C1_witness :
  iso_utc_parse "bad-date" = None
  /\ cleanJsonForLLM iso_utc_parse bad_start_batch = ([], Throw RangeError)
  /\ cleanJsonForLLM iso_utc_parse bad_end_batch = ([], Throw RangeError).
Proof.
  split; [reflexivity |]. split.
  - apply (C1_unparseable_timestamp_aborts_batch iso_utc_parse
             bad_start_batch (VObj [("_source", bad_start_source)])
             bad_start_source (VStr "bad-date") [titled_doc] []
             "strat_date_and_time_date");
      first [reflexivity | left; reflexivity].
  - apply (C1_unparseable_timestamp_aborts_batch iso_utc_parse
             bad_end_batch (VObj [("_source", bad_end_source)])
             bad_end_source (VStr "bad-date") [titled_doc] []
             "end_date_and_time_date");
      first [reflexivity | right; reflexivity].
Defined.

(** A batch of an archived and a live document: the live one alone is
    returned. *)
Lemma C2_witness :
  snd (cleanJsonForLLM iso_utc_parse archived_batch)
  = Ok (events_object [live_event])
  /\ exists events,
      events_object [live_event] = events_object events
      /\ Forall retained events
      /\ forall ds,
          truthy archived_batch = true ->
          get archived_batch "docs" = Ok (VArr ds) ->
          exists cs,
            Forall2 (fun d c => contribution iso_utc_parse d = Ok c
                                /\ (archived d -> c = [])) ds cs
            /\ events = List.concat cs.
Proof.
  split; [reflexivity |].
  apply (C2_archived_dropped_and_events_retained iso_utc_parse archived_batch).
  reflexivity.
Defined.


(** The records [[{a:1}, null]]. *)
Lemma C4_witness :
  nullish VNull = true
  /\ headers null_record_example = ["a"]
  /\ dataRows iso_utc_parse null_record_example = Throw TypeError
  /\ (forall rows, dataRows iso_utc_parse null_record_example <> Ok rows)
  /\ downloadJsonAsCsv iso_utc_parse true (VArr null_record_example) None
     = ([], Throw TypeError).
Proof.
  split; [reflexivity |]. split; [reflexivity |].
  destruct (C4_null_record_aborts_rows iso_utc_parse true
              [VObj [("a", VNum 1)]] [] VNull None eq_refl)
    as (_ & Hrows & Hexp); [discriminate |].
  split; [exact Hrows |]. split; [| exact Hexp].
  intros rows H. change (dataRows iso_utc_parse null_record_example)
    with (dataRows iso_utc_parse ([VObj [("a", VNum 1)]] ++ [VNull])) in H.
  rewrite Hrows in H. discriminate.
Defined.

(** The header example. *)
Lemma header_example_rows :
  Forall (fun r => nullish r = false) header_example
  /\ headers header_example = ["a"; "b"; "c"]
  /\ NoDup (headers header_example)
  /\ headerRow header_example = "a,b,c"
  /\ dataRows iso_utc_parse header_example = Ok ["1,2,"; ",3,4"].
Proof.
  assert (H : Forall (fun r => nullish r = false) header_example)
    by (repeat constructor).
  split; [exact H |].
  destruct (header_union_and_empty_cells iso_utc_parse header_example H)
    as (_ & Hnd & _ & _ & _ & Hrow & Hrows).
  split; [reflexivity |]. split; [exact Hnd |]. split; [exact Hrow |].
  exact Hrows.
Qed.

(** C6 does not reach a value that is not a string: the number
    1705312800000 is the time 2024-01-15T10:00:00.000Z, yet its cell in
    the column [start_time_utc] is neither [2024-01-15 10:00:00] nor the
    text of the number: it is empty. *)
Lemma C6_counterexample :
  get numeric_time_record "start_time_utc" = Ok (VNum 1705312800000)
  /\ Date_new iso_utc_parse (VNum 1705312800000) = Some 1705312800000
  /\ DateTime.YearFromTime 1705312800000 = 2024
  /\ excel_date 1705312800000 = "2024-01-15 10:00:00"
  /\ ToString (VNum 1705312800000) = "1705312800000"
  /\ cell iso_utc_parse numeric_time_record "start_time_utc" = Ok EmptyString
  /\ cell iso_utc_parse numeric_time_record "start_time_utc"
     <> Ok "2024-01-15 10:00:00"
  /\ cell iso_utc_parse numeric_time_record "start_time_utc"
     <> Ok "1705312800000".
Proof.
  repeat (split; [reflexivity |]). split; discriminate.
Qed.

(** A start time in ISO text and an end time that is not a date. *)
Lemma C6_witness :
  get dated_record "start_time_utc" = Ok (VStr "2024-01-15T10:00:00.000Z")
  /\ get dated_record "end_time_utc" = Ok (VStr "bad-date")
  /\ cell iso_utc_parse dated_record "start_time_utc"
     = Ok "2024-01-15 10:00:00"
  /\ cell iso_utc_parse dated_record "end_time_utc" = Ok "bad-date".
Proof.
  split; [reflexivity |]. split; [reflexivity |].
  destruct (C6_date_columns iso_utc_parse dated_record
              (VStr "2024-01-15T10:00:00.000Z") "start_time_utc" eq_refl)
    as (_ & Hstart & _).
  destruct (C6_date_columns iso_utc_parse dated_record
              (VStr "bad-date") "end_time_utc" eq_refl)
    as (_ & Hend & _).
  split.
  - destruct (Hstart (or_introl eq_refl)) as (_ & Hs).
    destruct (Hs "2024-01-15T10:00:00.000Z" eq_refl) as (_ & _ & Hdate);
      [discriminate |].
    destruct (Hdate 1705312800000 eq_refl) as (Hcell & _ & _).
    + vm_compute. discriminate.
    + exact Hcell.
  - destruct (Hend (or_intror eq_refl)) as (_ & He).
    destruct (He "bad-date" eq_refl) as (Hbad & _); [discriminate |].
    exact (Hbad eq_refl).
Defined.

(** In a date column a string that is not a date is escaped like any
    cell. *)
Lemma date_cell_is_escaped :
  cell iso_utc_parse (VObj [("end_time_utc", VStr "bad,date")]) "end_time_utc"
  = Ok (String dquote (String.append "bad,date" (str1 dquote))).
Proof. reflexivity. Qed.

(** Read back by the exporter, the ISO text of a time is the same time
    with a space for the [T] and without the milliseconds. *)
Lemma iso_text_example :
  toISOString (Date_new iso_utc_parse (VStr "2024-01-15T10:00:00.000Z"))
  = Ok "2024-01-15T10:00:00.000Z"
  /\ formatDateForExcel iso_utc_parse (VStr "2024-01-15T10:00:00.000Z")
     = VStr "2024-01-15 10:00:00".
Proof. split; reflexivity. Qed.

(** The empty array, a missing argument and a string. *)
Lemma C7_witness :
  (nullish (VArr []) = true \/ isArray (VArr []) = false \/ VArr [] = VArr [])
  /\ downloadJsonAsCsv iso_utc_parse true (VArr []) None
     = ([ConsoleError invalid_data_message], Ok tt)
  /\ downloadJsonAsCsv iso_utc_parse true VUndefined (Some "events.csv")
     = ([ConsoleError invalid_data_message], Ok tt)
  /\ downloadJsonAsCsv iso_utc_parse true (VStr "rows") None
     = ([ConsoleError invalid_data_message], Ok tt).
Proof.
  split; [right; right; reflexivity |].
  split; [| split].
  - apply (C7_invalid_data_no_artifact iso_utc_parse true (VArr []) None).
    right. right. reflexivity.
  - apply (C7_invalid_data_no_artifact iso_utc_parse true VUndefined
             (Some "events.csv")).
    left. reflexivity.
  - apply (C7_invalid_data_no_artifact iso_utc_parse true (VStr "rows") None).
    right. left. reflexivity.
Defined.

(** The year example. *)
Lemma C8_witness :
  get year_example_doc "_source"
  = Ok (VObj [("event_title_text", VStr "T");
              ("year_option_year", VStr "2023_2024")])
  /\ clean_doc iso_utc_parse year_example_doc = Ok year_example_event
  /\ get year_example_event "year" = Ok (VStr "20232024")
  /\ cleanJsonForLLM iso_utc_parse year_example
     = ([], Ok (events_object [year_example_event])).
Proof.
  split; [reflexivity |]. split; [reflexivity |].
  destruct (C8_year_underscores_stripped iso_utc_parse year_example_doc
              (VObj [("event_title_text", VStr "T");
                     ("year_option_year", VStr "2023_2024")])
              year_example_event "2023_2024" eq_refl eq_refl eq_refl)
    as ((Hyear & _) & Hrun).
  split; [exact Hyear | exact Hrun].
Defined.

(** The records [[{a:1}, null]] pass the validation and leave no text. *)
Lemma C9_witness :
  nullish VNull = true
  /\ headers null_record_example = ["a"]
  /\ invalid_data (VArr null_record_example) = Ok false
  /\ csvString iso_utc_parse null_record_example = Throw TypeError
  /\ (forall text, csvString iso_utc_parse null_record_example <> Ok text)
  /\ downloadJsonAsCsv iso_utc_parse true (VArr null_record_example) None
     = ([], Throw TypeError).
Proof.
  split; [reflexivity |]. split; [reflexivity |].
  apply (C9_null_record_leaves_no_text iso_utc_parse true
           [VObj [("a", VNum 1)]] [] VNull None eq_refl).
  discriminate.
Defined.

(** The keys of the event returned for the archived and live batch. *)
Lemma C10_witness :
  snd (cleanJsonForLLM iso_utc_parse archived_batch)
  = Ok (events_object [live_event])
  /\ exists events,
      events_object [live_event] = events_object events
      /\ Forall (fun ev =>
                   exists props,
                     ev = VObj props
                     /\ Forall (fun k => In k canonical_keys) (map fst props))
                events.
Proof.
  split; [reflexivity |].
  destruct (C10_event_keys_are_canonical iso_utc_parse archived_batch
              (events_object [live_event]) eq_refl)
    as (events & He & Hk & _).
  exists events. split; [exact He | exact Hk].
Defined.

(** * More of the code *)

(** ** What an event holds *)

Lemma obj_set_fresh (props : list (string * value)) (k : string) (v : value) :
  existsb (String.eqb k) (map fst props) = false ->
  obj_set props k v = props ++ [(k, v)].
Proof.
  induction props as [| [k' v'] props IH]; cbn; [reflexivity |].
  intros H. apply orb_false_elim in H as [-> H]. now rewrite (IH H).
Qed.

Lemma existsb_eqb_In (k : string) (l : list string) :
  existsb (String.eqb k) l = true <-> In k l.
Proof.
  rewrite existsb_exists. split.
  - intros (x & Hx & E). apply String.eqb_eq in E. now subst.
  - intros H. exists k. split; [exact H | apply String.eqb_refl].
Qed.

Lemma existsb_eqb_not_In (k : string) (l : list string) :
  ~ In k l -> existsb (String.eqb k) l = false.
Proof.
  intros H. destruct (existsb (String.eqb k) l) eqn:E; [| reflexivity].
  apply existsb_eqb_In in E. contradiction.
Qed.

Lemma filter_cons_app {A : Type} (p : A -> bool) (x : A) (l : list A) :
  filter p (x :: l) = (if p x then [x] else []) ++ filter p l.
Proof. cbn. destruct (p x); reflexivity. Qed.

(** The renaming loop appends, in the order of the table, the targets
    whose source value is there. *)
Lemma renames_keys_exact (source : value) entries props :
  NoDup (map snd entries) ->
  (forall k, In k (map snd entries) -> ~ In k (map fst props)) ->
  map fst (renames source entries props)
  = map fst props
    ++ map snd (filter (fun e => negb (nullish (read source (fst e)))) entries).
Proof.
  revert props. induction entries as [| [o n] entries IH]; intros props Hnd Hfresh.
  - cbn. now rewrite app_nil_r.
  - rewrite renames_cons. cbn [map snd] in Hnd.
    inversion Hnd as [| ? ? Hn Hnd']; subst.
    assert (Hk : existsb (String.eqb n) (map fst props) = false).
    { apply existsb_eqb_not_In. apply Hfresh. now left. }
    rewrite IH; [| exact Hnd' |].
    + cbn [filter fst]. unfold maybe_set.
      destruct (nullish (read source o)); cbn [negb].
      * reflexivity.
      * rewrite (obj_set_fresh _ _ _ Hk), map_app, <- app_assoc. reflexivity.
    + intros k Hk' Hin. unfold maybe_set in Hin.
      destruct (negb (nullish (read source o))).
      * apply obj_set_keys in Hin as [-> | Hin]; [contradiction |].
        apply (Hfresh k); [now right | exact Hin].
      * apply (Hfresh k); [now right | exact Hin].
Qed.

Lemma set_opt_keys_fresh props (k : string) (o : option value) :
  ~ In k (map fst props) ->
  map fst (set_opt props k o)
  = map fst props ++ (match o with Some _ => [k] | None => [] end).
Proof.
  intros H. destruct o as [v |]; cbn.
  - rewrite obj_set_fresh by now apply existsb_eqb_not_In.
    now rewrite map_app.
  - now rewrite app_nil_r.
Qed.

Lemma lookup_set_opt props (k k0 : string) (o : option value) :
  lookup k0 (set_opt props k o)
  = match o with
    | Some v => if String.eqb k0 k then v else lookup k0 props
    | None => lookup k0 props
    end.
Proof. destruct o; cbn; [apply lookup_obj_set | reflexivity]. Qed.

Lemma lookup_absent_key (k : string) (props : list (string * value)) :
  ~ In k (map fst props) -> lookup k props = VUndefined.
Proof. intros H. apply assoc_absent. now apply existsb_eqb_not_In. Qed.

Section Events.

Variable Date_parse : string -> option Z.

Let clean := clean_doc Date_parse.
Let stamp_of := stamp Date_parse.

Lemma convert_timestamp_stamp (source : value) (k out : string) props :
  nullish source = false ->
  convert_timestamp Date_parse source k out props
  = do s <- stamp_of source k; Ok (set_opt props out s).
Proof.
  intros H. rewrite (convert_timestamp_eq _ _ _ _ _ H).
  unfold stamp_of, stamp. destruct (truthy (read source k)); [| reflexivity].
  destruct (toISOString (Date_new Date_parse (read source k))); reflexivity.
Qed.

Lemma count_list_count (source : value) (k out : string) props :
  nullish source = false ->
  count_list source k out props = Ok (set_opt props out (count source k)).
Proof.
  intros H. unfold count_list, count. rewrite (get_read _ _ H). cbn [bind].
  destruct (read source k); reflexivity.
Qed.

(** The mapping of a document with a source, stage by stage. *)
Lemma clean_doc_event (doc source : value) :
  truthy doc = true -> get doc "_source" = Ok source -> truthy source = true ->
  clean doc
  = do s1 <- stamp_of source "strat_date_and_time_date";
    do s2 <- stamp_of source "end_date_and_time_date";
    Ok (VObj (event_props source s1 s2)).
Proof.
  intros Hd Hs Ht. unfold clean. rewrite (clean_doc_proper _ _ _ Hd Hs Ht).
  pose proof (truthy_not_nullish _ Ht) as Hn.
  rewrite (convert_timestamp_stamp _ _ _ _ Hn).
  destruct (stamp_of source "strat_date_and_time_date") as [s1 | e];
    cbn [bind]; [| reflexivity].
  rewrite (convert_timestamp_stamp _ _ _ _ Hn).
  destruct (stamp_of source "end_date_and_time_date") as [s2 | e];
    cbn [bind]; [| reflexivity].
  do 3 (rewrite (count_list_count _ _ _ _ Hn); cbn [bind]). reflexivity.
Qed.

Lemma set_opt_keys_incl props (k k0 : string) (o : option value) :
  In k0 (map fst (set_opt props k o)) -> k0 = k \/ In k0 (map fst props).
Proof.
  destruct o as [v |]; cbn; [apply obj_set_keys | auto].
Qed.

Lemma stamp_shape (source : value) (k : string) (s : option value) :
  stamp_of source k = Ok s ->
  match s with
  | Some v =>
      truthy (read source k) = true
      /\ exists iso,
          toISOString (Date_new Date_parse (read source k)) = Ok iso
          /\ v = VStr iso
  | None => truthy (read source k) = false
  end.
Proof.
  unfold stamp_of, stamp. destruct (truthy (read source k)).
  - destruct (toISOString (Date_new Date_parse (read source k))) as [iso | e];
      cbn [bind]; [| discriminate].
    intros [= <-]. split; [reflexivity |]. eauto.
  - intros [= <-]. reflexivity.
Qed.

Lemma count_shape (source : value) (k : string) :
  match count source k with
  | Some v =>
      isArray (read source k) = true
      /\ exists xs, read source k = VArr xs
                    /\ v = VNum (Z.of_nat (List.length xs))
  | None => isArray (read source k) = false
  end.
Proof.
  unfold count. destruct (read source k); cbn; try reflexivity.
  split; [reflexivity |]. eauto.
Qed.

Lemma present_KEY_MAP (source : value) (orig new : string) :
  In (orig, new) KEY_MAP ->
  present source new = negb (nullish (read source orig)).
Proof.
  intros H. cbn in H.
  repeat (destruct H as [[= <- <-] | H]); try contradiction; reflexivity.
Qed.

Lemma map_snd_filter (source : value) (entries : list (string * string)) :
  (forall orig new, In (orig, new) entries ->
                    present source new = negb (nullish (read source orig))) ->
  map snd (filter (fun e => negb (nullish (read source (fst e)))) entries)
  = filter (present source) (map snd entries).
Proof.
  induction entries as [| [o n] entries IH]; intros H; [reflexivity |].
  cbn [filter map fst snd]. rewrite (H o n) by now left.
  destruct (negb (nullish (read source o))); cbn [map snd];
    rewrite IH by (intros; apply H; now right); reflexivity.
Qed.

Ltac fresh_key H :=
  intros H;
  repeat (apply set_opt_keys_incl in H as [H | H]; [discriminate |]);
  apply renames_keys in H as [H | []];
  cbn in H; intuition discriminate.

(** The keys of the event of a source: the canonical names the source has
    something for, in canonical order. *)
Lemma event_props_keys (source : value) (s1 s2 : option value) :
  stamp_of source "strat_date_and_time_date" = Ok s1 ->
  stamp_of source "end_date_and_time_date" = Ok s2 ->
  map fst (event_props source s1 s2)
  = filter (present source) canonical_keys.
Proof.
  intros H1 H2. unfold event_props.
  rewrite set_opt_keys_fresh by (fresh_key H).
  rewrite set_opt_keys_fresh by (fresh_key H).
  rewrite set_opt_keys_fresh by (fresh_key H).
  rewrite set_opt_keys_fresh by (fresh_key H).
  rewrite set_opt_keys_fresh by (fresh_key H).
  rewrite renames_keys_exact; [| exact KEY_MAP_NoDup | intros k _ []].
  rewrite map_snd_filter by (intros o n; apply present_KEY_MAP).
  change canonical_keys
    with (map snd KEY_MAP
          ++ ["start_time_utc"; "end_time_utc"; "teacher_count";
              "attendance_yes_count"; "attendance_no_count"]).
  rewrite filter_app, !filter_cons_app. cbn [app filter].
  apply stamp_shape in H1, H2.
  pose proof (count_shape source "teachers_list_user") as C1.
  pose proof (count_shape source "attended_yes_list_custom_student_info") as C2.
  pose proof (count_shape source "attended_no_list_custom_student_info") as C3.
  change (present source "start_time_utc")
    with (truthy (read source "strat_date_and_time_date")).
  change (present source "end_time_utc")
    with (truthy (read source "end_date_and_time_date")).
  change (present source "teacher_count")
    with (isArray (read source "teachers_list_user")).
  change (present source "attendance_yes_count")
    with (isArray (read source "attended_yes_list_custom_student_info")).
  change (present source "attendance_no_count")
    with (isArray (read source "attended_no_list_custom_student_info")).
  change (map fst (@nil (string * value))) with (@nil string).
  rewrite <- !app_assoc. cbn [app]. f_equal.
  destruct s1; [destruct H1 as [-> _] | rewrite H1];
    (destruct s2; [destruct H2 as [-> _] | rewrite H2]);
    (destruct (count source "teachers_list_user");
     [destruct C1 as [-> _] | rewrite C1]);
    (destruct (count source "attended_yes_list_custom_student_info");
     [destruct C2 as [-> _] | rewrite C2]);
    (destruct (count source "attended_no_list_custom_student_info");
     [destruct C3 as [-> _] | rewrite C3]);
    reflexivity.
Qed.

Lemma canonical_keys_NoDup : NoDup canonical_keys.
Proof.
  cbn. repeat (constructor; [cbn; intuition discriminate |]). constructor.
Qed.

Lemma lookup_set_opt_other props (k k0 : string) (o : option value) :
  String.eqb k0 k = false ->
  lookup k0 (set_opt props k o) = lookup k0 props.
Proof. intros H. rewrite lookup_set_opt, H. now destruct o. Qed.

(** A document with a truthy source, and what it maps to. *)
Lemma clean_doc_source (doc source ev : value) :
  get doc "_source" = Ok source -> truthy source = true ->
  clean doc = Ok ev ->
  exists s1 s2,
    stamp_of source "strat_date_and_time_date" = Ok s1
    /\ stamp_of source "end_date_and_time_date" = Ok s2
    /\ ev = VObj (event_props source s1 s2).
Proof.
  intros Hs Ht Hc.
  assert (Hd : truthy doc = true).
  { eapply get_defined_truthy; [exact Hs | | reflexivity].
    now apply truthy_not_nullish. }
  rewrite (clean_doc_event _ _ Hd Hs Ht) in Hc.
  destruct (stamp_of source "strat_date_and_time_date") as [s1 | e];
    cbn [bind] in Hc; [| discriminate].
  destruct (stamp_of source "end_date_and_time_date") as [s2 | e];
    cbn [bind] in Hc; [| discriminate].
  injection Hc as <-. eauto.
Qed.

(** X1.  The keys of the event of a document are exactly the canonical
    names its source has something for (a value that is not null for a
    renamed field, a truthy timestamp, an array to count), each once, in
    the canonical order whatever the order of the source. *)
Theorem X1_event_keys_in_canonical_order (doc source ev : value) :
  get doc "_source" = Ok source -> truthy source = true ->
  clean doc = Ok ev ->
  Object_keys ev = filter (present source) canonical_keys
  /\ NoDup (Object_keys ev)
  /\ forall k, In k (Object_keys ev)
               <-> In k canonical_keys /\ present source k = true.
Proof.
  intros Hs Ht Hc.
  destruct (clean_doc_source _ _ _ Hs Ht Hc) as (s1 & s2 & H1 & H2 & ->).
  assert (E : Object_keys (VObj (event_props source s1 s2))
              = filter (present source) canonical_keys)
    by (apply event_props_keys; assumption).
  rewrite E. split; [reflexivity |]. split.
  - apply NoDup_filter, canonical_keys_NoDup.
  - intros k. apply filter_In.
Qed.

(** X2.  A field of the renaming table whose source value is null or
    missing leaves no key in the event, nothing is put in its place; a
    value that is there is stored under the new name as it is, the one
    change being the underscores taken out of a string [year]. *)
Theorem X2_renamed_fields_copied_or_absent
        (doc source ev v : value) (orig new : string) :
  get doc "_source" = Ok source -> truthy source = true ->
  clean doc = Ok ev ->
  In (orig, new) KEY_MAP ->
  get source orig = Ok v ->
  (nullish v = true ->
   ~ In new (Object_keys ev) /\ get ev new = Ok VUndefined)
  /\ (nullish v = false ->
      In new (Object_keys ev)
      /\ get ev new = Ok (renamed new v)
      /\ (new <> "year" \/ typeof v <> TyString -> get ev new = Ok v)).
Proof.
  intros Hs Ht Hc Hin Hv.
  destruct (clean_doc_source _ _ _ Hs Ht Hc) as (s1 & s2 & H1 & H2 & ->).
  assert (Hr : read source orig = v) by (unfold read; now rewrite Hv).
  assert (Hk : forall k, In k (map fst (event_props source s1 s2))
                         <-> In k canonical_keys /\ present source k = true).
  { intros k. rewrite (event_props_keys _ _ _ H1 H2). apply filter_In. }
  assert (Hp : present source new = negb (nullish v))
    by (rewrite (present_KEY_MAP _ _ _ Hin), Hr; reflexivity).
  destruct (KEY_MAP_targets _ _ Hin) as (Hcan & N1 & N2 & N3 & N4 & N5).
  assert (Hl : lookup new (event_props source s1 s2) = field source orig new).
  { unfold event_props.
    rewrite (lookup_set_opt_other _ _ _ _ N5), (lookup_set_opt_other _ _ _ _ N4),
      (lookup_set_opt_other _ _ _ _ N3), (lookup_set_opt_other _ _ _ _ N2),
      (lookup_set_opt_other _ _ _ _ N1).
    exact (renames_lookup _ _ _ _ _ KEY_MAP_NoDup Hin). }
  unfold field in Hl. rewrite Hr in Hl.
  split; intros Hn; rewrite Hn in *.
  - split.
    + unfold Object_keys. cbn [own_props]. rewrite Hk, Hp. cbn.
      intros [_ H]. discriminate.
    + rewrite get_object, Hl. reflexivity.
  - split; [| split].
    + unfold Object_keys. cbn [own_props]. rewrite Hk, Hp. now split.
    + rewrite get_object, Hl. reflexivity.
    + intros Hy. rewrite get_object, Hl. f_equal. unfold renamed.
      destruct Hy as [Hy | Hy].
      * destruct (String.eqb_spec new "year"); [contradiction | reflexivity].
      * destruct (String.eqb new "year"); [| reflexivity].
        destruct v; try reflexivity. now destruct Hy.
Qed.

Lemma event_keys_present (source : value) (s1 s2 : option value) (k : string) :
  stamp_of source "strat_date_and_time_date" = Ok s1 ->
  stamp_of source "end_date_and_time_date" = Ok s2 ->
  In k (Object_keys (VObj (event_props source s1 s2)))
  <-> In k canonical_keys /\ present source k = true.
Proof.
  intros H1 H2. unfold Object_keys. cbn [own_props].
  rewrite (event_props_keys _ _ _ H1 H2). apply filter_In.
Qed.

Lemma event_key_absent (source : value) (s1 s2 : option value) (k : string) :
  stamp_of source "strat_date_and_time_date" = Ok s1 ->
  stamp_of source "end_date_and_time_date" = Ok s2 ->
  present source k = false ->
  ~ In k (Object_keys (VObj (event_props source s1 s2)))
  /\ get (VObj (event_props source s1 s2)) k = Ok VUndefined.
Proof.
  intros H1 H2 Hp.
  assert (Hk : ~ In k (Object_keys (VObj (event_props source s1 s2)))).
  { rewrite (event_keys_present _ _ _ _ H1 H2), Hp. intros [_ H]. discriminate. }
  split; [exact Hk |].
  rewrite get_object. f_equal. now apply lookup_absent_key.
Qed.

(** X3.  A list field of the source that is an array leaves its length
    under the count's name; a value that is anything else, or missing,
    leaves no key. *)
Theorem X3_counts_are_list_lengths
        (doc source ev v : value) (k out : string) :
  get doc "_source" = Ok source -> truthy source = true ->
  clean doc = Ok ev ->
  In (k, out) LISTS ->
  get source k = Ok v ->
  (forall xs, v = VArr xs ->
              In out (Object_keys ev)
              /\ get ev out = Ok (VNum (Z.of_nat (List.length xs))))
  /\ (isArray v = false ->
      ~ In out (Object_keys ev) /\ get ev out = Ok VUndefined).
Proof.
  intros Hs Ht Hc Hin Hv.
  destruct (clean_doc_source _ _ _ Hs Ht Hc) as (s1 & s2 & H1 & H2 & ->).
  assert (Hr : read source k = v) by (unfold read; now rewrite Hv).
  assert (Hp : present source out = isArray v).
  { cbn in Hin. repeat (destruct Hin as [[= <- <-] | Hin]); try contradiction;
      rewrite <- Hr; reflexivity. }
  split.
  - intros xs ->. split.
    + rewrite (event_keys_present _ _ _ _ H1 H2), Hp. split; [| reflexivity].
      cbn in Hin. repeat (destruct Hin as [[= <- <-] | Hin]);
        try contradiction; cbn; auto 25.
    + rewrite get_object. f_equal. unfold event_props.
      cbn in Hin. repeat (destruct Hin as [[= <- <-] | Hin]); try contradiction;
        repeat (rewrite lookup_set_opt_other by reflexivity);
        rewrite lookup_set_opt; unfold count; rewrite Hr; reflexivity.
  - intros Ha. apply event_key_absent; try assumption. now rewrite Hp.
Qed.

(** X4.  A timestamp of the source that is falsy (missing, null, the empty
    string, the number 0) leaves no key; one that is truthy and a date is
    stored as the ISO text of its time value. *)
Theorem X4_timestamps_are_iso_text
        (doc source ev v : value) (k out : string) :
  get doc "_source" = Ok source -> truthy source = true ->
  clean doc = Ok ev ->
  In (k, out) TIMESTAMPS ->
  get source k = Ok v ->
  (truthy v = false ->
   ~ In out (Object_keys ev) /\ get ev out = Ok VUndefined)
  /\ (truthy v = true ->
      exists t iso,
        Date_new Date_parse v = Some t
        /\ toISOString (Some t) = Ok iso
        /\ In out (Object_keys ev)
        /\ get ev out = Ok (VStr iso)).
Proof.
  intros Hs Ht Hc Hin Hv.
  destruct (clean_doc_source _ _ _ Hs Ht Hc) as (s1 & s2 & H1 & H2 & ->).
  assert (Hr : read source k = v) by (unfold read; now rewrite Hv).
  assert (Hp : present source out = truthy v).
  { cbn in Hin. repeat (destruct Hin as [[= <- <-] | Hin]); try contradiction;
      rewrite <- Hr; reflexivity. }
  split.
  - intros Hf. apply event_key_absent; try assumption. now rewrite Hp.
  - intros Htv.
    assert (Hstamp : exists iso,
               toISOString (Date_new Date_parse v) = Ok iso
               /\ lookup out (event_props source s1 s2) = VStr iso).
    { pose proof (stamp_shape _ _ _ H1) as S1.
      pose proof (stamp_shape _ _ _ H2) as S2.
      unfold event_props.
      cbn in Hin. repeat (destruct Hin as [[= <- <-] | Hin]);
        try contradiction; rewrite Hr in *.
      - destruct s1 as [x |]; [| congruence].
        destruct S1 as (_ & iso & Hiso & ->). exists iso. split; [exact Hiso |].
        repeat (rewrite lookup_set_opt_other by reflexivity).
        rewrite lookup_set_opt. reflexivity.
      - destruct s2 as [x |]; [| congruence].
        destruct S2 as (_ & iso & Hiso & ->). exists iso. split; [exact Hiso |].
        repeat (rewrite lookup_set_opt_other by reflexivity).
        rewrite lookup_set_opt. reflexivity. }
    destruct Hstamp as (iso & Hiso & Hl).
    destruct (Date_new Date_parse v) as [t |] eqn:Et; [| discriminate].
    exists t, iso. split; [reflexivity |]. split; [exact Hiso |]. split.
    + rewrite (event_keys_present _ _ _ _ H1 H2), Hp. split; [| exact Htv].
      cbn in Hin. repeat (destruct Hin as [[= <- <-] | Hin]);
        try contradiction; cbn; auto 25.
    + rewrite get_object, Hl. reflexivity.
Qed.

(** X5.  A document with a truthy source whose timestamps are dates gives
    one event when its title is truthy and its status is not the string
    Archived, and none otherwise: a missing or empty title drops the
    record as the status Archived does. *)
Theorem X5_document_kept_iff_titled_and_not_archived (doc source ev : value) :
  get doc "_source" = Ok source -> truthy source = true ->
  clean doc = Ok ev ->
  keep_event ev = Ok (kept source)
  /\ contribution Date_parse doc = Ok (if kept source then [ev] else []).
Proof.
  intros Hs Ht Hc.
  assert (Hk : keep_event ev = Ok (kept source)).
  { apply clean_doc_inv in Hc
        as [[-> [Hd | (s' & Hs' & Ht')]] | (src & p & _ & Hs' & _ & -> & _ & Hf)].
    - assert (truthy doc = true); [| congruence].
      eapply get_defined_truthy; [exact Hs | | reflexivity].
      now apply truthy_not_nullish.
    - congruence.
    - rewrite Hs in Hs'. injection Hs' as <-.
      unfold keep_event. cbn [truthy negb]. rewrite !get_object. cbn [bind].
      rewrite (Hf "event_status_text" "status") by (cbn; auto 10).
      rewrite (Hf "event_title_text" "title") by (cbn; auto 10).
      unfold field, renamed, kept. cbn [String.eqb Ascii.eqb Bool.eqb andb].
      destruct (read source "event_status_text") as [| | b | n | s | xs | ps];
        cbn [nullish strict_eq_str negb];
        try (destruct (read source "event_title_text"); cbn;
             rewrite ?andb_true_r; reflexivity).
      destruct (String.eqb s "Archived"); cbn [negb];
        [now rewrite andb_false_r |].
      destruct (read source "event_title_text"); cbn;
        rewrite ?andb_true_r; reflexivity. }
  split; [exact Hk |].
  unfold contribution. fold clean. rewrite Hc. cbn [bind]. rewrite Hk.
  reflexivity.
Qed.

(** ** The whole call, and several calls *)

Let run := cleanJsonForLLM Date_parse.
Let combine := combine_batches Date_parse.

(** X6.  Input that is not truthy or has no [docs] array, and only such
    input, is answered with the diagnostic and the empty result; the call
    logs nothing else, ever. *)
Theorem X6_invalid_input_fails_soft (rawData : value) :
  (invalid_raw rawData <->
   fst (run rawData) = [ConsoleError invalid_input_message])
  /\ (invalid_raw rawData -> snd (run rawData) = Ok (events_object []))
  /\ (~ invalid_raw rawData -> fst (run rawData) = [])
  /\ invalid_raw VNull /\ invalid_raw VUndefined
  /\ invalid_raw (VObj [("docs", VStr "none")]) /\ invalid_raw (VArr []).
Proof.
  assert (Hinv : invalid_raw rawData ->
                 run rawData
                 = ([ConsoleError invalid_input_message], Ok (events_object [])))
    by apply run_invalid.
  assert (Hval : ~ invalid_raw rawData -> fst (run rawData) = []).
  { intros Hn. destruct (run_cases Date_parse rawData) as [E | (ds & Ht & Hd)].
    - exfalso. apply Hn. unfold invalid_raw.
      destruct (truthy rawData) eqn:Ht; [| now left]. right.
      destruct (get_total rawData "docs" (truthy_not_nullish _ Ht)) as [d Hd].
      exists d. split; [exact Hd |].
      destruct (isArray d) eqn:Ha; [| reflexivity].
      destruct d; try discriminate.
      unfold run in E. rewrite (run_batch _ _ _ Ht Hd) in E. discriminate.
    - unfold run. now rewrite (run_batch _ _ _ Ht Hd). }
  split; [| split; [| split]].
  - split.
    + intros H. now rewrite (Hinv H).
    + intros H. destruct (truthy rawData) eqn:Ht; [| now left].
      destruct (get_total rawData "docs" (truthy_not_nullish _ Ht)) as [d Hd].
      right. exists d. split; [exact Hd |].
      destruct (isArray d) eqn:Ha; [| reflexivity].
      destruct d; try discriminate.
      unfold run in H. rewrite (run_batch _ _ _ Ht Hd) in H. discriminate.
  - intros H. now rewrite (Hinv H).
  - exact Hval.
  - repeat split; try (now left); right; eexists; split; reflexivity.
Qed.

(** X7.  On a batch whose timestamps are printable values, the call
    throws nothing but a [RangeError], it has logged nothing when it does,
    and it does so only when some document of the batch has a truthy
    timestamp that is not a date. *)
Theorem X7_only_an_undated_timestamp_throws
        (rawData : value) (ds : list value) (e : error) :
  get rawData "docs" = Ok (VArr ds) ->
  Forall (fun d => printable_timestamps d = true) ds ->
  snd (run rawData) = Throw e ->
  e = RangeError
  /\ fst (run rawData) = []
  /\ exists doc source k out,
      truthy rawData = true
      /\ In doc ds /\ get doc "_source" = Ok source
      /\ In (k, out) TIMESTAMPS
      /\ truthy (read source k) = true
      /\ printable (read source k) = true
      /\ Date_new Date_parse (read source k) = None.
Proof.
  intros Hdocs Hprint H.
  destruct (run_cases Date_parse rawData) as [E | (ds' & Ht & Hd)].
  { unfold run in H. rewrite E in H. discriminate. }
  assert (ds' = ds) as -> by congruence.
  unfold run in *. rewrite (run_batch _ _ _ Ht Hd) in *. cbn [fst snd] in *.
  destruct (mapM (clean_doc Date_parse) ds) as [mapped | e'] eqn:Em;
    cbn [bind] in H.
  - exfalso.
    assert (Hk : Forall (fun ev => exists b, keep_event ev = Ok b) mapped).
    { apply mapM_Forall2 in Em. clear -Em.
      induction Em as [| d ev ds mapped Hev _ IH]; constructor; [| exact IH].
      apply keep_event_total.
      apply clean_doc_inv in Hev as [[-> _] | (s & p & _ & _ & _ & -> & _)];
        eauto. }
    assert (Hf : exists l, filterM keep_event mapped = Ok l).
    { clear -Hk. induction Hk as [| ev mapped [b Hb] _ [l IH]]; cbn; [eauto |].
      rewrite Hb, IH. cbn. eauto. }
    destruct Hf as [l Hf]. rewrite Hf in H. discriminate.
  - injection H as <-. apply mapM_throws in Em as (doc & Hin & Hc).
    apply clean_doc_throws in Hc
        as (-> & src & k & _ & Hs & _ & Hk & Htv & Hnone).
    split; [reflexivity |]. split; [reflexivity |].
    rewrite Forall_forall in Hprint. specialize (Hprint _ Hin).
    unfold printable_timestamps in Hprint. rewrite Hs in Hprint.
    apply andb_prop in Hprint as [Hp1 Hp2].
    destruct Hk as [-> | ->].
    + exists doc, src, "strat_date_and_time_date", "start_time_utc".
      repeat split; auto. now left.
    + exists doc, src, "end_date_and_time_date", "end_time_utc".
      repeat split; auto. right. now left.
Qed.

Lemma map_cleanJsonForLLM_returns (datas cs : list value) :
  Forall2 (fun d c => snd (run d) = Ok c) datas cs ->
  map_cleanJsonForLLM Date_parse datas
  = (flat_map (fun d => fst (run d)) datas, Ok cs).
Proof.
  induction 1 as [| d c datas cs Hd _ IH]; [reflexivity |].
  cbn [map_cleanJsonForLLM flat_map]. unfold run in *.
  destruct (cleanJsonForLLM Date_parse d) as [log r]. cbn [fst snd] in *.
  subst r. rewrite IH. reflexivity.
Qed.

Lemma foldM_append_events (acc : list value) (ess : list (list value)) :
  foldM append_events acc (map events_object ess) = Ok (acc ++ List.concat ess).
Proof.
  revert acc. induction ess as [| evs ess IH]; intros acc; cbn.
  - now rewrite app_nil_r.
  - rewrite IH, <- app_assoc. reflexivity.
Qed.

(** X8.  When each batch is cleaned to a result, the combination is the
    events of the batches one after the other, batch order and the order
    within a batch kept, what was logged is what each call logged, in
    order, and every event is a retained one. *)
Theorem X8_batches_concatenate_in_order
        (datas : list value) (ess : list (list value)) :
  Forall2 (fun d evs => snd (run d) = Ok (events_object evs)) datas ess ->
  combine datas
  = (flat_map (fun d => fst (run d)) datas, Ok (List.concat ess))
  /\ Forall retained (List.concat ess).
Proof.
  intros H. split.
  - unfold combine, combine_batches.
    rewrite (map_cleanJsonForLLM_returns datas (map events_object ess)).
    + cbn [bind]. now rewrite foldM_append_events.
    + clear -H. induction H; constructor; auto.
  - apply Forall_concat. clear -H.
    induction H as [| d evs datas ess Hd _ IH]; constructor; [| exact IH].
    destruct (run_returns Date_parse _ _ Hd) as (evs' & E & Hk & _).
    assert (evs' = evs) as -> by (unfold events_object in E; congruence).
    eapply Forall_impl; [| exact Hk]. intros ev. apply keep_event_retained.
Qed.

(** X9.  When the cleaning of one batch throws, the combination throws
    as well: no events come out, those of the batches before it
    included. *)
Theorem X9_one_failing_batch_fails_the_combination
        (datas : list value) (d : value) (e : error) :
  In d datas -> snd (run d) = Throw e ->
  (exists e', snd (combine datas) = Throw e')
  /\ forall evs, snd (combine datas) <> Ok evs.
Proof.
  intros Hin Hd. unfold combine, combine_batches.
  assert (H : exists e', snd (map_cleanJsonForLLM Date_parse datas) = Throw e').
  { induction datas as [| d0 datas IH]; [contradiction |].
    cbn [map_cleanJsonForLLM].
    destruct (cleanJsonForLLM Date_parse d0) as [log r] eqn:E0.
    destruct r as [c | e0].
    - destruct Hin as [-> | Hin].
      + unfold run in Hd. rewrite E0 in Hd. discriminate.
      + destruct (IH Hin) as [e' IH'].
        destruct (map_cleanJsonForLLM Date_parse datas) as [log' r'].
        cbn [snd] in *. exists e'. now rewrite IH'.
    - cbn [snd]. eauto. }
  destruct H as [e' H].
  destruct (map_cleanJsonForLLM Date_parse datas) as [log r].
  cbn [snd] in *. rewrite H. cbn [bind]. split; [eauto | discriminate].
Qed.

End Events.

(** ** The exporter on what it is given *)

Section ExportFacts.

Variable Date_parse : string -> option Z.
Variable download_supported : bool.

Let row_of := dataRow Date_parse.
Let rows_of := dataRows Date_parse.
Let csv := csvString Date_parse.
Let export := downloadJsonAsCsv Date_parse download_supported.
Let run := cleanJsonForLLM Date_parse.

Lemma dataRow_no_headers (row : value) : row_of [] row = Ok EmptyString.
Proof. reflexivity. Qed.

Lemma plain_record_not_nullish (r : value) :
  plain_record r = true -> nullish r = false.
Proof. destruct r; cbn; congruence. Qed.

Lemma plain_records_not_nullish (records : list value) :
  Forall (fun r => plain_record r = true) records ->
  Forall (fun r => nullish r = false) records.
Proof.
  intros H. eapply Forall_impl; [| exact H].
  intros r. apply plain_record_not_nullish.
Qed.

(** X10.  With no header at all every row is the empty row, whatever the
    records are.  The rows are made only when there is no header or no
    record is [null] or [undefined], and they are made, a row for each
    record, when the records are plain objects with printable values.  When
    the rows are not made the fault is a [TypeError], and the call has then
    logged and saved nothing. *)
Theorem X10_rows_and_null_records
        (records : list value) (filename : option string) :
  (headers records = [] ->
   rows_of records = Ok (map (fun _ => EmptyString) records))
  /\ ((exists rows, rows_of records = Ok rows) ->
      headers records = [] \/ Forall (fun r => nullish r = false) records)
  /\ (Forall (fun r => plain_record r = true) records ->
      exists rows, rows_of records = Ok rows
                   /\ List.length rows = List.length records)
  /\ (forall e, rows_of records = Throw e ->
                e = TypeError
                /\ export (VArr records) filename = ([], Throw TypeError)).
Proof.
  split; [| split; [| split]].
  - intros Hh. unfold rows_of, dataRows. rewrite Hh.
    apply mapM_Forall2. clear Hh.
    induction records; cbn; constructor; auto.
  - intros (rows & Hr).
    destruct (headers records) as [| h hs] eqn:Eh; [now left | right].
    unfold rows_of, dataRows in Hr. rewrite Eh in Hr.
    apply mapM_Forall2 in Hr. clear Eh.
    induction Hr as [| r row rs rows Hrow _ IH]; constructor; [| exact IH].
    destruct (nullish r) eqn:En; [| reflexivity].
    destruct r; try discriminate; cbn in Hrow; discriminate.
  - intros Hall. apply plain_records_not_nullish in Hall.
    destruct (dataRows_total Date_parse records Hall) as (rows & Hr & H2).
    exists rows. split; [exact Hr |].
    symmetry. eapply Forall2_length. exact H2.
  - intros e He.
    assert (e = TypeError) as ->.
    { unfold rows_of, dataRows in He.
      apply mapM_throws in He as (r & _ & Hr).
      now apply (dataRow_throws Date_parse) in Hr. }
    split; [reflexivity |].
    unfold export, downloadJsonAsCsv, invalid_data.
    destruct records as [| r rs]; [discriminate |].
    cbn [truthy isArray negb get String.eqb Ascii.eqb Bool.eqb bind].
    cbn [strict_eq_num List.length].
    replace (Z.of_nat (S (List.length rs)) =? 0) with false
      by (symmetry; apply Z.eqb_neq; lia).
    unfold csvString. fold rows_of. rewrite He. reflexivity.
Qed.

(** X11.  What the normalizer returns can be exported when the values it
    copied are printable: the rows are made without a fault, a row for
    each event, and the header holds canonical names only, at most twenty.
    With no event the exporter logs its diagnostic and saves nothing;
    otherwise its one effect is the download, where the host has one. *)
Theorem X11_normalizer_output_exports
        (rawData : value) (evs : list value) (filename : option string) :
  snd (run rawData) = Ok (events_object evs) ->
  Forall (fun ev => plain_record ev = true) evs ->
  (exists rows, rows_of evs = Ok rows
                /\ List.length rows = List.length evs)
  /\ Forall (fun h => In h canonical_keys) (headers evs)
  /\ Forall (fun h => inherited_name h = false) (headers evs)
  /\ (List.length (headers evs) <= 20)%nat
  /\ (evs = [] ->
      export (VArr evs) filename = ([ConsoleError invalid_data_message], Ok tt))
  /\ (evs <> [] ->
      exists content,
        csv evs = Ok content
        /\ export (VArr evs) filename
           = ((if download_supported
               then [Download (match filename with
                               | Some f => f
                               | None => "data.csv"
                               end) csv_mime content]
               else []), Ok tt)).
Proof.
  intros H Hplain.
  destruct (run_returns Date_parse _ _ H) as (evs' & E & Hkeep & Hsrc).
  assert (evs' = evs) as -> by (unfold events_object in E; congruence).
  assert (Hobj : Forall (fun ev =>
                           exists props,
                             ev = VObj props
                             /\ forall k, In k (map fst props)
                                          -> In k canonical_keys) evs).
  { apply Forall_forall. intros ev Hin. rewrite Forall_forall in Hkeep, Hsrc.
    destruct (Hsrc _ Hin) as [d Hd]. specialize (Hkeep _ Hin).
    apply clean_doc_inv in Hd as [[-> _] | (s & p & _ & _ & _ & -> & Hk & _)];
      [discriminate | eauto]. }
  pose proof (plain_records_not_nullish _ Hplain) as Hnn.
  destruct (dataRows_total Date_parse evs Hnn) as (rows & Hr & H2).
  assert (Hhs : Forall (fun h => In h canonical_keys) (headers evs)).
  { apply Forall_forall. intros h Hh. apply headers_In in Hh as (r & Hr' & _ & Hk).
    rewrite Forall_forall in Hobj. destruct (Hobj _ Hr') as (p & -> & Hp).
    now apply Hp. }
  split; [| split; [exact Hhs | split; [| split; [| split]]]].
  - exists rows. split; [exact Hr |]. symmetry. eapply Forall2_length. exact H2.
  - eapply Forall_impl; [| exact Hhs]. intros h Hh. cbn in Hh.
    repeat (destruct Hh as [<- | Hh]; [reflexivity |]). contradiction.
  - change 20%nat with (List.length canonical_keys).
    apply NoDup_incl_length.
    + rewrite headers_first_seen. apply first_seen_NoDup.
    + intros h Hh. rewrite Forall_forall in Hhs. now apply Hhs.
  - intros ->. reflexivity.
  - intros Hne. unfold csv, csvString. rewrite Hr. cbn [bind].
    eexists. split; [reflexivity |].
    unfold export, downloadJsonAsCsv, invalid_data.
    destruct evs as [| r rs]; [congruence |].
    cbn [truthy isArray negb get String.eqb Ascii.eqb Bool.eqb bind].
    cbn [strict_eq_num List.length].
    replace (Z.of_nat (S (List.length rs)) =? 0) with false
      by (symmetry; apply Z.eqb_neq; lia).
    unfold csvString. rewrite Hr. cbn [bind].
    destruct download_supported; reflexivity.
Qed.

(** X17.  A list of at least one record, the records plain objects with
    printable values and no key among them the name of an inherited
    member.  The text written is the byte-order mark, then the header row,
    then each data row behind one newline, in the order of the records; the
    mark is the three bytes EF BB BF of U+FEFF, and behind it the first
    line is the header row when no key holds a newline.  That text is what
    the download carries. *)
Theorem X17_text_of_plain_records
        (records : list value) (filename : option string) :
  records <> [] ->
  Forall (fun r => plain_record r = true) records ->
  Forall (fun h => inherited_name h = false) (headers records) ->
  exists rows,
    rows_of records = Ok rows
    /\ Forall2 (fun r row => row_of (headers records) r = Ok row) records rows
    /\ csv records
       = Ok (String.append BOM
               (String.append (headerRow records) (following_lines rows)))
    /\ (exists first rest,
           rows = first :: rest
           /\ following_lines rows
              = String newline (String.append first (following_lines rest)))
    /\ (test_class [newline] (headerRow records) = false ->
        first_line (String.append (headerRow records) (following_lines rows))
        = headerRow records)
    /\ chars BOM = [ascii_of_nat 239; ascii_of_nat 187; ascii_of_nat 191]
    /\ export (VArr records) filename
       = ((if download_supported
           then [Download (match filename with
                           | Some f => f
                           | None => "data.csv"
                           end)
                          csv_mime
                          (String.append BOM
                             (String.append (headerRow records)
                                            (following_lines rows)))]
           else []),
          Ok tt).
Proof.
  intros Hne Hplain _.
  pose proof (plain_records_not_nullish _ Hplain) as Hall.
  destruct (dataRows_total Date_parse records Hall) as (rows & Hr & Hrows).
  exists rows. split; [exact Hr |]. split; [exact Hrows |].
  assert (Hcsv : csv records
                 = Ok (String.append BOM
                         (String.append (headerRow records)
                                        (following_lines rows)))).
  { unfold csv, csvString. rewrite Hr. cbn [bind].
    now rewrite join_cons_following. }
  split; [exact Hcsv |].
  assert (Hfirst : exists first rest,
             rows = first :: rest
             /\ following_lines rows
                = String newline (String.append first (following_lines rest))).
  { destruct records as [| r rs]; [congruence |].
    inversion Hrows as [| ? row ? rows' _ _]; subst.
    exists row, rows'. split; reflexivity. }
  split; [exact Hfirst |]. split.
  - intros Hnl. destruct Hfirst as (first & rest & _ & ->).
    now apply first_line_append.
  - split; [reflexivity |].
    unfold export, downloadJsonAsCsv, invalid_data.
    destruct records as [| r rs]; [congruence |].
    cbn [truthy isArray negb get String.eqb Ascii.eqb Bool.eqb bind].
    cbn [strict_eq_num List.length].
    replace (Z.of_nat (S (List.length rs)) =? 0) with false
      by (symmetry; apply Z.eqb_neq; lia).
    fold csv. rewrite Hcsv. destruct download_supported; reflexivity.
Qed.

End ExportFacts.

(** ** Reading the file back *)

Module Reader.

Lemma plain_spec (c : ascii) :
  plain c = true ->
  Ascii.eqb c dquote = false /\ Ascii.eqb c comma = false
  /\ Ascii.eqb c newline = false.
Proof.
  unfold plain. cbn. rewrite orb_false_r.
  destruct (Ascii.eqb c dquote), (Ascii.eqb c comma), (Ascii.eqb c newline);
    cbn; intros H; try discriminate; auto.
Qed.

Lemma read_InPlain (u cur : list ascii) row (k : list ascii) :
  forallb plain u = true -> closes k ->
  read_csv_from InPlain cur row (u ++ k) = after row (cur ++ u) k.
Proof.
  revert cur. induction u as [| a u IH]; intros cur Hu Hk.
  - rewrite app_nil_r. cbn [app].
    destruct Hk as [-> | (k' & [-> | ->])]; reflexivity.
  - cbn [forallb] in Hu. apply andb_prop in Hu as [Ha Hu].
    destruct (plain_spec _ Ha) as (_ & Hc & Hn).
    cbn [app read_csv_from]. rewrite Hc, Hn, (IH _ Hu Hk), <- app_assoc.
    reflexivity.
Qed.

Lemma read_AtStart_plain (u : list ascii) row (k : list ascii) :
  forallb plain u = true -> closes k ->
  read_csv_from AtStart [] row (u ++ k) = after row u k.
Proof.
  intros Hu Hk. destruct u as [| a u].
  - cbn [app]. destruct Hk as [-> | (k' & [-> | ->])]; reflexivity.
  - cbn [forallb] in Hu. apply andb_prop in Hu as [Ha Hu].
    destruct (plain_spec _ Ha) as (Hq & Hc & Hn).
    cbn [app read_csv_from]. rewrite Hq, Hc, Hn.
    now rewrite (read_InPlain _ _ _ _ Hu Hk).
Qed.

Lemma read_InQuoted (u cur : list ascii) row (k : list ascii) :
  read_csv_from InQuoted cur row (doubled u ++ dquote :: k)
  = read_csv_from AfterQuote (cur ++ u) row k.
Proof.
  revert cur. induction u as [| a u IH]; intros cur.
  - rewrite app_nil_r. reflexivity.
  - unfold doubled in *. cbn [flat_map].
    destruct (Ascii.eqb_spec a dquote) as [-> | Hne].
    + cbn [app read_csv_from]. rewrite Ascii.eqb_refl.
      rewrite IH, <- app_assoc. reflexivity.
    + cbn [app read_csv_from].
      destruct (Ascii.eqb_spec a dquote); [contradiction |].
      rewrite IH, <- app_assoc. reflexivity.
Qed.

Lemma read_AfterQuote (cur : list ascii) row (k : list ascii) :
  closes k -> read_csv_from AfterQuote cur row k = after row cur k.
Proof. intros [-> | (k' & [-> | ->])]; reflexivity. Qed.

Lemma escapeCsvCell_chars (v : value) :
  chars (escapeCsvCell v)
  = if test_class [dquote; comma; newline] (cell_text v)
    then dquote :: doubled (chars (cell_text v)) ++ [dquote]
    else chars (cell_text v).
Proof.
  rewrite escapeCsvCell_text.
  destruct (test_class [dquote; comma; newline] (cell_text v)); [| reflexivity].
  cbn [chars]. now rewrite TextFacts.chars_append, TextFacts.replaceAll_chars.
Qed.

Lemma not_special_plain (s : string) :
  test_class [dquote; comma; newline] s = false ->
  forallb plain (chars s) = true.
Proof.
  induction s as [| c s IH]; cbn [test_class chars forallb]; [reflexivity |].
  intros H. apply orb_false_elim in H as [Hc Hs].
  unfold plain at 1. rewrite Hc, (IH Hs). reflexivity.
Qed.

(** One cell, whatever it holds, reads back as its text. *)
Lemma read_cell (v : value) row (k : list ascii) :
  closes k ->
  read_csv_from AtStart [] row (chars (escapeCsvCell v) ++ k)
  = after row (chars (cell_text v)) k.
Proof.
  intros Hk. rewrite escapeCsvCell_chars.
  destruct (test_class [dquote; comma; newline] (cell_text v)) eqn:E.
  - cbn [app read_csv_from]. rewrite Ascii.eqb_refl.
    rewrite <- app_assoc. cbn [app].
    rewrite read_InQuoted. cbn [app]. now apply read_AfterQuote.
  - apply read_AtStart_plain; [now apply not_special_plain | exact Hk].
Qed.

Lemma read_line (v : value) (vs : list value) row (k : list ascii) :
  k = [] \/ (exists k', k = newline :: k') ->
  read_csv_from AtStart [] row (chars (line (v :: vs)) ++ k)
  = finish (row ++ texts (v :: vs)) k.
Proof.
  revert v row. induction vs as [| v2 vs IH]; intros v row Hk.
  - unfold line. cbn [map join]. rewrite read_cell.
    + destruct Hk as [-> | (k' & ->)]; reflexivity.
    + destruct Hk as [-> | (k' & ->)]; [now left | right; eauto].
  - unfold line in *. cbn [map].
    change (join (str1 comma)
              (escapeCsvCell v :: escapeCsvCell v2 :: map escapeCsvCell vs))
      with (String.append (escapeCsvCell v)
              (String comma
                 (join (str1 comma)
                    (escapeCsvCell v2 :: map escapeCsvCell vs)))).
    rewrite TextFacts.chars_append. cbn [chars].
    rewrite <- app_assoc. cbn [app]. rewrite read_cell by (right; eauto).
    cbn [after]. rewrite Ascii.eqb_refl.
    change (escapeCsvCell v2 :: map escapeCsvCell vs)
      with (map escapeCsvCell (v2 :: vs)).
    rewrite (IH v2 _ Hk). unfold texts. cbn [map].
    now rewrite <- app_assoc.
Qed.

(** A text of lines, none of them without a cell, reads back as the texts
    of its cells. *)
Lemma read_lines (ls : list (list value)) :
  ls <> [] -> Forall (fun l => l <> []) ls ->
  read_csv (join (str1 newline) (map line ls)) = map texts ls.
Proof.
  unfold read_csv. intros Hne Hall.
  induction Hall as [| l ls Hl Hall IH]; [congruence |].
  destruct l as [| v vs]; [congruence |].
  destruct ls as [| l2 ls].
  - cbn [map join]. rewrite <- (app_nil_r (chars (line (v :: vs)))).
    rewrite read_line by now left. reflexivity.
  - cbn [map].
    change (join (str1 newline) (line (v :: vs) :: line l2 :: map line ls))
      with (String.append (line (v :: vs))
              (String newline
                 (join (str1 newline) (map line (l2 :: ls))))).
    rewrite TextFacts.chars_append. cbn [chars].
    rewrite read_line by (right; eauto). cbn [finish app].
    rewrite IH by discriminate. reflexivity.
Qed.

End Reader.

(** X12.  Escaping loses nothing: a cell read back gives the text it was
    made from, so two values escape to the same cell only when they have
    the same text. *)
Theorem X12_escaping_is_injective (a b : value) :
  escapeCsvCell a = escapeCsvCell b ->
  cell_text a = cell_text b
  /\ read_csv (escapeCsvCell a) = [[chars (cell_text a)]].
Proof.
  intros H.
  assert (R : forall v, read_csv (escapeCsvCell v) = [[chars (cell_text v)]]).
  { intros v. unfold read_csv.
    rewrite <- (app_nil_r (chars (escapeCsvCell v))).
    rewrite Reader.read_cell by now left. reflexivity. }
  split; [| apply R].
  apply TextFacts.chars_inj.
  pose proof (R a) as Ra. rewrite H, R in Ra. congruence.
Qed.

Section ReadBack.

Variable Date_parse : string -> option Z.

Let value_of := cell_value Date_parse.

Lemma cell_cell_value (row : value) (h : string) :
  nullish row = false ->
  cell Date_parse row h = Ok (escapeCsvCell (value_of row h)).
Proof.
  intros Hn. rewrite (cell_eq _ _ _ _ (get_read _ h Hn)).
  unfold value_of, cell_value.
  destruct (String.eqb h "start_time_utc" || String.eqb h "end_time_utc");
    reflexivity.
Qed.

Lemma dataRow_line (hs : list string) (row : value) :
  nullish row = false ->
  dataRow Date_parse hs row = Ok (line (map (value_of row) hs)).
Proof.
  intros Hn. unfold dataRow, line.
  assert (E : mapM (cell Date_parse row) hs
              = Ok (map escapeCsvCell (map (value_of row) hs))).
  { apply mapM_Forall2. induction hs; cbn; constructor; auto.
    now apply cell_cell_value. }
  rewrite E. reflexivity.
Qed.

Lemma dataRows_lines (records : list value) :
  Forall (fun r => nullish r = false) records ->
  dataRows Date_parse records
  = Ok (map (fun r => line (map (value_of r) (headers records))) records).
Proof.
  intros Hall. unfold dataRows. apply mapM_Forall2.
  generalize (headers records). intros hs.
  induction Hall; cbn; constructor; auto. now apply dataRow_line.
Qed.

Lemma headerRow_line (hs : list string) :
  Forall (fun h => test_class [dquote; comma; newline] h = false) hs ->
  join (str1 comma) hs = line (map VStr hs).
Proof.
  intros H. unfold line. f_equal.
  induction H as [| h hs Hh _ IH]; cbn [map]; [reflexivity |].
  rewrite <- IH. f_equal.
  rewrite escapeCsvCell_text. unfold cell_text. cbn [nullish ToString].
  now rewrite Hh.
Qed.

(** X13.  The file reads back.  For records that are plain objects with
    printable values, with at least one key among them, no comma, quote or
    newline in a key and no key the name of an inherited member, the text
    behind the byte-order mark, read as CSV, is the header names and then,
    record by record, the text of each cell: commas, quotes and newlines in
    the values are kept and break no row. *)
Theorem X13_file_reads_back (records : list value) :
  Forall (fun r => plain_record r = true) records ->
  headers records <> [] ->
  Forall (fun h => test_class [dquote; comma; newline] h = false)
         (headers records) ->
  Forall (fun h => inherited_name h = false) (headers records) ->
  exists body,
    csvString Date_parse records = Ok (String.append BOM body)
    /\ read_csv body
       = map chars (headers records)
         :: map (fun r =>
                   map (fun h => chars (cell_text (value_of r h)))
                       (headers records))
                records.
Proof.
  intros Hrec Hne Hplain _.
  assert (Hall : Forall (fun r => nullish r = false) records).
  { eapply Forall_impl; [| exact Hrec]. intros r. destruct r; cbn; congruence. }
  exists (join (str1 newline)
            (map line
               (map VStr (headers records)
                :: map (fun r => map (value_of r) (headers records)) records))).
  split.
  - unfold csvString. rewrite (dataRows_lines _ Hall). cbn [bind].
    unfold headerRow. rewrite (headerRow_line _ Hplain).
    cbn [map]. now rewrite map_map.
  - rewrite Reader.read_lines.
    + cbn [map]. f_equal.
      * unfold texts. rewrite map_map. reflexivity.
      * rewrite map_map. apply map_ext. intros r.
        unfold texts. now rewrite map_map.
    + discriminate.
    + constructor.
      * destruct (headers records); [congruence | discriminate].
      * apply Forall_forall. intros l Hl.
        apply in_map_iff in Hl as (r & <- & _).
        destruct (headers records); [congruence | discriminate].
Qed.

End ReadBack.

(** ** Fields the normalizer does not read, and dates through both stages *)

Lemma repeat_char_not_special (n : nat) :
  test_class [dquote; comma; newline] (repeat_char zero_char n) = false.
Proof. induction n as [| n IH]; cbn; [reflexivity | exact IH]. Qed.

Lemma padStart_digits_not_special (n : Z) (w : nat) :
  0 <= n ->
  test_class [dquote; comma; newline] (padStart (Z_to_string n) w zero_char)
  = false.
Proof.
  intros Hn. unfold padStart.
  rewrite TextFacts.test_class_append, repeat_char_not_special.
  apply TextFacts.digits_not_special. now apply TextFacts.Z_to_string_digits.
Qed.

Lemma test_class_String (c : ascii) (s : string) :
  plain c = true ->
  test_class [dquote; comma; newline] (String c s)
  = test_class [dquote; comma; newline] s.
Proof.
  intros H. cbn [test_class]. unfold plain in H.
  apply negb_true_iff in H. now rewrite H.
Qed.

(** The ISO text of a time has no character that needs quoting, and is
    not empty. *)
Lemma toISOString_plain (t : Z) (iso : string) :
  toISOString (Some t) = Ok iso ->
  test_class [dquote; comma; newline] iso = false /\ iso <> EmptyString.
Proof.
  unfold toISOString. cbv beta zeta. intros [= <-].
  pose proof (DateFacts.MonthFromTime_range t) as Hm.
  pose proof (DateFacts.DateFromTime_range t) as Hd.
  pose proof (DateFacts.HourFromTime_range t) as Hh.
  pose proof (DateFacts.MinFromTime_range t) as Hmi.
  pose proof (DateFacts.SecFromTime_range t) as Hs.
  assert (Hms : 0 <= DateTime.msFromTime t).
  { unfold DateTime.msFromTime, DateTime.msPerSecond.
    pose proof (Z.mod_pos_bound t 1000). lia. }
  split.
  - rewrite TextFacts.test_class_append.
    repeat first
      [ rewrite test_class_String by reflexivity
      | rewrite TextFacts.test_class_append
      | rewrite padStart_digits_not_special by lia ].
    rewrite orb_false_r.
    destruct ((0 <=? DateTime.YearFromTime t)
              && (DateTime.YearFromTime t <=? 9999)) eqn:Ey.
    + apply andb_prop in Ey as [Ey _]. apply Z.leb_le in Ey.
      now rewrite padStart_digits_not_special by lia.
    + rewrite TextFacts.test_class_append.
      rewrite padStart_digits_not_special by lia.
      destruct (DateTime.YearFromTime t <? 0); reflexivity.
  - intros E. apply (f_equal String.length) in E.
    rewrite !TextFacts.length_append in E. cbn in E. lia.
Qed.

Lemma Date_new_clipped (Date_parse : string -> option Z) (v : value) (t : Z) :
  Date_new Date_parse v = Some t -> DateTime.TimeClip t = Some t.
Proof.
  assert (H : forall x, DateTime.TimeClip x = Some t ->
                        DateTime.TimeClip t = Some t).
  { unfold DateTime.TimeClip. intros x.
    destruct (Z.abs x <=? 8640000000000000) eqn:E; [| discriminate].
    intros [= <-]. now rewrite E. }
  destruct v; cbn [Date_new]; try discriminate; try apply H;
    match goal with
    | |- context [Date_parse ?s] => destruct (Date_parse s)
    end; try discriminate; apply H.
Qed.

Section Through.

Variable Date_parse : string -> option Z.

Let clean := clean_doc Date_parse.

Lemma renames_reads (s1 s2 : value) entries props :
  (forall k, In k (map fst entries) -> read s1 k = read s2 k) ->
  renames s1 entries props = renames s2 entries props.
Proof.
  revert props. induction entries as [| [o n] entries IH]; intros props H;
    [reflexivity |].
  rewrite !renames_cons. rewrite (H o) by now left.
  apply IH. intros k Hk. apply H. now right.
Qed.

(** X14.  The event depends on the twenty fields the normalizer reads
    and on nothing else: two documents whose sources agree on these give
    the same event, or the same fault, whatever else the documents and
    their sources hold. *)
Theorem X14_unread_fields_are_ignored (d1 d2 s1 s2 : value) :
  get d1 "_source" = Ok s1 -> get d2 "_source" = Ok s2 ->
  truthy s1 = true -> truthy s2 = true ->
  (forall k, In k SOURCE_NAMES -> read s1 k = read s2 k) ->
  clean d1 = clean d2.
Proof.
  intros H1 H2 T1 T2 Hr.
  assert (D1 : truthy d1 = true)
    by (eapply get_defined_truthy; eauto using truthy_not_nullish).
  assert (D2 : truthy d2 = true)
    by (eapply get_defined_truthy; eauto using truthy_not_nullish).
  unfold clean.
  rewrite (clean_doc_event _ _ _ D1 H1 T1), (clean_doc_event _ _ _ D2 H2 T2).
  unfold stamp, event_props, count.
  rewrite (renames_reads s1 s2)
    by (intros k Hk; apply Hr; unfold SOURCE_NAMES; apply in_or_app; now left).
  rewrite !(Hr "strat_date_and_time_date"), !(Hr "end_date_and_time_date"),
    !(Hr "teachers_list_user"),
    !(Hr "attended_yes_list_custom_student_info"),
    !(Hr "attended_no_list_custom_student_info")
    by (cbn; auto 25).
  reflexivity.
Qed.

(** X15.  A date goes through both stages as the same instant.  When the
    host reads back the ISO text it writes, a truthy timestamp of a source
    that is the time [t] is stored as the ISO text of [t], and the exporter
    writes the event's cell as the UTC date and time of [t] to the second,
    or leaves the ISO text as it is when the year of [t] is before 1980. *)
Theorem X15_timestamp_through_both_stages
        (doc source ev v : value) (k out iso : string) (t : Z) :
  get doc "_source" = Ok source -> truthy source = true ->
  clean doc = Ok ev ->
  In (k, out) TIMESTAMPS ->
  get source k = Ok v -> truthy v = true ->
  Date_new Date_parse v = Some t ->
  toISOString (Some t) = Ok iso ->
  Date_parse iso = Some t ->
  get ev out = Ok (VStr iso)
  /\ cell Date_parse ev out
     = Ok (if DateTime.YearFromTime t <? 1980 then iso else excel_date t).
Proof.
  intros Hs Ht Hc Hin Hv Htv Hnew Hiso Hback.
  assert (Hd : truthy doc = true)
    by (eapply get_defined_truthy; eauto using truthy_not_nullish).
  assert (Hn : nullish source = false) by now apply truthy_not_nullish.
  assert (Hr : read source k = v) by (unfold read; now rewrite Hv).
  assert (Hget : get ev out = Ok (VStr iso)).
  { unfold clean in Hc. rewrite (clean_doc_event _ _ _ Hd Hs Ht) in Hc.
    unfold stamp in Hc.
    cbn in Hin. repeat (destruct Hin as [[= <- <-] | Hin]); try contradiction.
    - rewrite Hr, Htv, Hnew, Hiso in Hc. cbn [bind] in Hc.
      destruct (if truthy (read source "end_date_and_time_date") then _ else _)
        as [s2 | e]; cbn [bind] in Hc; [| discriminate].
      injection Hc as <-. rewrite get_object. f_equal. unfold event_props.
      repeat (rewrite lookup_set_opt_other by reflexivity).
      rewrite lookup_set_opt. reflexivity.
    - destruct (if truthy (read source "strat_date_and_time_date") then _ else _)
        as [s1 | e]; cbn [bind] in Hc; [| discriminate].
      rewrite Hr, Htv, Hnew, Hiso in Hc. cbn [bind] in Hc.
      injection Hc as <-. rewrite get_object. f_equal. unfold event_props.
      repeat (rewrite lookup_set_opt_other by reflexivity).
      rewrite lookup_set_opt. reflexivity. }
  split; [exact Hget |].
  destruct (toISOString_plain _ _ Hiso) as [Hplain Hne].
  rewrite (cell_eq _ _ _ _ Hget).
  assert (E : String.eqb out "start_time_utc" || String.eqb out "end_time_utc"
              = true).
  { cbn in Hin. repeat (destruct Hin as [[= <- <-] | Hin]);
      try contradiction; reflexivity. }
  rewrite E, (format_string _ _ Hne). cbn [Date_new].
  rewrite Hback, (Date_new_clipped _ _ _ Hnew).
  destruct (Z.ltb_spec (DateTime.YearFromTime t) 1980) as [Hy | Hy].
  - rewrite escapeCsvCell_text. unfold cell_text. cbn [nullish ToString].
    now rewrite Hplain.
  - destruct (excel_date_plain t Hy) as (_ & Hp & _).
    rewrite escapeCsvCell_text. unfold cell_text. cbn [nullish ToString].
    now rewrite Hp.
Qed.

End Through.

(** ** The header and the rows, counted *)

Section Table.

Variable Date_parse : string -> option Z.

(** X16.  The header is the keys of the objects and arrays among the
    records, each once, where first seen.  For records that are plain
    objects with printable values there is a row for each record and in
    each row a cell for each header, in header order; the cell of a header
    that is no key of the record and not the name of an inherited member
    is empty. *)
Theorem X16_header_union_and_one_cell_per_header (records : list value) :
  headers records = first_seen (flat_map keys_of records)
  /\ NoDup (headers records)
  /\ (forall h,
         In h (headers records)
         <-> exists r, In r records /\ mapping_shaped r = true
                       /\ In h (Object_keys r))
  /\ (Forall (fun r => plain_record r = true) records ->
      exists rows,
        dataRows Date_parse records = Ok rows
        /\ List.length rows = List.length records
        /\ Forall2
             (fun r row =>
                exists cells,
                  row = join (str1 comma) cells
                  /\ List.length cells = List.length (headers records)
                  /\ Forall2 (fun h c => cell Date_parse r h = Ok c
                                         /\ (has_own r h = false
                                             -> inherited_name h = false
                                             -> c = EmptyString))
                             (headers records) cells)
             records rows).
Proof.
  split; [apply headers_first_seen |].
  split; [rewrite headers_first_seen; apply first_seen_NoDup |].
  split; [apply headers_In |].
  intros Hrec.
  assert (Hall : Forall (fun r => nullish r = false) records).
  { eapply Forall_impl; [| exact Hrec]. intros r. destruct r; cbn; congruence. }
  destruct (header_union_and_empty_cells Date_parse records Hall)
    as (_ & _ & _ & _ & (rows & Hr & Hrows) & _).
  exists rows. split; [exact Hr |]. split.
  - symmetry. eapply Forall2_length. exact Hrows.
  - eapply Forall2_impl; [| exact Hrows].
    intros r row (cells & Hc & ->). exists cells.
    split; [reflexivity |]. split.
    + symmetry. eapply Forall2_length. exact Hc.
    + eapply Forall2_impl; [| exact Hc].
      intros h c [H1 H2]. split; [exact H1 | auto].
Qed.

End Table.

(** The header row is joined as it is: a key with a comma in it reads back
    as two names, which is why [X13] asks for keys without one. *)
Lemma header_names_are_not_escaped :
  headerRow [VObj [("a,b", VNum 1)]] = "a,b"
  /\ read_csv (headerRow [VObj [("a,b", VNum 1)]]) = [[chars "a"; chars "b"]].
Proof. split; reflexivity. Qed.

(** What the hypotheses on values and keys leave out: an object with a
    [toString] key of its own, as a cell value or as a timestamp, and a key
    that is the name of an inherited member. *)
Lemma values_left_out :
  printable (VObj [("toString", VNum 1)]) = false
  /\ plain_record (VObj [("a", VObj [("toString", VNum 1)])]) = false
  /\ printable_timestamps
       (VObj [("_source",
               VObj [("strat_date_and_time_date",
                      VObj [("toString", VNum 1)])])])
     = false
  /\ inherited_name "constructor" = true
  /\ inherited_name "title" = false.
Proof. repeat split; reflexivity. Qed.

(** ** The extras on worked inputs *)

Lemma X1_witness :
  clean_doc iso_utc_parse sample_doc = Ok sample_event
  /\ Object_keys sample_event
     = ["title"; "year"; "start_time_utc"; "teacher_count"]
  /\ Object_keys sample_event = filter (present sample_source) canonical_keys.
Proof.
  split; [reflexivity |]. split; [reflexivity |].
  apply (X1_event_keys_in_canonical_order iso_utc_parse sample_doc
           sample_source sample_event); reflexivity.
Defined.

Lemma X2_witness :
  In ("event_title_text", "title") KEY_MAP
  /\ get sample_event "title" = Ok (VStr "Anatomy")
  /\ ~ In "details" (Object_keys sample_event)
  /\ get sample_event "details" = Ok VUndefined.
Proof.
  assert (H1 : In ("event_title_text", "title") KEY_MAP) by (cbn; auto).
  assert (H2 : In ("event_details_text", "details") KEY_MAP) by (cbn; auto).
  split; [exact H1 |].
  destruct (X2_renamed_fields_copied_or_absent iso_utc_parse sample_doc
              sample_source sample_event (VStr "Anatomy")
              "event_title_text" "title" eq_refl eq_refl eq_refl H1 eq_refl)
    as (_ & Hthere).
  destruct (X2_renamed_fields_copied_or_absent iso_utc_parse sample_doc
              sample_source sample_event VNull
              "event_details_text" "details" eq_refl eq_refl eq_refl H2 eq_refl)
    as (Hnull & _).
  destruct (Hthere eq_refl) as (_ & _ & Hcopy).
  destruct (Hnull eq_refl) as (Hno & Hund).
  split; [apply Hcopy; left; discriminate |]. split; [exact Hno | exact Hund].
Defined.

Lemma X3_witness :
  In ("teachers_list_user", "teacher_count") LISTS
  /\ get sample_event "teacher_count" = Ok (VNum 2)
  /\ ~ In "attendance_yes_count" (Object_keys sample_event).
Proof.
  assert (H1 : In ("teachers_list_user", "teacher_count") LISTS)
    by (cbn; auto).
  assert (H2 : In ("attended_yes_list_custom_student_info",
                   "attendance_yes_count") LISTS) by (cbn; auto).
  split; [exact H1 |].
  destruct (X3_counts_are_list_lengths iso_utc_parse sample_doc
              sample_source sample_event (VArr [VStr "t1"; VStr "t2"])
              "teachers_list_user" "teacher_count"
              eq_refl eq_refl eq_refl H1 eq_refl) as (Harr & _).
  destruct (X3_counts_are_list_lengths iso_utc_parse sample_doc
              sample_source sample_event (VStr "n/a")
              "attended_yes_list_custom_student_info" "attendance_yes_count"
              eq_refl eq_refl eq_refl H2 eq_refl) as (_ & Hnot).
  split.
  - exact (proj2 (Harr _ eq_refl)).
  - exact (proj1 (Hnot eq_refl)).
Defined.

Lemma X4_witness :
  In ("strat_date_and_time_date", "start_time_utc") TIMESTAMPS
  /\ (exists t iso,
         Date_new iso_utc_parse (VStr "2024-01-15T10:00:00.000Z") = Some t
         /\ toISOString (Some t) = Ok iso
         /\ In "start_time_utc" (Object_keys sample_event)
         /\ get sample_event "start_time_utc" = Ok (VStr iso))
  /\ ~ In "end_time_utc" (Object_keys sample_event).
Proof.
  assert (H1 : In ("strat_date_and_time_date", "start_time_utc") TIMESTAMPS)
    by (cbn; auto).
  assert (H2 : In ("end_date_and_time_date", "end_time_utc") TIMESTAMPS)
    by (cbn; auto).
  split; [exact H1 |].
  destruct (X4_timestamps_are_iso_text iso_utc_parse sample_doc
              sample_source sample_event (VStr "2024-01-15T10:00:00.000Z")
              "strat_date_and_time_date" "start_time_utc"
              eq_refl eq_refl eq_refl H1 eq_refl) as (_ & Hdate).
  destruct (X4_timestamps_are_iso_text iso_utc_parse sample_doc
              sample_source sample_event (VStr EmptyString)
              "end_date_and_time_date" "end_time_utc"
              eq_refl eq_refl eq_refl H2 eq_refl) as (Hempty & _).
  split; [exact (Hdate eq_refl) | exact (proj1 (Hempty eq_refl))].
Defined.

Lemma X5_witness :
  kept sample_source = true
  /\ contribution iso_utc_parse sample_doc = Ok [sample_event]
  /\ kept (VObj [("event_title_text", VStr EmptyString)]) = false
  /\ contribution iso_utc_parse
       (VObj [("_source", VObj [("event_title_text", VStr EmptyString)])])
     = Ok [].
Proof.
  split; [reflexivity |]. split.
  - exact (proj2 (X5_document_kept_iff_titled_and_not_archived iso_utc_parse
                    sample_doc sample_source sample_event
                    eq_refl eq_refl eq_refl)).
  - split; [reflexivity |].
    exact (proj2 (X5_document_kept_iff_titled_and_not_archived iso_utc_parse
                    (VObj [("_source",
                            VObj [("event_title_text", VStr EmptyString)])])
                    (VObj [("event_title_text", VStr EmptyString)])
                    (VObj [("title", VStr EmptyString)])
                    eq_refl eq_refl eq_refl)).
Defined.

Lemma X7_witness :
  snd (cleanJsonForLLM iso_utc_parse bad_start_batch) = Throw RangeError
  /\ Forall (fun d => printable_timestamps d = true)
            [titled_doc; VObj [("_source", bad_start_source)]]
  /\ fst (cleanJsonForLLM iso_utc_parse bad_start_batch) = [].
Proof.
  assert (H : Forall (fun d => printable_timestamps d = true)
                     [titled_doc; VObj [("_source", bad_start_source)]])
    by (repeat constructor).
  split; [reflexivity |]. split; [exact H |].
  exact (proj1 (proj2 (X7_only_an_undated_timestamp_throws iso_utc_parse
                         bad_start_batch _ RangeError eq_refl H eq_refl))).
Defined.

Lemma X8_witness :
  Forall2 (fun d evs => snd (cleanJsonForLLM iso_utc_parse d)
                        = Ok (events_object evs))
          [archived_batch; VNull; year_example; batch_with_gap]
          [[live_event]; []; [year_example_event];
           [live_event; year_example_event]]
  /\ events iso_utc_parse archived_batch VNull year_example batch_with_gap
     = ([ConsoleError invalid_input_message],
        Ok [live_event; year_example_event; live_event; year_example_event]).
Proof.
  assert (H : Forall2 (fun d evs => snd (cleanJsonForLLM iso_utc_parse d)
                                    = Ok (events_object evs))
                      [archived_batch; VNull; year_example; batch_with_gap]
                      [[live_event]; []; [year_example_event];
                       [live_event; year_example_event]])
    by (repeat constructor).
  split; [exact H |].
  exact (proj1 (X8_batches_concatenate_in_order iso_utc_parse _ _ H)).
Defined.

Lemma X9_witness :
  In bad_start_batch [year_example; bad_start_batch; archived_batch; VNull]
  /\ snd (cleanJsonForLLM iso_utc_parse bad_start_batch) = Throw RangeError
  /\ (exists e,
         snd (events iso_utc_parse year_example bad_start_batch archived_batch
                     VNull)
         = Throw e)
  /\ forall evs,
      snd (events iso_utc_parse year_example bad_start_batch archived_batch
                  VNull)
      <> Ok evs.
Proof.
  assert (Hin : In bad_start_batch
                   [year_example; bad_start_batch; archived_batch; VNull])
    by (right; left; reflexivity).
  split; [exact Hin |]. split; [reflexivity |].
  exact (X9_one_failing_batch_fails_the_combination iso_utc_parse
           [year_example; bad_start_batch; archived_batch; VNull]
           bad_start_batch RangeError Hin eq_refl).
Defined.

Lemma X10_witness :
  headers [VNull; VNum 5; VStr "ab"] = []
  /\ dataRows iso_utc_parse [VNull; VNum 5; VStr "ab"]
     = Ok [EmptyString; EmptyString; EmptyString]
  /\ Forall (fun r => plain_record r = true) header_example
  /\ (exists rows, dataRows iso_utc_parse header_example = Ok rows
                   /\ List.length rows = List.length header_example)
  /\ dataRows iso_utc_parse null_record_example = Throw TypeError
  /\ downloadJsonAsCsv iso_utc_parse true (VArr null_record_example) None
     = ([], Throw TypeError).
Proof.
  assert (Hp : Forall (fun r => plain_record r = true) header_example)
    by (repeat constructor).
  split; [reflexivity |]. split.
  - exact (proj1 (X10_rows_and_null_records iso_utc_parse true
                    [VNull; VNum 5; VStr "ab"] None) eq_refl).
  - split; [exact Hp |]. split.
    + exact (proj1 (proj2 (proj2 (X10_rows_and_null_records iso_utc_parse true
                                    header_example None))) Hp).
    + split; [reflexivity |].
      exact (proj2 (proj2 (proj2 (proj2 (X10_rows_and_null_records
                                           iso_utc_parse true
                                           null_record_example None)))
                      TypeError eq_refl)).
Defined.

Lemma X11_witness :
  snd (cleanJsonForLLM iso_utc_parse archived_batch)
  = Ok (events_object [live_event])
  /\ Forall (fun ev => plain_record ev = true) [live_event]
  /\ (exists rows, dataRows iso_utc_parse [live_event] = Ok rows
                   /\ List.length rows = List.length [live_event])
  /\ Forall (fun h => In h canonical_keys) (headers [live_event]).
Proof.
  assert (Hp : Forall (fun ev => plain_record ev = true) [live_event])
    by (repeat constructor).
  split; [reflexivity |]. split; [exact Hp |].
  destruct (X11_normalizer_output_exports iso_utc_parse true archived_batch
              [live_event] None eq_refl Hp) as (Hrows & Hhs & _).
  split; [exact Hrows | exact Hhs].
Defined.

Lemma X12_witness :
  escapeCsvCell VNull = escapeCsvCell (VStr EmptyString)
  /\ cell_text VNull = cell_text (VStr EmptyString)
  /\ read_csv (escapeCsvCell (VStr he_said_hi)) = [[chars he_said_hi]].
Proof.
  split; [reflexivity |]. split.
  - exact (proj1 (X12_escaping_is_injective VNull (VStr EmptyString) eq_refl)).
  - exact (proj2 (X12_escaping_is_injective (VStr he_said_hi)
                    (VStr he_said_hi) eq_refl)).
Defined.

Lemma X13_witness :
  Forall (fun r => plain_record r = true) [awkward_record; live_event]
  /\ headers [awkward_record; live_event]
     = ["title"; "details"; "location"; "status"]
  /\ exists body,
      csvString iso_utc_parse [awkward_record; live_event]
      = Ok (String.append BOM body)
      /\ read_csv body
         = map chars (headers [awkward_record; live_event])
           :: map (fun r =>
                     map (fun h => chars (cell_text
                                            (cell_value iso_utc_parse r h)))
                         (headers [awkward_record; live_event]))
                  [awkward_record; live_event].
Proof.
  assert (H : Forall (fun r => plain_record r = true)
                     [awkward_record; live_event])
    by (repeat constructor).
  split; [exact H |]. split; [reflexivity |].
  apply (X13_file_reads_back iso_utc_parse [awkward_record; live_event] H).
  - discriminate.
  - repeat constructor.
  - repeat constructor.
Defined.

Lemma X14_witness :
  (forall k, In k SOURCE_NAMES ->
             read sample_source k = read sample_source_bare k)
  /\ clean_doc iso_utc_parse sample_doc
     = clean_doc iso_utc_parse (VObj [("_source", sample_source_bare)]).
Proof.
  assert (H : forall k, In k SOURCE_NAMES ->
                        read sample_source k = read sample_source_bare k).
  { intros k Hk. cbn in Hk.
    repeat (destruct Hk as [<- | Hk]; [reflexivity |]). contradiction. }
  split; [exact H |].
  apply (X14_unread_fields_are_ignored iso_utc_parse sample_doc
           (VObj [("_source", sample_source_bare)])
           sample_source sample_source_bare);
    first [reflexivity | exact H].
Defined.

Lemma X15_witness :
  iso_utc_parse "2024-01-15T10:00:00.000Z" = Some 1705312800000
  /\ toISOString (Some 1705312800000) = Ok "2024-01-15T10:00:00.000Z"
  /\ get sample_event "start_time_utc" = Ok (VStr "2024-01-15T10:00:00.000Z")
  /\ cell iso_utc_parse sample_event "start_time_utc"
     = Ok "2024-01-15 10:00:00".
Proof.
  split; [reflexivity |]. split; [reflexivity |].
  assert (Hin : In ("strat_date_and_time_date", "start_time_utc") TIMESTAMPS)
    by (cbn; auto).
  exact (X15_timestamp_through_both_stages iso_utc_parse sample_doc
           sample_source sample_event (VStr "2024-01-15T10:00:00.000Z")
           "strat_date_and_time_date" "start_time_utc"
           "2024-01-15T10:00:00.000Z" 1705312800000
           eq_refl eq_refl eq_refl Hin eq_refl eq_refl eq_refl eq_refl
           eq_refl).
Defined.

Lemma X16_witness :
  Forall (fun r => plain_record r = true) header_example
  /\ headers header_example = ["a"; "b"; "c"]
  /\ dataRows iso_utc_parse header_example = Ok ["1,2,"; ",3,4"]
  /\ exists rows,
      dataRows iso_utc_parse header_example = Ok rows
      /\ List.length rows = List.length header_example.
Proof.
  assert (H : Forall (fun r => plain_record r = true) header_example)
    by (repeat constructor).
  split; [exact H |]. split; [reflexivity |]. split; [reflexivity |].
  destruct (X16_header_union_and_one_cell_per_header iso_utc_parse
              header_example) as (_ & _ & _ & Hrows).
  destruct (Hrows H) as (rows & Hr & Hlen & _).
  exists rows. split; [exact Hr | exact Hlen].
Defined.

(** The text written for the header example. *)
Lemma X17_witness :
  header_example <> []
  /\ Forall (fun r => plain_record r = true) header_example
  /\ Forall (fun h => inherited_name h = false) (headers header_example)
  /\ csvString iso_utc_parse header_example
     = Ok (String.append BOM
             (String.append "a,b,c"
                (String newline
                   (String.append "1,2,"
                      (String newline ",3,4")))))
  /\ downloadJsonAsCsv iso_utc_parse true (VArr header_example) None
     = ([Download "data.csv" csv_mime
           (String.append BOM
              (String.append "a,b,c"
                 (String newline
                    (String.append "1,2,"
                       (String newline ",3,4")))))],
        Ok tt).
Proof.
  assert (Hne : header_example <> []) by discriminate.
  assert (Hall : Forall (fun r => plain_record r = true) header_example)
    by (repeat constructor).
  assert (Hown : Forall (fun h => inherited_name h = false)
                        (headers header_example))
    by (repeat constructor).
  split; [exact Hne |]. split; [exact Hall |]. split; [exact Hown |].
  destruct (X17_text_of_plain_records iso_utc_parse true header_example None
              Hne Hall Hown)
    as (rows & Hr & _ & Hcsv & _ & _ & _ & Hexp).
  assert (rows = ["1,2,"; ",3,4"]) as -> by (vm_compute in Hr; congruence).
  split; [exact Hcsv | exact Hexp].
Defined.
